(** * cli-blockstack: the authentication broker and the backup-phrase format

    A shallow embedding of [auth.js] (identity discovery, profile
    reconciliation, the sign-in page, the two request handlers) and of
    [encrypt.js] (the backup-phrase authenticated-encryption format), with
    the properties the specification states about them and further
    properties of the same code.

    Conventions.
    - A JavaScript value that travels as JSON is a [jsval]; an object used
      as a dictionary is a [gmap string jsval].
    - A string is held as its UTF-8 text, one [ascii] per byte;
      [js_length] is the length JavaScript reports for it.
    - A promise is the value it settles to: [Resolved v] or [Rejected e].
      A synchronous [throw] inside a [.then] callback is a rejection.
    - Collaborators that live outside the two source files (the name
      registry, the storage hub, key derivation, the token and cipher
      libraries) are [Variable]s of the section that uses them. *)

From Equations Require Import Equations.
From stdpp Require Import gmap strings list fin_maps pretty.
From Stdlib Require Import ZArith Lia.
From Stdlib.Strings Require Import Byte Ascii.

Set Default Proof Using "Type".
Set Warnings "-register-all".
Local Open Scope Z_scope.
Local Open Scope string_scope.
Local Open Scope list_scope.

(** ** JavaScript values, errors and promises *)

Inductive jsval :=
| JUndefined
| JNull
| JBool (b : bool)
| JNum (n : Z)
| JStr (s : string)
| JArr (l : list jsval)
| JObj (m : gmap string jsval).

(** [!!v] in JavaScript. Numbers are kept as integers, so the only falsy
    number is zero. *)
Definition truthy (v : jsval) : bool :=
  match v with
  | JUndefined | JNull => false
  | JBool b => b
  | JNum n => negb (Z.eqb n 0)
  | JStr s => negb (String.eqb s "")
  | JArr _ | JObj _ => true
  end.

Inductive error :=
| Error (message : string)
| TypeError (message : string).

Definition message (e : error) : string :=
  match e with
  | Error m | TypeError m => m
  end.

Inductive promise (A : Type) :=
| Resolved (a : A)
| Rejected (e : error).
Arguments Resolved {A} a.
Arguments Rejected {A} e.

(** [p.then(k)] *)
Definition pthen {A B} (p : promise A) (k : A → promise B) : promise B :=
  match p with
  | Resolved a => k a
  | Rejected e => Rejected e
  end.

(** [p.catch(h)] *)
Definition pcatch {A} (p : promise A) (h : error → promise A) : promise A :=
  match p with
  | Resolved a => Resolved a
  | Rejected e => h e
  end.

#[global] Instance promise_ret : MRet promise := @Resolved.
#[global] Instance promise_bind : MBind promise :=
  fun A B k p => pthen p k.

(** [s.startsWith(p)] *)
Definition startsWith (s p : string) : bool := String.prefix p s.

(** ** Data model (auth.js, lines 40-47, and the documents it handles) *)

(** A profile document: a JSON object whose [apps] property, when it is
    neither [null] nor [undefined], maps an application origin to a
    storage read URL. [pf_fields] holds every other property. *)
Record Profile := {
  pf_fields : gmap string jsval;
  pf_apps : option (gmap string jsval)
}.

(** [{}] *)
Definition empty_object : Profile := {| pf_fields := ∅; pf_apps := None |}.

(** [{ 'type': '@Person', 'account': [], 'apps': {} }] *)
Definition default_profile : Profile :=
  {| pf_fields := {[ "type" := JStr "@Person"; "account" := JArr [] ]};
     pf_apps := Some ∅ |}.

Record NamedIdentityType := {
  name : string;
  idAddress : string;
  privateKey : string;
  index : Z;
  profile : option Profile;   (* [None]: a falsy value *)
  profileUrl : jsval
}.

(** What [nameLookup] resolves to: [error] is [None] when the object has
    no own property of that name. *)
Record NameData := {
  nd_error : option jsval;
  nd_profile : option Profile;
  nd_profileUrl : jsval
}.

(** The part of blockstack's [GaiaHubConfig] that auth.js reads. *)
Record GaiaHubConfig := {
  url_prefix : string;
  address : string
}.

(** ** Profile reconciliation (auth.js, lines 383-439) *)

Record ProfileUpdate := {
  up_profile : Profile;
  changed : bool
}.

(** [`${appGaiaConfig.url_prefix}${appGaiaConfig.address}/`] *)
Definition gaiaPrefix (appGaiaConfig : GaiaHubConfig) : string :=
  url_prefix appGaiaConfig +:+ address appGaiaConfig +:+ "/".

(** [o.hasOwnProperty(k)] on an object made by a literal or by
    [JSON.parse]. The method is inherited from [Object.prototype]; a
    property of the object's own under the name 'hasOwnProperty' hides it,
    and no JSON value is a function, so the call throws. *)
Definition hasOwnProperty (o : gmap string jsval) (k : string)
    : promise bool :=
  match o !! "hasOwnProperty" with
  | Some _ =>
      Rejected (TypeError "profile.apps.hasOwnProperty is not a function")
  | None =>
      Resolved match o !! k with
               | Some _ => true
               | None => false
               end
  end.

(** [o[k] = s] for a string [s]. A property of the object's own is
    updated. A new one is created, except under the name '__proto__':
    that assignment reaches the setter [Object.prototype] provides, which
    ignores a value that is neither an object nor [null]. *)
Definition assign (o : gmap string jsval) (k s : string)
    : gmap string jsval :=
  match o !! k with
  | Some _ => <[k := JStr s]> o
  | None => if String.eqb k "__proto__" then o else <[k := JStr s]> o
  end.

(** [profile.apps[appOrigin] = gaiaPrefix] *)
Definition set_app (p : Profile) (apps : gmap string jsval)
    (appOrigin prefix : string) : Profile :=
  {| pf_fields := pf_fields p;
     pf_apps := Some (assign apps appOrigin prefix) |}.

(** The callback of [profilePromise.then] (lines 396-438); [profileData]
    is [None] for [null], which is what a failed lookup is turned into.
    [entry] is [profile.apps[appOrigin]], which the code reads only after
    [hasOwnProperty] has answered yes. *)
Definition updateProfileApps_then (appOrigin : string)
    (appGaiaConfig : GaiaHubConfig) (profileData : option NameData)
    : promise ProfileUpdate :=
  let profile0 :=
    match profileData with
    | Some d => nd_profile d
    | None => None
    end in
  let '(profile1, need1) :=
    match profile0 with
    | None => (default_profile, true)
    | Some p => (p, false)
    end in
  let '(apps, need2) :=
    match pf_apps profile1 with
    | None => (∅, true)
    | Some a => (a, need1)
    end in
  let prefix := gaiaPrefix appGaiaConfig in
  let repaired :=
    Resolved {| up_profile := set_app profile1 apps appOrigin prefix;
                changed := true |} in
  owned ← hasOwnProperty apps appOrigin;
  let entry :=
    match apps !! appOrigin with
    | Some v => v
    | None => JUndefined
    end in
  if negb owned || negb (truthy entry) then repaired
  else
    match entry with
    | JStr s =>
        if negb (startsWith s prefix) then repaired
        else
          Resolved {| up_profile :=
                        {| pf_fields := pf_fields profile1;
                           pf_apps := Some apps |};
                      changed := need2 |}
    | _ => Rejected (TypeError "startsWith is not a function")
    end.

Section Reconciliation.
Variable nameLookup : string → promise (option NameData).

Definition updateProfileApps (id : NamedIdentityType) (appOrigin : string)
    (appGaiaConfig : GaiaHubConfig) : promise ProfileUpdate :=
  profileData ← pcatch (nameLookup (name id)) (fun _ => Resolved None);
  updateProfileApps_then appOrigin appGaiaConfig profileData.
End Reconciliation.

(** ** Identity discovery (auth.js, lines 177-305) *)

Record OwnerKeyInfo := {
  ki_idAddress : string;
  ki_privateKey : string
}.

(** [s.slice(n)] for a string. *)
Fixpoint slice_str (n : nat) (s : string) : string :=
  match n, s with
  | O, _ => s
  | S n', String _ r => slice_str n' r
  | S _, EmptyString => EmptyString
  end.

(** The registry requests a run issues, in order. *)
Inductive request :=
| ReqNamesOwned (addr : string)
| ReqNameLookup (blockstackID : string).

(** The [network] object: its process-wide address-coercion flag and the
    requests sent through it so far. *)
Record Network := {
  coerceMainnetAddress : bool;
  requests : list request
}.

Definition setCoerceMainnetAddress (b : bool) (net : Network) : Network :=
  {| coerceMainnetAddress := b; requests := requests net |}.

Definition sent (r : request) (net : Network) : Network :=
  {| coerceMainnetAddress := coerceMainnetAddress net;
     requests := requests net ++ [r] |}.

(** [{ name: '', idAddress, privateKey, index, profile: {}, profileUrl: '' }]
    and the entry pushed for each owned name. *)
Definition newIdentity (nm : string) (keyInfo : OwnerKeyInfo) (i : Z)
    : NamedIdentityType :=
  {| name := nm;
     idAddress := ki_idAddress keyInfo;
     privateKey := ki_privateKey keyInfo;
     index := i;
     profile := Some empty_object;
     profileUrl := JStr "" |}.

(** Lines 280-287: the body of the loop over [nameDatas]. *)
Definition attachOne (id : NamedIdentityType) (nd : NameData)
    : NamedIdentityType :=
  let has_error :=
    match nd_error nd with
    | Some e => truthy e
    | None => false
    end in
  if has_error then
    {| name := name id; idAddress := idAddress id;
       privateKey := privateKey id; index := index id;
       profile := profile id; profileUrl := JStr "" |}
  else
    {| name := name id; idAddress := idAddress id;
       privateKey := privateKey id; index := index id;
       profile := nd_profile nd; profileUrl := nd_profileUrl nd |}.

(** Lines 279-288: [for (let i = 0; i < nameDatas.length; i++)], writing
    through [identities[i]]; a write through a missing element throws. *)
Fixpoint attachNameDatas (i : nat) (nameDatas : list NameData)
    (identities : list NamedIdentityType)
    : promise (list NamedIdentityType) :=
  match nameDatas with
  | [] => Resolved identities
  | nd :: rest =>
      match identities !! i with
      | None => Rejected (TypeError "Cannot set properties of undefined")
      | Some id =>
          attachNameDatas (S i) rest (<[i := attachOne id nd]> identities)
      end
  end.

(** Line 277: [nameDatas.filter((p) => p !== null && p !== undefined)] *)
Definition dropNulls (nameDatas : list (option NameData)) : list NameData :=
  omap id nameDatas.

(** What the key derivation and the registry fix about an identity. *)
Definition identityOf (id : NamedIdentityType) : string * string * string * Z :=
  (name id, idAddress id, privateKey id, index id).

Section Discovery.
Variable mnemonic : string.
Variable getOwnerKeyInfo : string → Z → OwnerKeyInfo.
(** The registry's answers; they may depend on the coercion flag. *)
Variable getNamesOwned : bool → string → promise (list string).
Variable nameLookup : bool → string → promise (option NameData).

(** Lines 181-211. *)
Equations? loadNamedIdentitiesLoop (idx : Z)
    (identities : list NamedIdentityType) (net : Network)
    : promise (list NamedIdentityType) * Network
    by wf (Z.to_nat (65537 - idx)) lt :=
  loadNamedIdentitiesLoop idx identities net with Z_gt_dec idx 65536 := {
    | left _ => (Rejected (Error "Too many names"), net)
    | right _ =>
        let keyInfo := getOwnerKeyInfo mnemonic idx in
        let addr := slice_str 3 (ki_idAddress keyInfo) in
        let net' := sent (ReqNamesOwned addr) net in
        match getNamesOwned (coerceMainnetAddress net) addr with
        | Rejected e => (Rejected e, net')
        | Resolved nameList =>
            if Nat.eqb (length nameList) 0 then
              (Resolved identities, net')
            else
              loadNamedIdentitiesLoop (idx + 1)
                (identities ++
                   map (fun nm => newIdentity nm keyInfo idx) nameList)
                net'
        end }.
Proof. lia. Qed.

(** Lines 217-220. *)
Definition loadNamedIdentities (net : Network)
    : promise (list NamedIdentityType) * Network :=
  loadNamedIdentitiesLoop 0 [] net.

(** Lines 226-237. *)
Definition loadUnnamedIdentity (idx : Z) : NamedIdentityType :=
  newIdentity "" (getOwnerKeyInfo mnemonic idx) idx.

(** Lines 264-270: one lookup per identity, each with its own
    [.catch(() => null)]. *)
Fixpoint nameInfoPromises (ids : list NamedIdentityType) (net : Network)
    : list (option NameData) * Network :=
  match ids with
  | [] => ([], net)
  | id :: rest =>
      let nameInfo :=
        match nameLookup (coerceMainnetAddress net) (name id) with
        | Resolved d => d
        | Rejected _ => None
        end in
      let '(others, net') :=
        nameInfoPromises rest (sent (ReqNameLookup (name id)) net) in
      (nameInfo :: others, net')
  end.

(** Lines 255-305. *)
Definition getIdentityInfo (net : Network)
    : promise (list NamedIdentityType) * Network :=
  let net1 := setCoerceMainnetAddress true net in
  match loadNamedIdentities net1 with
  | (Rejected e, net2) => (Rejected e, setCoerceMainnetAddress false net2)
  | (Resolved ids, net2) =>
      let '(nameDatas, net3) := nameInfoPromises ids net2 in
      let net4 := setCoerceMainnetAddress false net3 in
      match attachNameDatas 0 (dropNulls nameDatas) ids with
      | Rejected e => (Rejected e, setCoerceMainnetAddress false net4)
      | Resolved identities =>
          let nextIndex := Z.of_nat (length identities) + 1 in
          let kept := filter (fun id => truthy (profileUrl id) = true)
                        identities in
          (Resolved (kept ++ [loadUnnamedIdentity nextIndex]), net4)
      end
  end.
End Discovery.

(** ** The sign-in handler (auth.js, lines 56-72 and 455-568) *)

(** The metadata envelope [makeSignInLink] puts into a credential
    (lines 105-113). *)
Record HandshakeMetadata := {
  md_id : NamedIdentityType;
  md_profileUrl : jsval;
  md_appOrigin : string;
  md_redirect_uri : string;
  md_scopes : list string;
  md_salt : string
}.

(** What [jsontokens.decodeToken(t).payload] is for the two kinds of
    token the handler decodes: the signed envelope [{ json: ... }] around
    the encrypted credential, and the credential itself. *)
Inductive DecodedPayload :=
| EnvelopePayload (json : jsval)
| CredentialPayload (claims : gmap string jsval) (metadata : HandshakeMetadata).

(** The payload of the token handed to the application: the credential's
    claims and whatever object the handler stores under [metadata]. *)
Record OutwardPayload := {
  op_claims : gmap string jsval;
  op_metadata : gmap string jsval
}.

(** What [gaiaUploadProfileAll] resolves to. *)
Record UploadResult := {
  dataUrls : jsval;
  upload_error : option string   (* [None]: no such property, or [null] *)
}.

(** Calls that reach a storage hub. *)
Inductive HubCall :=
| GaiaConnect (hubUrl : string) (appPrivateKey : string)
| GaiaUploadProfileAll (hubUrls : list string) (profileJWT : string)
    (ownerPrivateKey : string) (blockstackID : string).

Inductive Response :=
| SendJSON (data : gmap string jsval) (statusCode : Z)
| Redirect (statusCode : Z) (location : string).

Definition statusOf (r : Response) : Z :=
  match r with
  | SendJSON _ c => c
  | Redirect c _ => c
  end.

(** The closure variables of [handleSignIn] that its steps assign
    (lines 471-472), and the hub calls made so far. *)
Record Handler := {
  errorMsg : option string;        (* [None]: still [undefined] *)
  errorStatusCode : Z;
  hubCalls : list HubCall
}.

(** One step of the promise chain: it settles and leaves a handler state. *)
Definition step (A : Type) : Type := Handler → promise A * Handler.

#[global] Instance step_ret : MRet step := fun A a h => (Resolved a, h).
#[global] Instance step_bind : MBind step := fun A B k m h =>
  match m h with
  | (Resolved a, h') => k a h'
  | (Rejected e, h') => (Rejected e, h')
  end.

Definition await {A} (p : promise A) : step A := fun h => (p, h).
Definition throw {A} (e : error) : step A := fun h => (Rejected e, h).
Definition setErrorMsg (m : string) : step unit := fun h =>
  (Resolved tt, {| errorMsg := Some m; errorStatusCode := errorStatusCode h;
                   hubCalls := hubCalls h |}).
Definition setErrorStatusCode (c : Z) : step unit := fun h =>
  (Resolved tt, {| errorMsg := errorMsg h; errorStatusCode := c;
                   hubCalls := hubCalls h |}).
Definition hubCall (c : HubCall) : step unit := fun h =>
  (Resolved tt, {| errorMsg := errorMsg h; errorStatusCode := errorStatusCode h;
                   hubCalls := hubCalls h ++ [c] |}).

(** [`${errorMsg}`] *)
Definition showErrorMsg (m : option string) : string :=
  match m with
  | Some s => s
  | None => "undefined"
  end.

(** [req.query.encAuthResponse] is falsy when missing or empty. *)
Definition given (q : option string) : option string :=
  match q with
  | Some s => if String.eqb s "" then None else Some s
  | None => None
  end.

(** [scopes.includes('store_write')] *)
Definition includes (scopes : list string) (s : string) : bool :=
  bool_decide (s ∈ scopes).

(** The initial values of the closure variables (lines 471-472). *)
Definition start : Handler :=
  {| errorMsg := None; errorStatusCode := 400; hubCalls := [] |}.

(** [gaiaUrls.hasOwnProperty('error') && gaiaUrls.error] *)
Definition uploadFailed (gaiaUrls : UploadResult) : bool :=
  match upload_error gaiaUrls with
  | Some e => negb (String.eqb e "")
  | None => false
  end.

Definition isUpload (c : HubCall) : bool :=
  match c with
  | GaiaUploadProfileAll _ _ _ _ => true
  | GaiaConnect _ _ => false
  end.

Section SignIn.
(** Process-wide transit key pair (lines 50-51) and network settings. *)
Variable authTransitKey authTransitPubkey : string.
Variable blockstackAPIUrl : string.
(** keys.js and data.js *)
Variable AppKeyInfo : Type.
Variable getApplicationKeyInfo :
  string → string → string → Z → promise AppKeyInfo.
Variable getGaiaAddressFromProfile : option Profile → string → promise string.
Variable extractAppKey : AppKeyInfo → option string → promise string.
Variable gaiaConnect : string → string → promise GaiaHubConfig.
Variable gaiaUploadProfileAll :
  list string → string → string → string → promise UploadResult.
(** utils.js *)
Variable nameLookup : string → promise (option NameData).
Variable makeProfileJWT : Profile → string → string.
(** jsontokens and blockstack.js *)
Variable TokenVerifier_verify : string → string → string → promise bool.
Variable decodeToken : string → promise DecodedPayload.
Variable TokenSigner_sign : string → string → OutwardPayload → string.
Variable decryptContent : jsval → string → promise string.
Variable verifyAuthResponse : string → string → promise bool.
Variable updateQueryStringParameter : string → string → string → string.

(** Lines 56-72. *)
Definition getAppPrivateKey (mnemonic : string) (id : NamedIdentityType)
    (appOrigin : string) : promise string :=
  appKeyInfo ← getApplicationKeyInfo mnemonic (idAddress id) appOrigin
                 (index id);
  pcatch
    (existingAppAddress ← getGaiaAddressFromProfile (profile id) appOrigin;
     extractAppKey appKeyInfo (Some existingAppAddress))
    (fun _ => extractAppKey appKeyInfo None).

(** [encAuthResponsePayload.json] *)
Definition payload_json (p : DecodedPayload) : jsval :=
  match p with
  | EnvelopePayload j => j
  | CredentialPayload _ _ => JUndefined
  end.

(** Lines 482-498. *)
Definition verifyAndDecrypt (encAuthResponse : string)
    : step (string * bool) :=
  valid ← await (TokenVerifier_verify "ES256K" authTransitPubkey
                   encAuthResponse);
  if negb valid then
    throw (Error
      "Invalid encrypted auth response: not signed by this authenticator")
  else
    encAuthResponsePayload ← await (decodeToken encAuthResponse);
    authResponse ← await (decryptContent
                            (payload_json encAuthResponsePayload)
                            authTransitKey);
    valid' ← await (verifyAuthResponse authResponse
                      (blockstackAPIUrl +:+ "/v1/names/"));
    mret (authResponse, valid').

(** Lines 499-527: everything the later steps need is returned; the
    token is the one re-signed on line 521. *)
Definition rebuildAndConnect (mnemonic appGaiaHub : string)
    (verified : string * bool)
    : step (HandshakeMetadata * string * GaiaHubConfig) :=
  let '(authResponse, valid) := verified in
  if negb valid then
    _ ← setErrorMsg ("Unable to verify authResponse token " +:+ authResponse);
    throw (Error ("Unable to verify authResponse token " +:+ authResponse))
  else
    authResponsePayload ← await (decodeToken authResponse);
    match authResponsePayload with
    | EnvelopePayload _ =>
        throw (TypeError "Cannot read properties of undefined")
    | CredentialPayload claims metadata =>
        let id := md_id metadata in
        let profileUrl := md_profileUrl metadata in
        let appOrigin := md_appOrigin metadata in
        appPrivateKey ← await (getAppPrivateKey mnemonic id appOrigin);
        let stripped :=
          {| op_claims := claims;
             op_metadata := {[ "profileUrl" := profileUrl ]} |} in
        let authResponse' :=
          TokenSigner_sign "ES256K" (privateKey id) stripped in
        _ ← hubCall (GaiaConnect appGaiaHub appPrivateKey);
        appHubConfig ← await (gaiaConnect appGaiaHub appPrivateKey);
        mret (metadata, authResponse', appHubConfig)
    end.

(** Lines 531-547. *)
Definition uploadIfNeeded (profileGaiaHub : string)
    (metadata : HandshakeMetadata) (newProfileData : ProfileUpdate)
    : step UploadResult :=
  let id := md_id metadata in
  let needProfileUpdate :=
    changed newProfileData && includes (md_scopes metadata) "store_write" in
  if needProfileUpdate then
    let profileJWT :=
      makeProfileJWT (up_profile newProfileData) (privateKey id) in
    _ ← hubCall (GaiaUploadProfileAll [profileGaiaHub] profileJWT
                   (privateKey id) (name id));
    await (gaiaUploadProfileAll [profileGaiaHub] profileJWT
             (privateKey id) (name id))
  else
    mret {| dataUrls := JArr []; upload_error := None |}.

(** Lines 548-561. *)
Definition respond (metadata : HandshakeMetadata) (authResponse : string)
    (gaiaUrls : UploadResult) : step Response :=
  if uploadFailed gaiaUrls then
    let msg := "Failed to upload new profile: " +:+
               default "null" (upload_error gaiaUrls) in
    _ ← setErrorMsg msg;
    _ ← setErrorStatusCode 502;
    throw (Error msg)
  else
    mret (Redirect 302 (updateQueryStringParameter (md_redirect_uri metadata)
                          "authResponse" authResponse)).

(** The promise chain of lines 482-561. *)
Definition signInChain (mnemonic appGaiaHub profileGaiaHub : string)
    (encAuthResponse : string) : step Response :=
  verified ← verifyAndDecrypt encAuthResponse;
  '(metadata, authResponse, appHubConfig) ←
    rebuildAndConnect mnemonic appGaiaHub verified;
  newProfileData ← await (updateProfileApps nameLookup (md_id metadata)
                            (md_appOrigin metadata) appHubConfig);
  gaiaUrls ← uploadIfNeeded profileGaiaHub metadata newProfileData;
  respond metadata authResponse gaiaUrls.

(** The chain up to and including reconciliation (lines 482-530): what
    the steps after it get to see. *)
Definition reconcile (mnemonic appGaiaHub : string) (encAuthResponse : string)
    : step (HandshakeMetadata * string * ProfileUpdate) :=
  verified ← verifyAndDecrypt encAuthResponse;
  '(metadata, authResponse, appHubConfig) ←
    rebuildAndConnect mnemonic appGaiaHub verified;
  newProfileData ← await (updateProfileApps nameLookup (md_id metadata)
                            (md_appOrigin metadata) appHubConfig);
  mret (metadata, authResponse, newProfileData).

(** Lines 455-568: the response sent and the hub calls made. *)
Definition handleSignIn (mnemonic appGaiaHub profileGaiaHub : string)
    (encAuthResponse : option string) : Response * list HubCall :=
  match given encAuthResponse with
  | None =>
      (SendJSON {[ "error" := JStr "No encAuthResponse given" ]} 400, [])
  | Some enc =>
      match signInChain mnemonic appGaiaHub profileGaiaHub enc start with
      | (Resolved r, h) => (r, hubCalls h)
      | (Rejected _, h) =>
          (SendJSON
             {[ "error" := JStr ("Unable to process signin request: " +:+
                                 showErrorMsg (errorMsg h)) ]}
             (errorStatusCode h),
           hubCalls h)
      end
  end.
End SignIn.

(** ** The backup-phrase format (encrypt.js) *)

(** A [Buffer]. *)
Abbreviation bytes := (list byte).

(** [buf.slice(a, b)] and [buf.slice(a)]: both ends are clamped. *)
Definition slice (a b : nat) (buf : bytes) : bytes := take (b - a) (drop a buf).
Definition slice_from (a : nat) (buf : bytes) : bytes := drop a buf.

Definition hex_digit (n : N) : ascii :=
  match n with
  | 0 => "0" | 1 => "1" | 2 => "2" | 3 => "3" | 4 => "4" | 5 => "5"
  | 6 => "6" | 7 => "7" | 8 => "8" | 9 => "9" | 10 => "a" | 11 => "b"
  | 12 => "c" | 13 => "d" | 14 => "e" | _ => "f"
  end%N%char.

Definition hex_value (c : ascii) : option N :=
  let n := Ascii.N_of_ascii c in
  if (48 <=? n)%N && (n <=? 57)%N then Some (n - 48)%N
  else if (97 <=? n)%N && (n <=? 102)%N then Some (n - 87)%N
  else if (65 <=? n)%N && (n <=? 70)%N then Some (n - 55)%N
  else None.

(** [buf.toString('hex')] *)
Fixpoint to_hex (buf : bytes) : string :=
  match buf with
  | [] => EmptyString
  | x :: rest =>
      String (hex_digit (Byte.to_N x / 16))
        (String (hex_digit (Byte.to_N x mod 16)) (to_hex rest))
  end.

(** [Buffer.from(s, 'hex')]: decoding stops at the first pair that is not
    two hex digits; a trailing single digit is dropped. *)
Fixpoint from_hex (s : string) : bytes :=
  match s with
  | String a (String b rest) =>
      match hex_value a, hex_value b with
      | Some h, Some l =>
          match Byte.of_N (16 * h + l) with
          | Some x => x :: from_hex rest
          | None => []
          end
      | _, _ => []
      end
  | _ => []
  end.

(** What [decryptBackupPhrase] resolves to: the mnemonic string of the
    current format, or the plaintext buffer of the legacy one. *)
Inductive Phrase :=
| PhraseString (mnemonic : string)
| PhraseBuffer (plaintextBuffer : bytes).

Definition dquote : string := String (Ascii.ascii_of_nat 34) EmptyString.

Section BackupPhrase.
(** bip39 *)
Variable validateMnemonic : string → bool.
Variable mnemonicToEntropy : string → promise string.   (* a hex string *)
Variable entropyToMnemonic : string → promise string.
(** crypto *)
Variable Rng : Type.
Variable randomBytes : nat → Rng → bytes * Rng.
Variable pbkdf2Sync : string → bytes → Z → nat → string → bytes.
Variable createCipheriv : string → bytes → bytes → bytes → bytes.
Variable createDecipheriv : string → bytes → bytes → bytes → promise bytes.
Variable createHmac : string → bytes → bytes → bytes.
Variable createHash : string → bytes → bytes.
(** triplesec *)
Variable triplesec_decrypt : string → bytes → promise bytes.

(** Lines 10-16. *)
Definition normalizeMnemonic (mnemonic : string) : promise string :=
  mnemonicToEntropy mnemonic.

Definition denormalizeMnemonic (normalizedMnemonic : string)
    : promise string :=
  entropyToMnemonic normalizedMnemonic.

(** Lines 18-49; [plaintext] is [plaintextBuffer.toString()]. The
    cipher's [update] and [final] outputs are taken together. *)
Definition encryptMnemonic (plaintext password : string) (g : Rng)
    : promise bytes * Rng :=
  if negb (validateMnemonic plaintext) then
    (Rejected (Error "Not a valid bip39 nmemonic"), g)
  else
    match normalizeMnemonic plaintext with
    | Rejected e => (Rejected e, g)
    | Resolved entropyHex =>
        let plaintextNormalized := from_hex entropyHex in
        let '(salt, g') := randomBytes 16 g in
        let keysAndIV := pbkdf2Sync password salt 100000 48 "sha512" in
        let encKey := slice 0 16 keysAndIV in
        let macKey := slice 16 32 keysAndIV in
        let iv := slice 32 48 keysAndIV in
        let cipherText :=
          to_hex (createCipheriv "aes-128-cbc" encKey iv
                    plaintextNormalized) in
        let hmacPayload := salt ++ from_hex cipherText in
        let hmacDigest := createHmac "sha256" macKey hmacPayload in
        (Resolved (salt ++ hmacDigest ++ from_hex cipherText), g')
    end.

(** Lines 51-95. The decipher runs (and may throw from [final]) before
    the two digests are compared. *)
Definition decryptMnemonic (dataBuffer : bytes) (password : string)
    : promise string :=
  let salt := slice 0 16 dataBuffer in
  let hmacSig := slice 16 48 dataBuffer in
  let cipherText := slice_from 48 dataBuffer in
  let hmacPayload := salt ++ cipherText in
  let keysAndIV := pbkdf2Sync password salt 100000 48 "sha512" in
  let encKey := slice 0 16 keysAndIV in
  let macKey := slice 16 32 keysAndIV in
  let iv := slice 32 48 keysAndIV in
  decrypted ← createDecipheriv "aes-128-cbc" encKey iv
                (from_hex (to_hex cipherText));
  let plaintext := to_hex decrypted in
  let hmacDigest := createHmac "sha256" macKey hmacPayload in
  let hmacSigHash := to_hex (createHash "sha256" hmacSig) in
  let hmacDigestHash := to_hex (createHash "sha256" hmacDigest) in
  if negb (String.eqb hmacSigHash hmacDigestHash) then
    Rejected (Error "Wrong password (HMAC mismatch)")
  else
    mnemonic ← denormalizeMnemonic plaintext;
    if negb (validateMnemonic mnemonic) then
      Rejected (Error "Wrong password (invalid plaintext)")
    else
      Resolved mnemonic.

(** Lines 98-100. *)
Definition encryptBackupPhrase (plaintext password : string) (g : Rng)
    : promise bytes * Rng :=
  encryptMnemonic plaintext password g.

(** Lines 102-122. *)
Definition decryptBackupPhrase (dataBuffer : bytes) (password : string)
    : promise Phrase :=
  match decryptMnemonic dataBuffer password with
  | Resolved mnemonic => Resolved (PhraseString mnemonic)
  | Rejected e =>
      match triplesec_decrypt password dataBuffer with
      | Resolved plaintextBuffer => Resolved (PhraseBuffer plaintextBuffer)
      | Rejected err =>
          Rejected (Error ("current algorithm: " +:+ dquote +:+ message e
                           +:+ dquote +:+ ", legacy algorithm: " +:+ dquote
                           +:+ message err +:+ dquote))
      end
  end.
End BackupPhrase.


(** ** The sign-in page (auth.js, lines 35-38, 77-174 and 318-377) *)

Definition SIGNIN_HEADER : string :=
  "<html><head></head></body><h2>Blockstack CLI Sign-in</h2><br>".
Definition SIGNIN_FMT_NAME : string :=
  "<p><a href=" +:+ dquote +:+ "{authRedirect}" +:+ dquote +:+
  ">{blockstackID}</a> ({idAddress})</p>".
Definition SIGNIN_FMT_ID : string :=
  "<p><a href=" +:+ dquote +:+ "{authRedirect}" +:+ dquote +:+
  ">{idAddress}</a> (anonymous)</p>".
Definition SIGNIN_FOOTER : string := "</body></html>".

(** [s.slice(n)] for [0 ≤ n]. *)
Fixpoint string_drop (n : nat) (s : string) : string :=
  match n, s with
  | O, _ => s
  | S n', String _ rest => string_drop n' rest
  | S _, EmptyString => EmptyString
  end.

(** The first occurrence of a literal pattern: the text before it and the
    text after it. *)
Fixpoint search (pattern s : string) : option (string * string) :=
  if startsWith s pattern then
    Some (EmptyString, string_drop (String.length pattern) s)
  else
    match s with
    | EmptyString => None
    | String c rest =>
        match search pattern rest with
        | Some (before, after) => Some (String c before, after)
        | None => None
        end
    end.

(** The replacement text of [String.prototype.replace] for a pattern
    without capture groups: [$$] is a dollar sign, [$&] the matched text,
    [$`] the text before the match and [$'] the text after it; any other
    dollar sign stands for itself. *)
Fixpoint getSubstitution (matched before after replacement : string)
    : string :=
  match replacement with
  | EmptyString => EmptyString
  | String c tail =>
      if Ascii.eqb c "$" then
        match tail with
        | String d rest =>
            if Ascii.eqb d "$" then
              String "$" (getSubstitution matched before after rest)
            else if Ascii.eqb d "&" then
              matched +:+ getSubstitution matched before after rest
            else if Ascii.eqb d "`" then
              before +:+ getSubstitution matched before after rest
            else if Ascii.eqb d "'" then
              after +:+ getSubstitution matched before after rest
            else String c (getSubstitution matched before after tail)
        | EmptyString => String c EmptyString
        end
      else String c (getSubstitution matched before after tail)
  end.

(** [s.replace(/pattern/, replacement)] for a pattern that is a literal:
    the first occurrence is replaced, and a string without one is
    returned as it is. *)
Definition String_replace (pattern replacement s : string) : string :=
  match search pattern s with
  | Some (before, after) =>
      before +:+ getSubstitution pattern before after replacement +:+ after
  | None => s
  end.

(** The payload of the authentication request, as far as the page
    builder reads it. *)
Record AuthRequest := {
  ar_domain_name : string;
  ar_public_keys : list string;
  ar_redirect_uri : string;
  ar_scopes : list string
}.

(** Lines 144-167: the entry of one identity, given its sign-in link. *)
Definition signinEntry (link : string) (id : NamedIdentityType) : string :=
  if negb (String.eqb (name id) "") then
    String_replace "{idAddress}" (idAddress id)
      (String_replace "{blockstackID}" (name id)
         (String_replace "{authRedirect}" link SIGNIN_FMT_NAME))
  else
    String_replace "{idAddress}" (idAddress id)
      (String_replace "{authRedirect}" link SIGNIN_FMT_ID).

(** [s.length]. A string is held as its UTF-8 text, one [ascii] per byte,
    and JavaScript counts UTF-16 code units: one for a character of one,
    two or three bytes, two (a surrogate pair) for a character of four
    bytes. A continuation byte counts for nothing. *)
Definition utf16_units (c : ascii) : nat :=
  let n := Ascii.N_of_ascii c in
  if (n <? 128)%N then 1%nat
  else if (n <? 192)%N then 0%nat
  else if (n <? 240)%N then 1%nat
  else 2%nat.

Fixpoint js_length (s : string) : nat :=
  match s with
  | EmptyString => 0%nat
  | String c rest => (utf16_units c + js_length rest)%nat
  end.

(** What [handleAuth] writes to the response: [sendJSON], or the page
    with its two headers. *)
Inductive AuthResponse :=
| AuthJSON (data : gmap string jsval) (statusCode : Z)
| AuthPage (statusCode : Z) (contentType : string) (contentLength : nat)
    (body : string).

(** The values [makeSignInLink] computes on its way to the link: the
    application key, the claims of the provisional credential, the salt,
    the credential it signs, its encrypted form, and the signed envelope. *)
Record LinkParts := {
  lp_appPrivateKey : string;
  lp_claims : gmap string jsval;
  lp_salt : bytes;
  lp_authResponse : string;
  lp_encryptedAuthResponseJSON : jsval;
  lp_encAuthResponse : string
}.

(** A computation that may draw random bytes and may throw. *)
Definition rand (Rng A : Type) : Type := Rng → promise A * Rng.

(** A step that draws nothing. *)
Definition settled {Rng A} (p : promise A) : rand Rng A := fun g => (p, g).

(** Lines 367-376: the message shown is the one the chain recorded last;
    the message of the error itself is used only when none was recorded. *)
Definition authError (errorMsg : option string) (e : error) : AuthResponse :=
  let shown :=
    match errorMsg with
    | Some m => if String.eqb m "" then message e else m
    | None => message e
    end in
  AuthJSON
    {[ "error" := JStr ("Unable to authenticate app request: " +:+ shown) ]}
    400.

Section SignInPage.
(** Process-wide transit key pair (lines 50-51) and the configured API. *)
Variable authTransitKey authTransitPubkey : string.
Variable config_blockstackAPIUrl : string.
(** keys.js and data.js *)
Variable AppKeyInfo : Type.
Variable getApplicationKeyInfo :
  string → string → string → Z → promise AppKeyInfo.
Variable getGaiaAddressFromProfile : option Profile → string → promise string.
Variable extractAppKey : AppKeyInfo → option string → promise string.
Variable makeAssociationToken : string → string → promise string.
(** crypto *)
Variable Rng : Type.
Variable randomBytes : nat → Rng → bytes * Rng.
(** blockstack.js and jsontokens; the two that draw randomness of their
    own take the generator. *)
Variable makeAuthResponse :
  string → jsval → string → jsval → jsval → string → jsval → option string →
  string → string → string → rand Rng string.
Variable decodePayload : string → promise (gmap string jsval).
Variable TokenSigner_sign : string → string → DecodedPayload → string.
Variable encryptContent : string → string → rand Rng jsval.
Variable updateQueryStringParameter : string → string → string → string.
Variable verifyAuthRequest : string → promise bool.
Variable Manifest : Type.
Variable fetchAppManifest : string → promise Manifest.
(** [decodeToken(authToken).payload]; [None] is a falsy payload. *)
Variable decodeAuthRequest : string → promise (option AuthRequest).
(** keys.js and the registry, as in identity discovery *)
Variable getOwnerKeyInfo : string → Z → OwnerKeyInfo.
Variable getNamesOwned : bool → string → promise (list string).
Variable nameLookup : bool → string → promise (option NameData).

(** Sequencing: a rejection ends the computation and keeps the generator
    as it is at that point. *)
#[local] Instance rand_ret : MRet (rand Rng) := fun A a g => (Resolved a, g).
#[local] Instance rand_bind : MBind (rand Rng) := fun A B k m g =>
  match m g with
  | (Resolved a, g') => k a g'
  | (Rejected e, g') => (Rejected e, g')
  end.

(** Lines 105-113. *)
Definition linkMetadata (authRequest : AuthRequest) (id : NamedIdentityType)
    (salt : bytes) : HandshakeMetadata :=
  {| md_id := id;
     md_profileUrl := profileUrl id;
     md_appOrigin := ar_domain_name authRequest;
     md_redirect_uri := ar_redirect_uri authRequest;
     md_scopes := ar_scopes authRequest;
     md_salt := to_hex salt |}.

(** Lines 77-128. *)
Definition makeSignInLink (authPort : Z) (mnemonic : string)
    (authRequest : AuthRequest) (hubUrl : string) (id : NamedIdentityType)
    : rand Rng string :=
  let appOrigin := ar_domain_name authRequest in
  _ ← settled (getApplicationKeyInfo mnemonic (idAddress id) appOrigin
                 (index id));
  appPrivateKey ← settled
    (getAppPrivateKey AppKeyInfo getApplicationKeyInfo
       getGaiaAddressFromProfile extractAppKey mnemonic id appOrigin);
  associationToken ← settled
    (makeAssociationToken appPrivateKey (privateKey id));
  authResponseTmp ←
    makeAuthResponse (privateKey id) (JObj ∅) (name id)
      (JObj {[ "email" := JNull; "profileUrl" := profileUrl id ]})
      JNull appPrivateKey JUndefined (head (ar_public_keys authRequest))
      hubUrl config_blockstackAPIUrl associationToken;
  authResponsePayload ← settled (decodePayload authResponseTmp);
  salt ← (fun g => let '(b, g') := randomBytes 16 g in (Resolved b, g'));
  let authResponse :=
    TokenSigner_sign "ES256k" (privateKey id)
      (CredentialPayload (delete "metadata" authResponsePayload)
         (linkMetadata authRequest id salt)) in
  encryptedAuthResponseJSON ← encryptContent authResponse authTransitPubkey;
  let encAuthResponse :=
    TokenSigner_sign "ES256k" authTransitKey
      (EnvelopePayload encryptedAuthResponseJSON) in
  mret (updateQueryStringParameter
          ("http://localhost:" +:+ pretty authPort +:+ "/signin")
          "encAuthResponse" encAuthResponse).

(** Lines 84-124 once more, keeping the intermediate values instead of
    building the link from the last of them. *)
Definition signInLinkParts (mnemonic : string) (authRequest : AuthRequest)
    (hubUrl : string) (id : NamedIdentityType) : rand Rng LinkParts :=
  let appOrigin := ar_domain_name authRequest in
  _ ← settled (getApplicationKeyInfo mnemonic (idAddress id) appOrigin
                 (index id));
  appPrivateKey ← settled
    (getAppPrivateKey AppKeyInfo getApplicationKeyInfo
       getGaiaAddressFromProfile extractAppKey mnemonic id appOrigin);
  associationToken ← settled
    (makeAssociationToken appPrivateKey (privateKey id));
  authResponseTmp ←
    makeAuthResponse (privateKey id) (JObj ∅) (name id)
      (JObj {[ "email" := JNull; "profileUrl" := profileUrl id ]})
      JNull appPrivateKey JUndefined (head (ar_public_keys authRequest))
      hubUrl config_blockstackAPIUrl associationToken;
  authResponsePayload ← settled (decodePayload authResponseTmp);
  salt ← (fun g => let '(b, g') := randomBytes 16 g in (Resolved b, g'));
  let authResponse :=
    TokenSigner_sign "ES256k" (privateKey id)
      (CredentialPayload (delete "metadata" authResponsePayload)
         (linkMetadata authRequest id salt)) in
  encryptedAuthResponseJSON ← encryptContent authResponse authTransitPubkey;
  mret {| lp_appPrivateKey := appPrivateKey;
          lp_claims := delete "metadata" authResponsePayload;
          lp_salt := salt;
          lp_authResponse := authResponse;
          lp_encryptedAuthResponseJSON := encryptedAuthResponseJSON;
          lp_encAuthResponse :=
            TokenSigner_sign "ES256k" authTransitKey
              (EnvelopePayload encryptedAuthResponseJSON) |}.

(** The links of a list of identities, made from left to right. *)
Fixpoint makeSignInLinks (authPort : Z) (mnemonic : string)
    (authRequest : AuthRequest) (hubUrl : string)
    (ids : list NamedIdentityType) : rand Rng (list string) :=
  match ids with
  | [] => mret []
  | id :: rest =>
      link ← makeSignInLink authPort mnemonic authRequest hubUrl id;
      links ← makeSignInLinks authPort mnemonic authRequest hubUrl rest;
      mret (link :: links)
  end.

(** Lines 143-170: the loop, with [signinBody] as its accumulator. *)
Fixpoint makeAuthPageLoop (authPort : Z) (mnemonic hubUrl : string)
    (authRequest : AuthRequest) (ids : list NamedIdentityType)
    (signinBody : string) : rand Rng string :=
  match ids with
  | [] => mret signinBody
  | id :: rest =>
      link ← makeSignInLink authPort mnemonic authRequest hubUrl id;
      makeAuthPageLoop authPort mnemonic hubUrl authRequest rest
        (signinBody +:+ signinEntry link id)
  end.

(** Lines 133-174. *)
Definition makeAuthPage (authPort : Z) (mnemonic hubUrl : string)
    (manifest : Manifest) (authRequest : AuthRequest)
    (ids : list NamedIdentityType) : rand Rng string :=
  signinBody ← makeAuthPageLoop authPort mnemonic hubUrl authRequest ids
                 SIGNIN_HEADER;
  mret (signinBody +:+ SIGNIN_FOOTER).

(** Lines 318-377: the response written, and the registry and the
    generator as the handler leaves them. *)
Definition handleAuth (mnemonic gaiaHubUrl profileGaiaHub : string)
    (port : Z) (authRequest : option string) (net : Network) (g : Rng)
    : AuthResponse * Network * Rng :=
  match given authRequest with
  | None => (AuthJSON {[ "error" := JStr "No authRequest given" ]} 400, net, g)
  | Some authToken =>
      match getIdentityInfo mnemonic getOwnerKeyInfo getNamesOwned nameLookup
              net with
      | (Rejected e, net') => (authError None e, net', g)
      | (Resolved identities, net') =>
          let errorMsg := Some "Unable to verify authentication token" in
          match verifyAuthRequest authToken with
          | Rejected e => (authError errorMsg e, net', g)
          | Resolved false =>
              let errorMsg :=
                "Invalid authentication token: could not verify" in
              (authError (Some errorMsg) (Error errorMsg), net', g)
          | Resolved true =>
              let errorMsg := Some "Unable to fetch app manifest" in
              match fetchAppManifest authToken with
              | Rejected e => (authError errorMsg e, net', g)
              | Resolved appManifest =>
                  match decodeAuthRequest authToken with
                  | Rejected e => (authError errorMsg e, net', g)
                  | Resolved None =>
                      let errorMsg :=
                        "Invalid authentication token: no payload" in
                      (authError (Some errorMsg) (Error errorMsg), net', g)
                  | Resolved (Some decodedAuthPayload) =>
                      match makeAuthPage port mnemonic gaiaHubUrl appManifest
                              decodedAuthPayload identities g with
                      | (Rejected e, g') => (authError errorMsg e, net', g')
                      | (Resolved authPage, g') =>
                          (AuthPage 200 "text/html" (js_length authPage)
                             authPage, net', g')
                      end
                  end
              end
          end
      end
  end.
End SignInPage.

(** ** Auxiliary notions for the further properties *)

(** Reconciliation sees the looked-up profile, or none when the lookup
    failed, resolved to [null], or carried no profile. *)
Definition lookedUpProfile (looked : promise (option NameData))
    : option Profile :=
  match looked with
  | Resolved (Some d) => nd_profile d
  | _ => None
  end.


(** The [apps] map of a profile, empty when the property is missing. *)
Definition appsOf (p : Profile) : gmap string jsval :=
  match pf_apps p with
  | Some apps => apps
  | None => ∅
  end.

(** The network after a batch of requests has been sent through it. *)
Definition sentAll (rs : list request) (net : Network) : Network :=
  {| coerceMainnetAddress := coerceMainnetAddress net;
     requests := requests net ++ rs |}.

(** The identities pushed for the names an index owns (lines 199-208). *)
Definition identitiesAt (keyInfo : OwnerKeyInfo) (idx : Z)
    (nameList : list string) : list NamedIdentityType :=
  map (fun nm => newIdentity nm keyInfo idx) nameList.

(** What the discovery loop guarantees about an identity it pushed: its
    index is one the loop visits, its keys are the ones derived for that
    index, and the registry reported its name for the derived address. *)
Definition backedBy (mnemonic : string)
    (getOwnerKeyInfo : string → Z → OwnerKeyInfo)
    (getNamesOwned : bool → string → promise (list string))
    (c : bool) (id : NamedIdentityType) : Prop :=
  (0 ≤ index id ≤ 65536)%Z ∧
  id = newIdentity (name id) (getOwnerKeyInfo mnemonic (index id)) (index id) ∧
  ∃ nameList,
    getNamesOwned c
      (slice_str 3 (ki_idAddress (getOwnerKeyInfo mnemonic (index id))))
      = Resolved nameList ∧
    name id ∈ nameList.

(** The character does not occur in the string. *)
Fixpoint lacks (c : ascii) (s : string) : bool :=
  match s with
  | EmptyString => true
  | String d rest => negb (Ascii.eqb c d) && lacks c rest
  end.

(** The entries of a page, one after the other. *)
Definition joined (entries : list string) : string :=
  foldr String.append EmptyString entries.

(** ** Sample data used by the examples below *)

Module Sample.
Definition appOrigin : string := "https://app.example".

Definition hubConfig : GaiaHubConfig :=
  {| url_prefix := "https://gaia.example/hub/"; address := "1Alice" |}.

(** A profile whose entry for the application points below the expected
    prefix. *)
Definition nestedProfile : Profile :=
  {| pf_fields := {[ "type" := JStr "@Person" ]};
     pf_apps := Some {[ appOrigin :=
                          JStr "https://gaia.example/hub/1Alice/old/" ]} |}.

(** A profile whose entry points to another hub. *)
Definition staleProfile : Profile :=
  {| pf_fields := {[ "type" := JStr "@Person" ]};
     pf_apps := Some {[ appOrigin := JStr "https://other.example/1Bob/" ]} |}.

Definition lookedUp (p : Profile) : NameData :=
  {| nd_error := None; nd_profile := Some p;
     nd_profileUrl := JStr "https://gaia.example/hub/1Alice/profile.json" |}.

(** The default profile after reconciliation. *)
Definition repairedProfile : Profile :=
  {| pf_fields := pf_fields default_profile;
     pf_apps := Some {[ appOrigin := JStr (gaiaPrefix hubConfig) ]} |}.

Definition alice : NamedIdentityType :=
  {| name := "alice.id"; idAddress := "ID-1Alice"; privateKey := "a11ce";
     index := 0; profile := Some empty_object; profileUrl := JStr "" |}.

Definition failingLookup (_ : string) : promise (option NameData) :=
  Rejected (Error "no such name").

Definition repairedLookup (_ : string) : promise (option NameData) :=
  Resolved (Some (lookedUp repairedProfile)).

Definition nestedLookup (_ : string) : promise (option NameData) :=
  Resolved (Some (lookedUp nestedProfile)).

Definition staleLookup (_ : string) : promise (option NameData) :=
  Resolved (Some (lookedUp staleProfile)).

(** Key derivation stand-in: the address spells out the index. *)
Definition ownerKey (_ : string) (i : Z) : OwnerKeyInfo :=
  {| ki_idAddress := "ID-1Owner" +:+ pretty i;
     ki_privateKey := "key" +:+ pretty i |}.

(** A registry in which every address owns a name. *)
Definition alwaysOwned (_ : bool) (_ : string) : promise (list string) :=
  Resolved ["always.id"].

(** A registry in which the first address owns two names and the second
    owns none. *)
Definition twoNames (_ : bool) (addr : string) : promise (list string) :=
  if String.eqb addr "1Owner0" then Resolved ["alice.id"; "bob.id"]
  else Resolved [].

Definition bobProfile : Profile :=
  {| pf_fields := {[ "type" := JStr "@Person"; "name" := JStr "Bob" ]};
     pf_apps := None |}.

Definition bobData : NameData :=
  {| nd_error := None; nd_profile := Some bobProfile;
     nd_profileUrl := JStr "https://gaia.example/hub/1Bob/profile.json" |}.

(** The lookup of alice.id fails; the lookup of bob.id succeeds. *)
Definition aliceFails (_ : bool) (blockstackID : string)
    : promise (option NameData) :=
  if String.eqb blockstackID "bob.id" then Resolved (Some bobData)
  else Rejected (Error "lookup failed").

Definition idle : Network := {| coerceMainnetAddress := false; requests := [] |}.

(** Collaborators of the sign-in handler, as stand-ins that keep track of
    what they were given. *)
Definition credentialMetadata (scopes : list string) : HandshakeMetadata :=
  {| md_id := alice;
     md_profileUrl := JStr "https://gaia.example/hub/1Alice/profile.json";
     md_appOrigin := appOrigin;
     md_redirect_uri := "https://app.example/callback";
     md_scopes := scopes;
     md_salt := "5a17" |}.

Definition verifyToken (alg pubkey token : string) : promise bool :=
  Resolved (String.eqb pubkey "transit-pub" &&
            String.eqb token "signed-envelope").

Definition decodeWith (scopes : list string) (token : string)
    : promise DecodedPayload :=
  if String.eqb token "signed-envelope" then
    Resolved (EnvelopePayload (JStr "ciphertext"))
  else if String.eqb token "credential" then
    Resolved (CredentialPayload {[ "username" := JStr "alice.id" ]}
                (credentialMetadata scopes))
  else Rejected (Error "malformed token").

Definition decode : string → promise DecodedPayload :=
  decodeWith ["store_write"].

Definition decrypt (content : jsval) (key : string) : promise string :=
  match content with
  | JStr c =>
      if String.eqb c "ciphertext" && String.eqb key "transit-key"
      then Resolved "credential"
      else Rejected (Error "cannot decrypt")
  | _ => Rejected (Error "cannot decrypt")
  end.

Definition verifyCredential (_ _ : string) : promise bool := Resolved true.

Definition appKeyInfo (mnemonic addr origin : string) (i : Z)
    : promise string :=
  Resolved (mnemonic +:+ "|" +:+ addr +:+ "|" +:+ origin +:+ "|" +:+ pretty i).

Definition gaiaAddress (_ : option Profile) (_ : string) : promise string :=
  Rejected (Error "no app entry").

Definition extractKey (info : string) (_ : option string) : promise string :=
  Resolved ("appkey(" +:+ info +:+ ")").

Definition connect (_ _ : string) : promise GaiaHubConfig := Resolved hubConfig.

Definition uploadOk (_ : list string) (_ _ _ : string) : promise UploadResult :=
  Resolved {| dataUrls := JArr [JStr "https://profiles.example/1Alice"];
              upload_error := None |}.

Definition uploadFails (_ : list string) (_ _ _ : string)
    : promise UploadResult :=
  Resolved {| dataUrls := JNull; upload_error := Some "hub unreachable" |}.

Definition profileJWT (_ : Profile) (key : string) : string :=
  "jwt(" +:+ key +:+ ")".

Definition sign (alg key : string) (_ : OutwardPayload) : string :=
  "token(" +:+ alg +:+ "," +:+ key +:+ ")".

Definition withParameter (uri k v : string) : string :=
  uri +:+ "?" +:+ k +:+ "=" +:+ v.

Definition signInWith (scopes : list string)
    (upload : list string → string → string → string → promise UploadResult)
    (mnemonic : string) (q : option string) : Response * list HubCall :=
  handleSignIn "transit-key" "transit-pub" "https://core.example" string
    appKeyInfo gaiaAddress extractKey connect upload failingLookup profileJWT
    verifyToken (decodeWith scopes) sign decrypt verifyCredential withParameter
    mnemonic "https://hub.example" "https://profiles.example" q.

Definition signIn := signInWith ["store_write"].

(** Stand-ins for bip39, Node's crypto and triplesec that return what the
    real functions return on the inputs of one recorded run (the BIP-39
    test mnemonic with sixteen zero bytes of entropy, a salt of sixteen
    zero bytes, the password 'password' and the wrong password 'wrong';
    the values were computed with OpenSSL 3), and a fixed answer elsewhere. *)
Definition mnemonic : string :=
  "abandon abandon abandon abandon abandon abandon abandon abandon abandon abandon abandon about".

Definition entropyHex : string := "00000000000000000000000000000000".

Definition validate (m : string) : bool := String.eqb m mnemonic.

Definition toEntropy (m : string) : promise string :=
  if String.eqb m mnemonic then Resolved entropyHex
  else Rejected (Error "Invalid mnemonic").

Definition toMnemonic (h : string) : promise string :=
  if String.eqb h entropyHex then Resolved mnemonic
  else Rejected (Error "Invalid entropy").

Definition zeroSalt (n : nat) (g : unit) : bytes * unit := (replicate n x00, g).

Definition keyBlock : string :=
  "600b6bf6a2018fe2af9c0b87a1c9fcbfc0321543aad11fcbb66e50276c5327b4b00e27596f9a5823362d348161285531".

Definition wrongKeyBlock : string :=
  "13162c27be61602d261725f78dda8c6727ab109a3dad9e03af3c090f896dd62c22aabc374d5dcf58143622e37a6a93b7".

Definition pbkdf2 (password : string) (salt : bytes) (iterations : Z)
    (keylen : nat) (digest : string) : bytes :=
  if String.eqb password "password" then from_hex keyBlock
  else if String.eqb password "wrong" then from_hex wrongKeyBlock
  else replicate keylen x00.

Definition cipherTextHex : string :=
  "9396e3469fc28645fa05de27d458d291ddb5d61676cc98d670cd76565a7471a1".

Definition cipher (alg : string) (key iv plaintext : bytes) : bytes :=
  if String.eqb (to_hex key) "600b6bf6a2018fe2af9c0b87a1c9fcbf" &&
     String.eqb (to_hex iv) "b00e27596f9a5823362d348161285531" &&
     String.eqb (to_hex plaintext) entropyHex
  then from_hex cipherTextHex
  else [].

(** Under the key and IV derived from 'wrong' the last decrypted block
    ends in 0x85, which is no padding: [final()] throws. *)
Definition decipher (alg : string) (key iv ciphertext : bytes)
    : promise bytes :=
  if String.eqb (to_hex key) "600b6bf6a2018fe2af9c0b87a1c9fcbf" &&
     String.eqb (to_hex iv) "b00e27596f9a5823362d348161285531" &&
     String.eqb (to_hex ciphertext) cipherTextHex
  then Resolved (from_hex entropyHex)
  else Rejected (Error
    "error:06065064:digital envelope routines:EVP_DecryptFinal_ex:bad decrypt").

Definition tagHex : string :=
  "7eee9ee5e114db373f495c3a83dea6db6d13e5ac9fe5d5a1736a925469d60b18".

Definition wrongTagHex : string :=
  "fd4b54dce904077f73dc5cbec490d82fad5a80c61dec339f76292c44845faa8d".

Definition hmacSha256 (alg : string) (key message : bytes) : bytes :=
  if String.eqb (to_hex key) "c0321543aad11fcbb66e50276c5327b4"
  then from_hex tagHex
  else from_hex wrongTagHex.

Definition sha256 (alg : string) (message : bytes) : bytes :=
  if String.eqb (to_hex message) tagHex then
    from_hex "c43775aed195f4f1ce06339434434311298b3704c496c963efdf9bdf1b2e8148"
  else
    from_hex "5e79dcebad39a81a1ac33778688a4e0f96741b6a68e93781b7f9aa1b5c5ab72f".

Definition legacy (_ : string) (_ : bytes) : promise bytes :=
  Rejected (Error "not a legacy backup").

(** What [encryptBackupPhrase] returns in the recorded run. *)
Definition backup : bytes :=
  from_hex ("00000000000000000000000000000000" +:+ tagHex +:+ cipherTextHex).

(** The parts of the recorded encryption. *)
Definition salt : bytes := (zeroSalt 16 tt).1.
Definition keysAndIV : bytes := pbkdf2 "password" salt 100000 48 "sha512".
Definition cipherText : bytes :=
  cipher "aes-128-cbc" (slice 0 16 keysAndIV) (slice 32 48 keysAndIV)
    (from_hex entropyHex).
Definition hmacDigest : bytes :=
  hmacSha256 "sha256" (slice 16 32 keysAndIV) (salt ++ cipherText).

(** The identities the loop finds in the [twoNames] registry. *)
Definition named : list NamedIdentityType :=
  [ newIdentity "alice.id" (ownerKey "seed" 0) 0;
    newIdentity "bob.id" (ownerKey "seed" 0) 0 ].
(** The stale profile after reconciliation. *)
Definition staleRepaired : Profile :=
  {| pf_fields := {[ "type" := JStr "@Person" ]};
     pf_apps := Some {[ appOrigin := JStr (gaiaPrefix hubConfig) ]} |}.

(** The names each index owns in the [twoNames] registry. *)
Definition ownedNames (i : Z) : list string :=
  if Z.eqb i 0 then ["alice.id"; "bob.id"] else [].

(** A registry that cannot be reached. *)
Definition registryDown (_ : bool) (_ : string) : promise (list string) :=
  Rejected (Error "connect ECONNREFUSED").

Definition noSuchName : NameData :=
  {| nd_error := Some (JStr "No such name"); nd_profile := None;
     nd_profileUrl := JUndefined |}.

(** Every lookup resolves: bob.id has a profile, any other name an error
    object. *)
Definition allResolve (_ : bool) (blockstackID : string)
    : promise (option NameData) :=
  if String.eqb blockstackID "bob.id" then Resolved (Some bobData)
  else Resolved (Some noSuchName).

(** A credential check that answers no. *)
Definition rejectCredential (_ _ : string) : promise bool := Resolved false.

(** Stand-ins for the collaborators of the sign-in page. The generator is
    [unit]; the token library signs a credential as 'credential' and an
    envelope as 'signed-envelope', the form the stand-ins of the sign-in
    handler accept. *)
Definition authRequest : AuthRequest :=
  {| ar_domain_name := appOrigin;
     ar_public_keys := ["app-transit-pub"];
     ar_redirect_uri := "https://app.example/callback";
     ar_scopes := ["store_write"] |}.

Definition associationToken (appKey _ : string) : promise string :=
  Resolved ("assoc(" +:+ appKey +:+ ")").

Definition authResponseFor (_ : string) (_ : jsval) (username : string)
    (_ _ : jsval) (_ : string) (_ : jsval) (_ : option string)
    (_ _ _ : string) : rand unit string :=
  fun g => (Resolved ("response(" +:+ username +:+ ")"), g).

Definition decodeClaims (token : string) : promise (gmap string jsval) :=
  Resolved {[ "jti" := JStr token ]}.

Definition signPayload (_ _ : string) (p : DecodedPayload) : string :=
  match p with
  | EnvelopePayload _ => "signed-envelope"
  | CredentialPayload _ _ => "credential"
  end.

Definition encrypt (_ _ : string) : rand unit jsval :=
  fun g => (Resolved (JStr "ciphertext"), g).

(** The token library on the tokens of alice's link. *)
Definition decodeLinked (token : string) : promise DecodedPayload :=
  if String.eqb token "signed-envelope" then
    Resolved (EnvelopePayload (JStr "ciphertext"))
  else if String.eqb token "credential" then
    Resolved (CredentialPayload {[ "jti" := JStr "response(alice.id)" ]}
                (linkMetadata authRequest alice (replicate 16 x00)))
  else Rejected (Error "malformed token").

(** What [makeSignInLink] computes for alice. *)
Definition aliceParts : LinkParts :=
  {| lp_appPrivateKey := "appkey(seed|ID-1Alice|https://app.example|0)";
     lp_claims := {[ "jti" := JStr "response(alice.id)" ]};
     lp_salt := replicate 16 x00;
     lp_authResponse := "credential";
     lp_encryptedAuthResponseJSON := JStr "ciphertext";
     lp_encAuthResponse := "signed-envelope" |}.

(** The authentication request as the handler of GET /auth sees it. *)
Definition verifyRequest (token : string) : promise bool :=
  Resolved (String.eqb token "auth-request").

Definition fetchManifest (_ : string) : promise string :=
  Resolved "manifest".

Definition decodeRequest (token : string) : promise (option AuthRequest) :=
  if String.eqb token "auth-request" then Resolved (Some authRequest)
  else Rejected (Error "malformed token").

Definition noKeyInfo (_ _ _ : string) (_ : Z) : promise string :=
  Rejected (Error "cannot derive the application key").

Definition authWith
    (keyInfo : string → string → string → Z → promise string)
    (q : option string) : AuthResponse * Network * unit :=
  handleAuth "transit-key" "transit-pub" "https://core.example" string
    keyInfo gaiaAddress extractKey associationToken unit zeroSalt
    authResponseFor decodeClaims signPayload encrypt withParameter
    verifyRequest string fetchManifest decodeRequest ownerKey twoNames
    allResolve "seed" "https://hub.example" "https://profiles.example" 8888
    q idle tt.

(** A lookup that finds the given profile. *)
Definition found (p : Profile) (_ : string) : promise (option NameData) :=
  Resolved (Some (lookedUp p)).

(** A stale profile whose [apps] object also has an entry named
    'hasOwnProperty'. *)
Definition shadowedProfile : Profile :=
  {| pf_fields := {[ "type" := JStr "@Person" ]};
     pf_apps := Some {[ appOrigin := JStr "https://other.example/1Bob/";
                        "hasOwnProperty" := JStr "https://other.example/1Bob/" ]} |}.


(** An upload whose promise is rejected. *)
Definition uploadRejects (_ : list string) (_ _ _ : string)
    : promise UploadResult :=
  Rejected (Error "socket hang up").

End Sample.

(** * Properties *)

(** ** Strings *)

Lemma startsWith_refl s : startsWith s s = true.
Proof.
  unfold startsWith. induction s as [|c s IH]; simpl; [done|].
  destruct (Ascii.ascii_dec c c); [done|congruence].
Qed.

Lemma append_slash_nonempty a b : String.eqb (a +:+ b +:+ "/") "" = false.
Proof. destruct a, b; reflexivity. Qed.

Lemma gaiaPrefix_truthy cfg : truthy (JStr (gaiaPrefix cfg)) = true.
Proof.
  unfold gaiaPrefix; simpl.
  destruct (url_prefix cfg), (address cfg); reflexivity.
Qed.

Lemma startsWith_nonempty s p :
  startsWith s p = true → String.eqb p "" = false → String.eqb s "" = false.
Proof. unfold startsWith. destruct s, p; simpl; congruence. Qed.

(** ** Profile reconciliation *)

Lemma assign_own o k s v : o !! k = Some v → assign o k s = <[k := JStr s]> o.
Proof. intros Hk. unfold assign. by rewrite Hk. Qed.

Lemma assign_new o k s : k ≠ "__proto__" → assign o k s = <[k := JStr s]> o.
Proof.
  intros Hk. unfold assign. apply String.eqb_neq in Hk. rewrite Hk.
  by destruct (o !! k).
Qed.

Lemma assign_proto o s : o !! "__proto__" = None → assign o "__proto__" s = o.
Proof. intros Hk. unfold assign. by rewrite Hk. Qed.

Lemma assign_other o k s other : other ≠ k → assign o k s !! other = o !! other.
Proof.
  intros Hne. unfold assign.
  destruct (o !! k); [|destruct (String.eqb k "__proto__"); [done|]];
    by rewrite lookup_insert_ne.
Qed.

(** After an assignment the property holds the string, unless the
    assignment was one to a missing '__proto__'. *)
Lemma assign_lookup o k s :
  assign o k s !! k = Some (JStr s) ∨
  (k = "__proto__" ∧ o !! k = None ∧ assign o k s = o).
Proof.
  unfold assign. destruct (o !! k) eqn:Hk.
  - left. by rewrite lookup_insert_eq.
  - destruct (String.eqb k "__proto__") eqn:Hp.
    + right. by apply String.eqb_eq in Hp.
    + left. by rewrite lookup_insert_eq.
Qed.

(** Reconciliation, case by case, on the profile it works with: the one
    that was looked up, or the minimal one. *)
Lemma updateProfileApps_cases nameLookup id appOrigin appGaiaConfig :
  updateProfileApps nameLookup id appOrigin appGaiaConfig =
  let p :=
    match lookedUpProfile (nameLookup (name id)) with
    | Some p => p
    | None => default_profile
    end in
  let apps := appsOf p in
  let prefix := gaiaPrefix appGaiaConfig in
  let repaired :=
    Resolved {| up_profile := set_app p apps appOrigin prefix;
                changed := true |} in
  match apps !! "hasOwnProperty" with
  | Some _ =>
      Rejected (TypeError "profile.apps.hasOwnProperty is not a function")
  | None =>
      match apps !! appOrigin with
      | None => repaired
      | Some v =>
          if truthy v then
            match v with
            | JStr s =>
                if startsWith s prefix
                then Resolved {| up_profile := p; changed := false |}
                else repaired
            | _ => Rejected (TypeError "startsWith is not a function")
            end
          else repaired
      end
  end.
Proof.
  assert (∀ profileData,
    updateProfileApps_then appOrigin appGaiaConfig profileData =
    let p :=
      match (match profileData with
             | Some d => nd_profile d
             | None => None
             end) with
      | Some p => p
      | None => default_profile
      end in
    let apps := appsOf p in
    let prefix := gaiaPrefix appGaiaConfig in
    let repaired :=
      Resolved {| up_profile := set_app p apps appOrigin prefix;
                  changed := true |} in
    match apps !! "hasOwnProperty" with
    | Some _ =>
        Rejected (TypeError "profile.apps.hasOwnProperty is not a function")
    | None =>
        match apps !! appOrigin with
        | None => repaired
        | Some v =>
            if truthy v then
              match v with
              | JStr s =>
                  if startsWith s prefix
                  then Resolved {| up_profile := p; changed := false |}
                  else repaired
              | _ => Rejected (TypeError "startsWith is not a function")
              end
            else repaired
        end
    end) as Hthen.
  { intros profileData.
    unfold updateProfileApps_then, hasOwnProperty, mbind, promise_bind, pthen.
    destruct (match profileData with Some d => nd_profile d | None => None end)
      as [[fields [apps|]]|]; cbv zeta;
      cbn [default_profile pf_apps pf_fields appsOf];
      rewrite ?lookup_empty; try done.
    destruct (apps !! "hasOwnProperty"); [done|].
    destruct (apps !! appOrigin) as [v|]; cbn [negb orb]; [|done].
    destruct (truthy v) eqn:Ht; cbn [negb]; [|done].
    destruct v; try done.
    by destruct (startsWith s (gaiaPrefix appGaiaConfig)). }
  unfold updateProfileApps, lookedUpProfile.
  destruct (nameLookup (name id)) as [[d|]|e];
    cbn [pcatch mbind promise_bind pthen]; by rewrite Hthen.
Qed.

(** What reconciliation leaves under the application's origin. *)
Lemma updateProfileApps_resolved_entry nameLookup id appOrigin appGaiaConfig r :
  updateProfileApps nameLookup id appOrigin appGaiaConfig = Resolved r →
  ∃ apps,
    pf_apps (up_profile r) = Some apps ∧
    (appOrigin ≠ "hasOwnProperty" → apps !! "hasOwnProperty" = None) ∧
    ( (∃ s, apps !! appOrigin = Some (JStr s) ∧
            startsWith s (gaiaPrefix appGaiaConfig) = true)
    ∨ (appOrigin = "__proto__" ∧ apps !! appOrigin = None ∧
       changed r = true) ).
Proof.
  rewrite updateProfileApps_cases. cbv zeta.
  set (p := match lookedUpProfile (nameLookup (name id)) with
            | Some p => p
            | None => default_profile
            end).
  destruct (appsOf p !! "hasOwnProperty") eqn:Hown; [done|].
  assert (∀ r', Resolved {| up_profile :=
                              set_app p (appsOf p) appOrigin
                                (gaiaPrefix appGaiaConfig);
                            changed := true |} = Resolved r' →
            ∃ apps,
              pf_apps (up_profile r') = Some apps ∧
              (appOrigin ≠ "hasOwnProperty" →
               apps !! "hasOwnProperty" = None) ∧
              ( (∃ s, apps !! appOrigin = Some (JStr s) ∧
                      startsWith s (gaiaPrefix appGaiaConfig) = true)
              ∨ (appOrigin = "__proto__" ∧ apps !! appOrigin = None ∧
                 changed r' = true) )) as Hset.
  { intros r' [= <-]. eexists. split; [reflexivity|]. split.
    - intros Hne. by rewrite assign_other.
    - destruct (assign_lookup (appsOf p) appOrigin (gaiaPrefix appGaiaConfig))
        as [Hl|(-> & Hnone & ->)].
      + left. eexists. split; [exact Hl|apply startsWith_refl].
      + by right. }
  destruct (appsOf p !! appOrigin) as [v|] eqn:Hv; [|by apply Hset].
  destruct (truthy v); [|by apply Hset].
  destruct v; try done.
  destruct (startsWith s (gaiaPrefix appGaiaConfig)) eqn:Hpre;
    [|by apply Hset].
  intros [= <-]. cbn [up_profile].
  assert (pf_apps p = Some (appsOf p)) as Hp.
  { unfold appsOf in Hv |- *. destruct (pf_apps p); [done|].
    by rewrite lookup_empty in Hv. }
  exists (appsOf p). split; [done|]. split; [done|]. left. by exists s.
Qed.

(** [C1], as stated, fails: an entry that differs from the expected prefix
    but starts with it is not overwritten, and nothing is reported as
    changed. *)
Lemma updateProfileApps_keeps_nested_url :
  ∃ r apps,
    updateProfileApps Sample.nestedLookup Sample.alice Sample.appOrigin
      Sample.hubConfig = Resolved r ∧
    pf_apps Sample.nestedProfile = Some apps ∧
    apps !! Sample.appOrigin
      = Some (JStr "https://gaia.example/hub/1Alice/old/") ∧
    "https://gaia.example/hub/1Alice/old/" ≠ gaiaPrefix Sample.hubConfig ∧
    changed r = false ∧
    pf_apps (up_profile r) = Some apps.
Proof.
  eexists _, _. split; [vm_compute; reflexivity|].
  split; [reflexivity|]. split; [reflexivity|]. split; [discriminate|done].
Qed.

(** When the [apps] object has a property of its own named
    'hasOwnProperty', line 422 calls that property instead of the inherited
    method and throws; nothing is overwritten. *)
Example updateProfileApps_shadowed_hasOwnProperty :
  updateProfileApps (Sample.found Sample.shadowedProfile) Sample.alice
    Sample.appOrigin Sample.hubConfig
  = Rejected (TypeError "profile.apps.hasOwnProperty is not a function").
Proof. vm_compute. reflexivity. Qed.

(** [C1], amended: when the [apps] object has no property of its own named
    'hasOwnProperty' and [apps[origin]] is a string that does not start
    with [expectedPrefix = url_prefix + address + "/"], reconciliation
    overwrites that entry with exactly [expectedPrefix], leaves every other
    entry and property alone, and reports [changed = true]. *)
Theorem updateProfileApps_overwrites_other_prefix
    (nameLookup : string → promise (option NameData))
    (id : NamedIdentityType) (appOrigin : string)
    (appGaiaConfig : GaiaHubConfig)
    (d : NameData) (p : Profile) (apps : gmap string jsval) (s : string) :
  nameLookup (name id) = Resolved (Some d) →
  nd_profile d = Some p →
  pf_apps p = Some apps →
  apps !! "hasOwnProperty" = None →
  apps !! appOrigin = Some (JStr s) →
  startsWith s (gaiaPrefix appGaiaConfig) = false →
  ∃ r, updateProfileApps nameLookup id appOrigin appGaiaConfig = Resolved r ∧
       changed r = true ∧
       pf_fields (up_profile r) = pf_fields p ∧
       pf_apps (up_profile r)
         = Some (<[appOrigin := JStr (gaiaPrefix appGaiaConfig)]> apps).
Proof.
  intros Hlook Hp Ha Hown Hs Hpre. rewrite updateProfileApps_cases.
  unfold lookedUpProfile. rewrite Hlook, Hp. cbv zeta.
  unfold appsOf. rewrite Ha, Hown, Hs, Hpre.
  eexists. split; [by destruct (truthy (JStr s))|].
  split; [done|]. split; [done|]. cbn [up_profile set_app pf_apps].
  by rewrite (assign_own _ _ _ _ Hs).
Qed.

Lemma updateProfileApps_overwrites_other_prefix_witness :
  ∃ r, updateProfileApps Sample.staleLookup Sample.alice Sample.appOrigin
         Sample.hubConfig = Resolved r ∧
       changed r = true ∧
       pf_fields (up_profile r) = pf_fields Sample.staleProfile ∧
       pf_apps (up_profile r)
         = Some (<[Sample.appOrigin := JStr (gaiaPrefix Sample.hubConfig)]>
                   {[ Sample.appOrigin := JStr "https://other.example/1Bob/" ]}).
Proof.
  apply (updateProfileApps_overwrites_other_prefix Sample.staleLookup
           Sample.alice Sample.appOrigin Sample.hubConfig
           (Sample.lookedUp Sample.staleProfile) Sample.staleProfile
           {[ Sample.appOrigin := JStr "https://other.example/1Bob/" ]}
           "https://other.example/1Bob/"); reflexivity.
Defined.


(** ** Identity discovery *)

Section DiscoveryFacts.
Variable mnemonic : string.
Variable getOwnerKeyInfo : string → Z → OwnerKeyInfo.
Variable getNamesOwned : bool → string → promise (list string).
Variable nameLookup : bool → string → promise (option NameData).

Local Abbreviation loop :=
  (loadNamedIdentitiesLoop mnemonic getOwnerKeyInfo getNamesOwned).
Local Abbreviation addrOf i :=
  (slice_str 3 (ki_idAddress (getOwnerKeyInfo mnemonic i))).

Lemma loadNamedIdentitiesLoop_step idx identities net :
  loop idx identities net =
  if Z_gt_dec idx 65536 then (Rejected (Error "Too many names"), net)
  else
    let keyInfo := getOwnerKeyInfo mnemonic idx in
    let net' := sent (ReqNamesOwned (addrOf idx)) net in
    match getNamesOwned (coerceMainnetAddress net) (addrOf idx) with
    | Rejected e => (Rejected e, net')
    | Resolved nameList =>
        if Nat.eqb (length nameList) 0 then (Resolved identities, net')
        else loop (idx + 1)
               (identities ++ map (λ nm, newIdentity nm keyInfo idx) nameList)
               net'
    end.
Proof.
  simp loadNamedIdentitiesLoop.
  destruct (Z_gt_dec idx 65536); reflexivity.
Qed.

(** The guard fires at index 65537, before any request is sent. *)
Lemma loadNamedIdentitiesLoop_bound identities net :
  loop 65537 identities net = (Rejected (Error "Too many names"), net).
Proof. rewrite loadNamedIdentitiesLoop_step. reflexivity. Qed.

(** With every index up to 65536 owning a name, the loop started at
    [idx] sends one request per index from [idx] to 65536 and then fails. *)
Lemma loadNamedIdentitiesLoop_always_owned (n : nat) :
  ∀ idx identities net,
    n = Z.to_nat (65537 - idx) → (0 ≤ idx ≤ 65537)%Z →
    (∀ i, (idx ≤ i ≤ 65536)%Z →
       ∃ nameList, getNamesOwned (coerceMainnetAddress net) (addrOf i)
                     = Resolved nameList ∧ nameList ≠ []) →
    ∃ net', loop idx identities net = (Rejected (Error "Too many names"), net') ∧
            coerceMainnetAddress net' = coerceMainnetAddress net ∧
            requests net' = requests net ++
              map (λ i, ReqNamesOwned (addrOf i)) (seqZ idx (65537 - idx)).
Proof.
  induction n as [|n IH]; intros idx identities net Hn Hidx Howned.
  - assert (idx = 65537) as -> by lia.
    exists net. rewrite loadNamedIdentitiesLoop_bound.
    split; [done|]. split; [done|]. simpl. by rewrite app_nil_r.
  - rewrite loadNamedIdentitiesLoop_step.
    destruct (Z_gt_dec idx 65536) as [Hgt|Hle]; [lia|]. cbv zeta.
    destruct (Howned idx) as (nameList & -> & Hne); [lia|].
    destruct nameList as [|nm rest]; [done|]. simpl Nat.eqb. cbv iota.
    edestruct (IH (idx + 1)) as (net' & -> & Hc & Hr); [lia|lia| |].
    { intros i Hi. cbn [sent coerceMainnetAddress]. apply Howned. lia. }
    exists net'. split; [done|]. split; [done|].
    rewrite Hr. cbn [sent requests]. rewrite <- app_assoc. f_equal.
    rewrite (seqZ_cons idx) by lia. cbn [map app].
    replace (Z.succ idx) with (idx + 1) by lia.
    replace (Z.pred (65537 - idx)) with (65537 - (idx + 1)) by lia.
    reflexivity.
Qed.

Lemma attachOne_identityOf id nd : identityOf (attachOne id nd) = identityOf id.
Proof. unfold attachOne. by case_match. Qed.

(** The loop over [nameDatas] never writes out of range when there are
    at most as many entries as identities; it keeps every identity in
    place and only touches [profile] and [profileUrl]. *)
Lemma attachNameDatas_resolves nameDatas : ∀ i identities,
  (i + length nameDatas ≤ length identities)%nat →
  ∃ identities', attachNameDatas i nameDatas identities = Resolved identities' ∧
                 identityOf <$> identities' = identityOf <$> identities.
Proof.
  induction nameDatas as [|nd rest IH]; intros i identities Hlen; simpl.
  - by exists identities.
  - simpl in Hlen.
    assert (is_Some (identities !! i)) as [id Hid]
      by (apply lookup_lt_is_Some_2; lia).
    rewrite Hid.
    destruct (IH (S i) (<[i := attachOne id nd]> identities))
      as (identities' & -> & Hsame).
    { rewrite length_insert. lia. }
    exists identities'. split; [done|]. rewrite Hsame.
    rewrite list_fmap_insert, attachOne_identityOf.
    apply list_insert_id. by rewrite list_lookup_fmap, Hid.
Qed.

(** The loop over [nameDatas] pairs the surviving lookup results with the
    identities by position: the k-th result that is not [null] is written
    into the k-th identity, whichever name it was looked up for. *)
Lemma attachNameDatas_by_position (nameDatas : list NameData) :
  ∀ (done rest : list NamedIdentityType),
    (length nameDatas ≤ length rest)%nat →
    attachNameDatas (length done) nameDatas (done ++ rest)
    = Resolved (done ++
                zip_with attachOne (take (length nameDatas) rest) nameDatas ++
                drop (length nameDatas) rest).
Proof.
  induction nameDatas as [|nd nds IH]; intros done rest Hlen.
  - simpl. by rewrite drop_0.
  - destruct rest as [|id rest]; [simpl in Hlen; lia|].
    cbn [attachNameDatas]. rewrite list_lookup_middle by done.
    rewrite insert_app_r_alt, Nat.sub_diag by done. cbn [insert list_insert].
    specialize (IH (done ++ [attachOne id nd]) rest).
    rewrite length_app, Nat.add_1_r, <- app_assoc in IH. cbn [app] in IH.
    rewrite IH by (simpl in Hlen; lia).
    by rewrite <- app_assoc.
Qed.

Lemma nameInfoPromises_length ids : ∀ net,
  length (nameInfoPromises nameLookup ids net).1 = length ids.
Proof.
  induction ids as [|id rest IH]; intros net; simpl; [done|].
  specialize (IH (sent (ReqNameLookup (name id)) net)).
  destruct (nameInfoPromises nameLookup rest _) as [others net'].
  simpl in *. by rewrite IH.
Qed.

(** When no lookup fails, the results line up with the identities: each
    identity is given the data looked up for its own name. *)
Lemma nameInfoPromises_all_resolved ids : ∀ datas net,
  Forall2 (λ id d, nameLookup (coerceMainnetAddress net) (name id)
                   = Resolved (Some d)) ids datas →
  dropNulls (nameInfoPromises nameLookup ids net).1 = datas.
Proof.
  induction ids as [|id rest IH]; intros datas net Hall.
  - by apply Forall2_nil_inv_l in Hall as ->.
  - apply Forall2_cons_inv_l in Hall as (d & datas' & Hd & Hrest & ->).
    cbn [nameInfoPromises]. rewrite Hd.
    specialize (IH datas' (sent (ReqNameLookup (name id)) net) Hrest).
    destruct (nameInfoPromises nameLookup rest _) as [others net'].
    unfold dropNulls in *. cbn [fst] in *. csimpl. by rewrite IH.
Qed.

Lemma dropNulls_length nameDatas :
  (length (dropNulls nameDatas) ≤ length nameDatas)%nat.
Proof.
  unfold dropNulls. induction nameDatas as [|[d|] rest IH]; csimpl; lia.
Qed.

(** Once the loop has returned the named identities, the rest of
    [getIdentityInfo] cannot fail: it resolves to the identities it keeps
    followed by the unnamed one. *)
Lemma getIdentityInfo_shape net ids net2 :
  loadNamedIdentities mnemonic getOwnerKeyInfo getNamesOwned
    (setCoerceMainnetAddress true net) = (Resolved ids, net2) →
  ∃ identities net',
    (let survivors := dropNulls (nameInfoPromises nameLookup ids net2).1 in
     identities
     = zip_with attachOne (take (length survivors) ids) survivors ++
       drop (length survivors) ids) ∧
    identityOf <$> identities = identityOf <$> ids ∧
    getIdentityInfo mnemonic getOwnerKeyInfo getNamesOwned nameLookup net
      = (Resolved (filter (λ id, truthy (profileUrl id) = true) identities ++
                   [loadUnnamedIdentity mnemonic getOwnerKeyInfo
                      (Z.of_nat (length ids) + 1)]),
         net').
Proof.
  intros Hloop. unfold getIdentityInfo. rewrite Hloop.
  pose proof (nameInfoPromises_length ids net2) as Hlen.
  destruct (nameInfoPromises nameLookup ids net2) as [nameDatas net3].
  simpl in Hlen. pose proof (dropNulls_length nameDatas) as Hdrop.
  destruct (attachNameDatas_resolves (dropNulls nameDatas) 0 ids)
    as (identities & Hattach & Hsame); [simpl; lia|].
  cbv zeta. cbn [fst]. rewrite Hattach. exists identities. eexists.
  split; [|split; [done|]].
  - rewrite (attachNameDatas_by_position _ [] ids) in Hattach by lia.
    by injection Hattach as <-.
  - assert (length identities = length ids) as ->; [|done].
    by rewrite <- (length_fmap identityOf identities), Hsame, length_fmap.
Qed.

(** The aligned case: when every lookup resolves to data, every identity
    carries the data of its own name. *)
Lemma getIdentityInfo_aligned net ids net2 datas :
  loadNamedIdentities mnemonic getOwnerKeyInfo getNamesOwned
    (setCoerceMainnetAddress true net) = (Resolved ids, net2) →
  Forall2 (λ id d, nameLookup (coerceMainnetAddress net2) (name id)
                   = Resolved (Some d)) ids datas →
  ∃ net',
    getIdentityInfo mnemonic getOwnerKeyInfo getNamesOwned nameLookup net
      = (Resolved (filter (λ id, truthy (profileUrl id) = true)
                     (zip_with attachOne ids datas) ++
                   [loadUnnamedIdentity mnemonic getOwnerKeyInfo
                      (Z.of_nat (length ids) + 1)]),
         net').
Proof.
  intros Hloop Hall.
  destruct (getIdentityInfo_shape net ids net2 Hloop)
    as (identities & net' & Hids & _ & ->).
  exists net'. cbv zeta in Hids.
  rewrite (nameInfoPromises_all_resolved ids datas net2 Hall) in Hids.
  rewrite <- (Forall2_length _ _ _ Hall) in Hids.
  by rewrite firstn_all, drop_all, app_nil_r in Hids; subst.
Qed.

(** [C5], amended: when every index from 0 to 65536 owns at least one
    name, discovery does not loop forever. The loop queries the registry
    once for each of these 65537 indices, in order, and the call for index
    65537 throws 'Too many names' before sending anything; discovery as a
    whole fails with that error and restores the coercion flag. *)
Theorem getIdentityInfo_too_many_names (net : Network) :
  (∀ i, (0 ≤ i ≤ 65536)%Z →
     ∃ nameList, getNamesOwned true (addrOf i) = Resolved nameList ∧
                 nameList ≠ []) →
  ∃ net1,
    loadNamedIdentities mnemonic getOwnerKeyInfo getNamesOwned
        (setCoerceMainnetAddress true net)
      = (Rejected (Error "Too many names"), net1) ∧
    requests net1 = requests net ++
      map (λ i, ReqNamesOwned (addrOf i)) (seqZ 0 65537) ∧
    Z.of_nat (length (requests net1))
      = Z.of_nat (length (requests net)) + 65537 ∧
    (∀ identities net', loop 65537 identities net'
       = (Rejected (Error "Too many names"), net')) ∧
    getIdentityInfo mnemonic getOwnerKeyInfo getNamesOwned nameLookup net
      = (Rejected (Error "Too many names"),
         setCoerceMainnetAddress false net1).
Proof.
  intros Howned.
  destruct (loadNamedIdentitiesLoop_always_owned (Z.to_nat 65537) 0 []
              (setCoerceMainnetAddress true net))
    as (net1 & Hloop & _ & Hreq); [done|lia|by intros; apply Howned|].
  exists net1. unfold getIdentityInfo, loadNamedIdentities.
  rewrite Hloop. split; [done|]. split; [exact Hreq|].
  split; [|split; [apply loadNamedIdentitiesLoop_bound|done]].
  rewrite Hreq, length_app, length_map, length_seqZ. simpl requests. lia.
Qed.

(** The end of the list: once the loop has returned the named identities,
    discovery resolves to the identities it keeps (named ones, each with a
    truthy profile URL, in their original order) followed by exactly one
    unnamed identity, whose name and profile URL are empty, whose profile
    is [{}], and whose index is the number of named identities plus one.
    Which identities are kept is the subject of
    [getIdentityInfo_shape]. *)
Lemma getIdentityInfo_appends_unnamed (net : Network)
    (ids : list NamedIdentityType) (net2 : Network) :
  loadNamedIdentities mnemonic getOwnerKeyInfo getNamesOwned
    (setCoerceMainnetAddress true net) = (Resolved ids, net2) →
  ∃ kept unnamed net',
    getIdentityInfo mnemonic getOwnerKeyInfo getNamesOwned nameLookup net
      = (Resolved (kept ++ [unnamed]), net') ∧
    Forall (λ id, truthy (profileUrl id) = true) kept ∧
    (identityOf <$> kept) `sublist_of` (identityOf <$> ids) ∧
    unnamed = loadUnnamedIdentity mnemonic getOwnerKeyInfo
                (Z.of_nat (length ids) + 1) ∧
    name unnamed = "" ∧
    profile unnamed = Some empty_object ∧
    profileUrl unnamed = JStr "" ∧
    index unnamed = Z.of_nat (length ids) + 1.
Proof.
  intros Hloop.
  destruct (getIdentityInfo_shape net ids net2 Hloop)
    as (identities & net' & _ & Hsame & ->).
  eexists _, _, net'. split; [reflexivity|].
  split; [|split; [|done]].
  - apply Forall_forall. intros id Hid.
    by apply list_elem_of_filter in Hid as [? _].
  - rewrite <- Hsame. apply fmap_sublist, sublist_filter.
Qed.
End DiscoveryFacts.

(** [C5], as stated, fails in its count: against a registry in which every
    address owns a name, the loop has sent 65537 requests, not 65536, when
    it gives up. *)
Lemma loadNamedIdentities_sends_65537_requests :
  ∃ net',
    loadNamedIdentities "seed" Sample.ownerKey Sample.alwaysOwned Sample.idle
      = (Rejected (Error "Too many names"), net') ∧
    Z.of_nat (length (requests net')) = 65537 ∧
    Z.of_nat (length (requests net')) ≠ 65536.
Proof.
  destruct (loadNamedIdentitiesLoop_always_owned "seed" Sample.ownerKey
              Sample.alwaysOwned (Z.to_nat 65537) 0 [] Sample.idle)
    as (net' & Hloop & _ & Hreq); [done|lia| |].
  { intros i _. by exists ["always.id"]. }
  exists net'. split; [exact Hloop|].
  rewrite Hreq, length_app, length_map, length_seqZ. simpl. lia.
Qed.

Lemma getIdentityInfo_too_many_names_witness :
  ∃ net1,
    loadNamedIdentities "seed" Sample.ownerKey Sample.alwaysOwned
        (setCoerceMainnetAddress true Sample.idle)
      = (Rejected (Error "Too many names"), net1) ∧
    requests net1 = requests Sample.idle ++
      map (λ i, ReqNamesOwned
                  (slice_str 3 (ki_idAddress (Sample.ownerKey "seed" i))))
        (seqZ 0 65537) ∧
    Z.of_nat (length (requests net1))
      = Z.of_nat (length (requests Sample.idle)) + 65537 ∧
    (∀ identities net',
       loadNamedIdentitiesLoop "seed" Sample.ownerKey Sample.alwaysOwned
         65537 identities net'
       = (Rejected (Error "Too many names"), net')) ∧
    getIdentityInfo "seed" Sample.ownerKey Sample.alwaysOwned
        Sample.aliceFails Sample.idle
      = (Rejected (Error "Too many names"),
         setCoerceMainnetAddress false net1).
Proof.
  apply (getIdentityInfo_too_many_names "seed" Sample.ownerKey
           Sample.alwaysOwned Sample.aliceFails Sample.idle).
  intros i _. exists ["always.id"]. split; [reflexivity|discriminate].
Defined.

(** [C2] does not hold of the code. Two names, alice.id and bob.id; the
    lookup of alice.id fails and the lookup of bob.id succeeds. Line 277
    removes alice's [null] from [nameDatas], so bob's data moves to
    position 0 and is written into alice's identity; bob is left without a
    profile URL and is dropped. *)
Lemma getIdentityInfo_misattributes_profile :
  (loadNamedIdentities "seed" Sample.ownerKey Sample.twoNames
     (setCoerceMainnetAddress true Sample.idle)).1
  = Resolved Sample.named
  ∧
  Sample.aliceFails true "alice.id" = Rejected (Error "lookup failed")
  ∧
  Sample.aliceFails true "bob.id" = Resolved (Some Sample.bobData)
  ∧
  (getIdentityInfo "seed" Sample.ownerKey Sample.twoNames Sample.aliceFails
     Sample.idle).1
  = Resolved
      [ {| name := "alice.id"; idAddress := "ID-1Owner0";
           privateKey := "key0"; index := 0;
           profile := nd_profile Sample.bobData;
           profileUrl := nd_profileUrl Sample.bobData |};
        {| name := ""; idAddress := "ID-1Owner3"; privateKey := "key3";
           index := 3; profile := Some empty_object; profileUrl := JStr "" |} ].
Proof. split_and!; vm_compute; reflexivity. Qed.

(** [C3] does not hold of the code, through the defect that misattributes
    profiles. In the run shown above (alice.id and bob.id at index 0; the
    lookup of alice.id fails, that of bob.id finds a profile) the identity
    appended at the end is as the claim says: no name, an empty profile,
    an empty profile URL, and the index 3, the number of named identities
    plus one. But the identities dropped before it are not the ones
    without a resolvable profile: alice.id, whose lookup failed, is kept,
    and bob.id, whose profile was found, is dropped. *)
Theorem getIdentityInfo_drops_resolved_identity :
  (loadNamedIdentities "seed" Sample.ownerKey Sample.twoNames
     (setCoerceMainnetAddress true Sample.idle)).1
  = Resolved Sample.named
  ∧
  name <$> Sample.named = ["alice.id"; "bob.id"]
  ∧
  Sample.aliceFails true "alice.id" = Rejected (Error "lookup failed")
  ∧
  Sample.aliceFails true "bob.id" = Resolved (Some Sample.bobData)
  ∧
  ∃ kept unnamed,
    (getIdentityInfo "seed" Sample.ownerKey Sample.twoNames Sample.aliceFails
       Sample.idle).1
      = Resolved (kept ++ [unnamed]) ∧
    name <$> kept = ["alice.id"] ∧
    unnamed = loadUnnamedIdentity "seed" Sample.ownerKey
                (Z.of_nat (length Sample.named) + 1) ∧
    name unnamed = "" ∧
    profile unnamed = Some empty_object ∧
    profileUrl unnamed = JStr "" ∧
    index unnamed = 3.
Proof.
  split_and!; try (vm_compute; reflexivity).
  eexists [_], _. split; [vm_compute; reflexivity|].
  split_and!; reflexivity.
Qed.

(** ** The sign-in handler *)

Section SignInFacts.
Variable authTransitKey authTransitPubkey : string.
Variable blockstackAPIUrl : string.
Variable AppKeyInfo : Type.
Variable getApplicationKeyInfo :
  string → string → string → Z → promise AppKeyInfo.
Variable getGaiaAddressFromProfile : option Profile → string → promise string.
Variable extractAppKey : AppKeyInfo → option string → promise string.
Variable gaiaConnect : string → string → promise GaiaHubConfig.
Variable gaiaUploadProfileAll :
  list string → string → string → string → promise UploadResult.
Variable nameLookup : string → promise (option NameData).
Variable makeProfileJWT : Profile → string → string.
Variable TokenVerifier_verify : string → string → string → promise bool.
Variable decodeToken : string → promise DecodedPayload.
Variable TokenSigner_sign : string → string → OutwardPayload → string.
Variable decryptContent : jsval → string → promise string.
Variable verifyAuthResponse : string → string → promise bool.
Variable updateQueryStringParameter : string → string → string → string.

Local Abbreviation appKey :=
  (getAppPrivateKey AppKeyInfo getApplicationKeyInfo getGaiaAddressFromProfile
     extractAppKey).
Local Abbreviation reconcile' :=
  (reconcile authTransitKey authTransitPubkey blockstackAPIUrl AppKeyInfo
     getApplicationKeyInfo getGaiaAddressFromProfile extractAppKey gaiaConnect
     nameLookup TokenVerifier_verify decodeToken TokenSigner_sign
     decryptContent verifyAuthResponse).
Local Abbreviation signInChain' :=
  (signInChain authTransitKey authTransitPubkey blockstackAPIUrl AppKeyInfo
     getApplicationKeyInfo getGaiaAddressFromProfile extractAppKey gaiaConnect
     gaiaUploadProfileAll nameLookup makeProfileJWT TokenVerifier_verify
     decodeToken TokenSigner_sign decryptContent verifyAuthResponse
     updateQueryStringParameter).
Local Abbreviation handleSignIn' :=
  (handleSignIn authTransitKey authTransitPubkey blockstackAPIUrl AppKeyInfo
     getApplicationKeyInfo getGaiaAddressFromProfile extractAppKey gaiaConnect
     gaiaUploadProfileAll nameLookup makeProfileJWT TokenVerifier_verify
     decodeToken TokenSigner_sign decryptContent verifyAuthResponse
     updateQueryStringParameter).
Local Abbreviation uploadIfNeeded' :=
  (uploadIfNeeded gaiaUploadProfileAll makeProfileJWT).
Local Abbreviation respond' := (respond updateQueryStringParameter).

Ltac run_step :=
  unfold mbind, step_bind, mret, step_ret, await, throw, setErrorMsg,
    setErrorStatusCode, hubCall in *.

(** The chain is its first three steps followed by the upload decision
    and the response. *)
Lemma signInChain_after_reconcile mnemonic appGaiaHub profileGaiaHub enc h :
  signInChain' mnemonic appGaiaHub profileGaiaHub enc h =
  match reconcile' mnemonic appGaiaHub enc h with
  | (Resolved (metadata, authResponse, newProfileData), h') =>
      (gaiaUrls ← uploadIfNeeded' profileGaiaHub metadata newProfileData;
       respond' metadata authResponse gaiaUrls) h'
  | (Rejected e, h') => (Rejected e, h')
  end.
Proof.
  unfold signInChain, reconcile. run_step.
  destruct (verifyAndDecrypt _ _ _ _ _ _ _ enc h) as [[verified|e] h1]; [|done].
  destruct (rebuildAndConnect _ _ _ _ _ _ _ _ _ verified h1)
    as [[[[metadata authResponse] appHubConfig]|e] h2]; [|done].
  destruct (updateProfileApps nameLookup _ _ _); done.
Qed.

(** What the first three steps establish when they succeed, and what a
    failure among them leaves behind: status 400 and no upload. *)
Lemma reconcile_outcome mnemonic appGaiaHub enc :
  match reconcile' mnemonic appGaiaHub enc start with
  | (Resolved (metadata, authResponse, newProfileData), h) =>
      ∃ envelope credential claims appPrivateKey appHubConfig,
        TokenVerifier_verify "ES256K" authTransitPubkey enc = Resolved true ∧
        decodeToken enc = Resolved envelope ∧
        decryptContent (payload_json envelope) authTransitKey
          = Resolved credential ∧
        verifyAuthResponse credential (blockstackAPIUrl +:+ "/v1/names/")
          = Resolved true ∧
        decodeToken credential = Resolved (CredentialPayload claims metadata) ∧
        appKey mnemonic (md_id metadata) (md_appOrigin metadata)
          = Resolved appPrivateKey ∧
        gaiaConnect appGaiaHub appPrivateKey = Resolved appHubConfig ∧
        updateProfileApps nameLookup (md_id metadata) (md_appOrigin metadata)
          appHubConfig = Resolved newProfileData ∧
        authResponse
          = TokenSigner_sign "ES256K" (privateKey (md_id metadata))
              {| op_claims := claims;
                 op_metadata := {[ "profileUrl" := md_profileUrl metadata ]} |} ∧
        h = {| errorMsg := None; errorStatusCode := 400;
               hubCalls := [GaiaConnect appGaiaHub appPrivateKey] |}
  | (Rejected _, h) =>
      errorStatusCode h = 400 ∧
      Forall (λ c, isUpload c = false) (hubCalls h)
  end.
Proof.
  unfold reconcile, verifyAndDecrypt, rebuildAndConnect. run_step.
  destruct (TokenVerifier_verify _ _ enc) as [[|]|]; simpl; try by auto.
  destruct (decodeToken enc) as [envelope|]; simpl; try by auto.
  destruct (decryptContent _ _) as [credential|] eqn:Hdec; simpl; try by auto.
  destruct (verifyAuthResponse _ _) as [[|]|] eqn:Hver; simpl; try by auto.
  destruct (decodeToken credential) as [[j|claims metadata]|] eqn:Hcred;
    simpl; try by auto.
  destruct (appKey _ _ _) as [appPrivateKey|] eqn:Hkey; simpl; try by auto.
  destruct (gaiaConnect _ _) as [appHubConfig|] eqn:Hconn; simpl.
  - destruct (updateProfileApps _ _ _ _) as [newProfileData|] eqn:Hup; simpl.
    + by exists envelope, credential, claims, appPrivateKey, appHubConfig.
    + split; [done|]. by repeat constructor.
  - split; [done|]. by repeat constructor.
Qed.

(** The handler, case by case. *)
Lemma handleSignIn_cases mnemonic appGaiaHub profileGaiaHub q :
  handleSignIn' mnemonic appGaiaHub profileGaiaHub q =
  match given q with
  | None => (SendJSON {[ "error" := JStr "No encAuthResponse given" ]} 400, [])
  | Some enc =>
      match reconcile' mnemonic appGaiaHub enc start with
      | (Rejected _, h) =>
          (SendJSON {[ "error" := JStr ("Unable to process signin request: "
                                         +:+ showErrorMsg (errorMsg h)) ]}
             (errorStatusCode h), hubCalls h)
      | (Resolved (metadata, authResponse, newProfileData), h) =>
          let id := md_id metadata in
          let profileJWT :=
            makeProfileJWT (up_profile newProfileData) (privateKey id) in
          let upload := GaiaUploadProfileAll [profileGaiaHub] profileJWT
                          (privateKey id) (name id) in
          let redirect :=
            Redirect 302 (updateQueryStringParameter (md_redirect_uri metadata)
                            "authResponse" authResponse) in
          if changed newProfileData &&
             includes (md_scopes metadata) "store_write"
          then
            match gaiaUploadProfileAll [profileGaiaHub] profileJWT
                    (privateKey id) (name id) with
            | Resolved gaiaUrls =>
                if uploadFailed gaiaUrls then
                  (SendJSON {[ "error" :=
                     JStr ("Unable to process signin request: " +:+
                           ("Failed to upload new profile: " +:+
                            default "null" (upload_error gaiaUrls))) ]} 502,
                   hubCalls h ++ [upload])
                else (redirect, hubCalls h ++ [upload])
            | Rejected _ =>
                (SendJSON {[ "error" :=
                   JStr ("Unable to process signin request: " +:+
                         showErrorMsg (errorMsg h)) ]} (errorStatusCode h),
                 hubCalls h ++ [upload])
            end
          else (redirect, hubCalls h)
      end
  end.
Proof.
  unfold handleSignIn. destruct (given q) as [enc|]; [|done].
  rewrite signInChain_after_reconcile.
  destruct (reconcile' mnemonic appGaiaHub enc start)
    as [[[[metadata authResponse] newProfileData]|e] h]; [|done].
  unfold uploadIfNeeded, respond. run_step. cbv zeta.
  destruct (changed newProfileData && includes _ _); simpl.
  - destruct (gaiaUploadProfileAll _ _ _ _) as [gaiaUrls|]; simpl; [|done].
    by destruct (uploadFailed gaiaUrls).
  - done.
Qed.

(** Everything that is known when the handler answers with a redirect. *)
Lemma handleSignIn_redirect_inv mnemonic appGaiaHub profileGaiaHub q c
    location calls :
  handleSignIn' mnemonic appGaiaHub profileGaiaHub q
    = (Redirect c location, calls) →
  ∃ enc envelope credential claims metadata appPrivateKey,
    given q = Some enc ∧
    decodeToken enc = Resolved envelope ∧
    decryptContent (payload_json envelope) authTransitKey
      = Resolved credential ∧
    decodeToken credential = Resolved (CredentialPayload claims metadata) ∧
    appKey mnemonic (md_id metadata) (md_appOrigin metadata)
      = Resolved appPrivateKey ∧
    GaiaConnect appGaiaHub appPrivateKey ∈ calls ∧
    c = 302 ∧
    location
      = updateQueryStringParameter (md_redirect_uri metadata) "authResponse"
          (TokenSigner_sign "ES256K" (privateKey (md_id metadata))
             {| op_claims := claims;
                op_metadata := {[ "profileUrl" := md_profileUrl metadata ]} |}).
Proof.
  rewrite handleSignIn_cases.
  destruct (given q) as [enc|]; [|done].
  pose proof (reconcile_outcome mnemonic appGaiaHub enc) as Hrec.
  destruct (reconcile' mnemonic appGaiaHub enc start)
    as [[[[metadata authResponse] newProfileData]|e] h]; [|done].
  destruct Hrec as (envelope & credential & claims & appPrivateKey &
    appHubConfig & _ & Henv & Hdec & _ & Hcred & Hkey & _ & _ & -> & ->).
  cbv zeta. simpl hubCalls. intros Hresp.
  exists enc, envelope, credential, claims, metadata, appPrivateKey.
  repeat (split; [done|]).
  destruct (changed newProfileData && includes _ _).
  - destruct (gaiaUploadProfileAll _ _ _ _) as [gaiaUrls|]; [|done].
    destruct (uploadFailed gaiaUrls); [done|].
    injection Hresp as <- <- <-. split; [set_solver|done].
  - injection Hresp as <- <- <-. split; [set_solver|done].
Qed.

(** An upload has failed, for line 549, when its result carries a
    non-empty [error]. *)
Lemma uploadFailed_reported gaiaUrls :
  uploadFailed gaiaUrls = true ↔
  ∃ reported, upload_error gaiaUrls = Some reported ∧ reported ≠ "".
Proof.
  unfold uploadFailed. destruct (upload_error gaiaUrls) as [reported|].
  - rewrite negb_true_iff, String.eqb_neq. split; [by exists reported|].
    by intros (? & [= <-] & ?).
  - split; [done|]. by intros (? & [=] & _).
Qed.

(** [C6], amended: the profile is signed with the identity key and
    uploaded if and only if the chain got as far as reconciliation,
    reconciliation reported [changed = true], and the requested scopes
    include 'store_write'. An upload that was attempted and whose result
    reports an error (a non-empty [error] property) is answered with 502;
    502 is used for nothing else. An upload whose promise is rejected is
    answered with 400, as is every failure before the upload decision. *)
Theorem handleSignIn_upload_policy (mnemonic appGaiaHub profileGaiaHub : string)
    (q : option string) :
  let resp := (handleSignIn' mnemonic appGaiaHub profileGaiaHub q).1 in
  let calls := (handleSignIn' mnemonic appGaiaHub profileGaiaHub q).2 in
  (∀ hubs jwt key blockstackID,
     GaiaUploadProfileAll hubs jwt key blockstackID ∈ calls ↔
     ∃ enc metadata authResponse newProfileData h,
       given q = Some enc ∧
       reconcile' mnemonic appGaiaHub enc start
         = (Resolved (metadata, authResponse, newProfileData), h) ∧
       changed newProfileData = true ∧
       "store_write" ∈ md_scopes metadata ∧
       hubs = [profileGaiaHub] ∧
       jwt = makeProfileJWT (up_profile newProfileData)
               (privateKey (md_id metadata)) ∧
       key = privateKey (md_id metadata) ∧
       blockstackID = name (md_id metadata)) ∧
  (∀ hubs jwt key blockstackID gaiaUrls reported,
     GaiaUploadProfileAll hubs jwt key blockstackID ∈ calls →
     gaiaUploadProfileAll hubs jwt key blockstackID = Resolved gaiaUrls →
     upload_error gaiaUrls = Some reported →
     reported ≠ "" →
     resp = SendJSON
              {[ "error" :=
                   JStr ("Unable to process signin request: " +:+
                         ("Failed to upload new profile: " +:+ reported)) ]}
              502) ∧
  (∀ hubs jwt key blockstackID e,
     GaiaUploadProfileAll hubs jwt key blockstackID ∈ calls →
     gaiaUploadProfileAll hubs jwt key blockstackID = Rejected e →
     statusOf resp = 400) ∧
  (statusOf resp = 502 →
     ∃ hubs jwt key blockstackID gaiaUrls reported,
       GaiaUploadProfileAll hubs jwt key blockstackID ∈ calls ∧
       gaiaUploadProfileAll hubs jwt key blockstackID = Resolved gaiaUrls ∧
       upload_error gaiaUrls = Some reported ∧
       reported ≠ "") ∧
  (∀ enc e h,
     given q = Some enc →
     reconcile' mnemonic appGaiaHub enc start = (Rejected e, h) →
     statusOf resp = 400) ∧
  (given q = None → statusOf resp = 400).
Proof.
  cbv zeta. rewrite handleSignIn_cases.
  destruct (given q) as [enc|] eqn:Hq; simpl.
  2: { split_and!; try done;
         try (by intros ? ? ? ? ? ? []%elem_of_nil);
         try (by intros ? ? ? ? ? []%elem_of_nil).
       intros. rewrite elem_of_nil. split; [done|].
       intros (? & ? & ? & ? & ? & [=] & _). }
  pose proof (reconcile_outcome mnemonic appGaiaHub enc) as Hrec.
  destruct (reconcile' mnemonic appGaiaHub enc start)
    as [[[[metadata authResponse] newProfileData]|e] h] eqn:Hrun.
  2: { destruct Hrec as [Hstatus Hnone]. rewrite Forall_forall in Hnone.
       simpl. rewrite Hstatus. split_and!; try done;
         try (by intros ? ? ? ? ? ? ?%Hnone);
         try (by intros ? ? ? ? ? ?%Hnone).
       intros. split; [by intros ?%Hnone|].
       intros (? & ? & ? & ? & ? & ? & ? & _); congruence. }
  destruct Hrec as (envelope & credential & claims & appPrivateKey &
    appHubConfig & _ & _ & _ & _ & _ & _ & _ & _ & _ & ->).
  cbv zeta. simpl hubCalls. unfold includes.
  assert (∀ enc' metadata' authResponse' newProfileData' h',
            Some enc = Some enc' →
            reconcile' mnemonic appGaiaHub enc' start
              = (Resolved (metadata', authResponse', newProfileData'), h') →
            metadata' = metadata ∧ newProfileData' = newProfileData) as Hsame.
  { intros ? ? ? ? ? [= <-] Hrun'. rewrite Hrun in Hrun'. by simplify_eq. }
  destruct (changed newProfileData) eqn:Hch; simpl andb;
    [case_bool_decide as Hscope;
     [destruct (gaiaUploadProfileAll _ _ _ _) as [gaiaUrls|] eqn:Hup;
      [destruct (uploadFailed gaiaUrls) eqn:Hfail|]|]|];
    simpl; split_and!; try done;
    try (intros hubs jwt key blockstackID;
         rewrite ?elem_of_cons, elem_of_nil; split;
         [ intros Hin; destruct_or!; simplify_eq;
           by eexists enc, metadata, authResponse, newProfileData, _
         | intros (? & ? & ? & ? & ? & Henc & Hrun' & ? & ? & -> & -> & -> & ->);
           destruct (Hsame _ _ _ _ _ Henc Hrun') as [-> ->];
           first [ by auto | congruence ] ]);
    try (intros hubs jwt key blockstackID gaiaUrls' reported;
         rewrite ?elem_of_cons, elem_of_nil; intros Hin Hres Herr Hne;
         destruct_or!; simplify_eq; rewrite Hup in Hres; simplify_eq;
         first [ by rewrite Herr
               | exfalso; unfold uploadFailed in Hfail; rewrite Herr in Hfail;
                 by apply negb_false_iff, String.eqb_eq in Hfail ]);
    try (intros hubs jwt key blockstackID e';
         rewrite ?elem_of_cons, elem_of_nil; intros Hin Hres;
         destruct_or!; simplify_eq; congruence);
    try (intros ? ? ? [= <-] Hrun'; congruence).
  apply uploadFailed_reported in Hfail as (reported & Herr & Hne).
  intros _. eexists _, _, _, _, gaiaUrls, reported. split; [|done].
  rewrite !elem_of_cons. auto.
Qed.

(** [C7]: whenever the handler redirects, the [authResponse] parameter of
    the redirect is the credential's payload with its metadata replaced by
    the one-property object [{ profileUrl }], signed with the private key
    of the identity found in the credential. None of the other envelope
    properties ([id], [appOrigin], [redirect_uri], [scopes], [salt]) is in
    that object. *)
Theorem handleSignIn_strips_metadata
    (mnemonic appGaiaHub profileGaiaHub : string) (q : option string)
    (c : Z) (location : string) (calls : list HubCall) :
  handleSignIn' mnemonic appGaiaHub profileGaiaHub q
    = (Redirect c location, calls) →
  ∃ enc envelope credential claims metadata outward,
    given q = Some enc ∧
    decodeToken enc = Resolved envelope ∧
    decryptContent (payload_json envelope) authTransitKey
      = Resolved credential ∧
    decodeToken credential = Resolved (CredentialPayload claims metadata) ∧
    location
      = updateQueryStringParameter (md_redirect_uri metadata) "authResponse"
          (TokenSigner_sign "ES256K" (privateKey (md_id metadata)) outward) ∧
    op_claims outward = claims ∧
    op_metadata outward = {[ "profileUrl" := md_profileUrl metadata ]} ∧
    dom (op_metadata outward) = {[ "profileUrl" ]} ∧
    (∀ k, k ∈ ["id"; "appOrigin"; "redirect_uri"; "scopes"; "salt"] →
          op_metadata outward !! k = None).
Proof.
  intros Hresp.
  destruct (handleSignIn_redirect_inv _ _ _ _ _ _ _ Hresp)
    as (enc & envelope & credential & claims & metadata & appPrivateKey &
        Hq & Henv & Hdec & Hcred & _ & _ & _ & ->).
  exists enc, envelope, credential, claims, metadata,
    {| op_claims := claims;
       op_metadata := {[ "profileUrl" := md_profileUrl metadata ]} |}.
  split_and!; try done; simpl.
  intros k Hk. apply lookup_singleton_ne.
  repeat (apply elem_of_cons in Hk as [->|Hk]; [done|]).
  by apply elem_of_nil in Hk.
Qed.

(** [C10]: whenever the handler redirects, the credential it worked on is
    the one decrypted from the request, and the key that signs the outward
    credential is [metadata.id.privateKey] of that credential, whatever the
    mnemonic: any mnemonic for which the handler redirects yields the same
    redirect. What is derived from the mnemonic is the application key: the
    key information comes from [getApplicationKeyInfo] applied to the
    mnemonic and to the identity and origin named in the metadata, the key
    is what [extractAppKey] makes of it (with the address found in the
    identity's profile, or without an address when that attempt did not
    succeed), and it is the key used to connect to the application's hub. *)
Theorem handleSignIn_key_provenance
    (mnemonic appGaiaHub profileGaiaHub : string) (q : option string)
    (c : Z) (location : string) (calls : list HubCall) :
  handleSignIn' mnemonic appGaiaHub profileGaiaHub q
    = (Redirect c location, calls) →
  ∃ enc envelope credential claims metadata appKeyInfo appPrivateKey,
    given q = Some enc ∧
    decodeToken enc = Resolved envelope ∧
    decryptContent (payload_json envelope) authTransitKey
      = Resolved credential ∧
    decodeToken credential = Resolved (CredentialPayload claims metadata) ∧
    location
      = updateQueryStringParameter (md_redirect_uri metadata) "authResponse"
          (TokenSigner_sign "ES256K" (privateKey (md_id metadata))
             {| op_claims := claims;
                op_metadata := {[ "profileUrl" := md_profileUrl metadata ]} |}) ∧
    getApplicationKeyInfo mnemonic (idAddress (md_id metadata))
      (md_appOrigin metadata) (index (md_id metadata)) = Resolved appKeyInfo ∧
    ( (∃ existingAppAddress,
         getGaiaAddressFromProfile (profile (md_id metadata))
           (md_appOrigin metadata) = Resolved existingAppAddress ∧
         extractAppKey appKeyInfo (Some existingAppAddress)
           = Resolved appPrivateKey)
    ∨ ((∀ existingAppAddress,
          getGaiaAddressFromProfile (profile (md_id metadata))
            (md_appOrigin metadata) = Resolved existingAppAddress →
          ∃ e, extractAppKey appKeyInfo (Some existingAppAddress)
                 = Rejected e) ∧
       extractAppKey appKeyInfo None = Resolved appPrivateKey) ) ∧
    GaiaConnect appGaiaHub appPrivateKey ∈ calls ∧
    (∀ mnemonic' c' location' calls',
       handleSignIn' mnemonic' appGaiaHub profileGaiaHub q
         = (Redirect c' location', calls') →
       location' = location).
Proof.
  intros Hresp.
  destruct (handleSignIn_redirect_inv _ _ _ _ _ _ _ Hresp)
    as (enc & envelope & credential & claims & metadata & appPrivateKey &
        Hq & Henv & Hdec & Hcred & Hkey & Hconn & _ & ->).
  assert (∃ appKeyInfo,
            getApplicationKeyInfo mnemonic (idAddress (md_id metadata))
              (md_appOrigin metadata) (index (md_id metadata))
            = Resolved appKeyInfo ∧
            ( (∃ existingAppAddress,
                 getGaiaAddressFromProfile (profile (md_id metadata))
                   (md_appOrigin metadata) = Resolved existingAppAddress ∧
                 extractAppKey appKeyInfo (Some existingAppAddress)
                   = Resolved appPrivateKey)
            ∨ ((∀ existingAppAddress,
                  getGaiaAddressFromProfile (profile (md_id metadata))
                    (md_appOrigin metadata) = Resolved existingAppAddress →
                  ∃ e, extractAppKey appKeyInfo (Some existingAppAddress)
                         = Rejected e) ∧
               extractAppKey appKeyInfo None = Resolved appPrivateKey) ))
    as (appKeyInfo & Hinfo & Hextract).
  { unfold getAppPrivateKey, mbind, promise_bind, pthen, pcatch in Hkey.
    destruct (getApplicationKeyInfo _ _ _ _) as [info|]; [|done].
    exists info. split; [done|].
    destruct (getGaiaAddressFromProfile _ _) as [addr|].
    - destruct (extractAppKey info (Some addr)) as [k|e] eqn:Hk.
      + left. exists addr. split; [done|]. by rewrite Hk.
      + right. split; [|done]. intros ? [= <-]. by exists e.
    - right. split; [|done]. by intros ? [=]. }
  exists enc, envelope, credential, claims, metadata, appKeyInfo,
    appPrivateKey.
  split_and!; try done.
  intros mnemonic' c' location' calls' Hresp'.
  destruct (handleSignIn_redirect_inv _ _ _ _ _ _ _ Hresp')
    as (enc' & envelope' & credential' & claims' & metadata' & ? &
        Hq' & Henv' & Hdec' & Hcred' & _ & _ & _ & ->).
  rewrite Hq in Hq'. injection Hq' as <-.
  rewrite Henv in Henv'. injection Henv' as <-.
  rewrite Hdec in Hdec'. injection Hdec' as <-.
  rewrite Hcred in Hcred'. by injection Hcred' as <- <-.
Qed.
End SignInFacts.

(** A sign-in that uploads the repaired profile and redirects. *)
Example signIn_redirects :
  Sample.signIn Sample.uploadOk "seed" (Some "signed-envelope")
  = (Redirect 302
       "https://app.example/callback?authResponse=token(ES256K,a11ce)",
     [ GaiaConnect "https://hub.example"
         "appkey(seed|ID-1Alice|https://app.example|0)";
       GaiaUploadProfileAll ["https://profiles.example"] "jwt(a11ce)"
         "a11ce" "alice.id" ]).
Proof. vm_compute. reflexivity. Qed.

(** The same sign-in against a hub that reports an upload error. *)
Example signIn_upload_error :
  Sample.signIn Sample.uploadFails "seed" (Some "signed-envelope")
  = (SendJSON
       {[ "error" := JStr ("Unable to process signin request: " +:+
                           "Failed to upload new profile: hub unreachable") ]}
       502,
     [ GaiaConnect "https://hub.example"
         "appkey(seed|ID-1Alice|https://app.example|0)";
       GaiaUploadProfileAll ["https://profiles.example"] "jwt(a11ce)"
         "a11ce" "alice.id" ]).
Proof. vm_compute. reflexivity. Qed.

(** The same sign-in with no scopes requested: the profile still needs
    repair, but nothing is uploaded. *)
Example signIn_without_write_scope :
  Sample.signInWith [] Sample.uploadOk "seed" (Some "signed-envelope")
  = (Redirect 302
       "https://app.example/callback?authResponse=token(ES256K,a11ce)",
     [ GaiaConnect "https://hub.example"
         "appkey(seed|ID-1Alice|https://app.example|0)" ]).
Proof. vm_compute. reflexivity. Qed.

(** A request whose envelope was not signed by this process. *)
Example signIn_forged_envelope :
  Sample.signIn Sample.uploadOk "seed" (Some "forged")
  = (SendJSON
       {[ "error" := JStr "Unable to process signin request: undefined" ]} 400,
     []).
Proof. vm_compute. reflexivity. Qed.

Lemma handleSignIn_strips_metadata_witness :
  ∃ enc envelope credential claims metadata outward,
    given (Some "signed-envelope") = Some enc ∧
    Sample.decode enc = Resolved envelope ∧
    Sample.decrypt (payload_json envelope) "transit-key"
      = Resolved credential ∧
    Sample.decode credential = Resolved (CredentialPayload claims metadata) ∧
    "https://app.example/callback?authResponse=token(ES256K,a11ce)"
      = Sample.withParameter (md_redirect_uri metadata) "authResponse"
          (Sample.sign "ES256K" (privateKey (md_id metadata)) outward) ∧
    op_claims outward = claims ∧
    op_metadata outward = {[ "profileUrl" := md_profileUrl metadata ]} ∧
    dom (op_metadata outward) = {[ "profileUrl" ]} ∧
    (∀ k, k ∈ ["id"; "appOrigin"; "redirect_uri"; "scopes"; "salt"] →
          op_metadata outward !! k = None).
Proof.
  eapply (handleSignIn_strips_metadata "transit-key" "transit-pub"
            "https://core.example" string Sample.appKeyInfo Sample.gaiaAddress
            Sample.extractKey Sample.connect Sample.uploadOk
            Sample.failingLookup Sample.profileJWT Sample.verifyToken
            Sample.decode Sample.sign Sample.decrypt Sample.verifyCredential
            Sample.withParameter "seed" "https://hub.example"
            "https://profiles.example" (Some "signed-envelope") 302).
  vm_compute. reflexivity.
Defined.

Lemma handleSignIn_key_provenance_witness :
  ∃ enc envelope credential claims metadata appKeyInfo appPrivateKey,
    given (Some "signed-envelope") = Some enc ∧
    Sample.decode enc = Resolved envelope ∧
    Sample.decrypt (payload_json envelope) "transit-key"
      = Resolved credential ∧
    Sample.decode credential = Resolved (CredentialPayload claims metadata) ∧
    "https://app.example/callback?authResponse=token(ES256K,a11ce)"
      = Sample.withParameter (md_redirect_uri metadata) "authResponse"
          (Sample.sign "ES256K" (privateKey (md_id metadata))
             {| op_claims := claims;
                op_metadata := {[ "profileUrl" := md_profileUrl metadata ]} |}) ∧
    Sample.appKeyInfo "seed" (idAddress (md_id metadata))
      (md_appOrigin metadata) (index (md_id metadata)) = Resolved appKeyInfo ∧
    ( (∃ existingAppAddress,
         Sample.gaiaAddress (profile (md_id metadata)) (md_appOrigin metadata)
           = Resolved existingAppAddress ∧
         Sample.extractKey appKeyInfo (Some existingAppAddress)
           = Resolved appPrivateKey)
    ∨ ((∀ existingAppAddress,
          Sample.gaiaAddress (profile (md_id metadata)) (md_appOrigin metadata)
            = Resolved existingAppAddress →
          ∃ e, Sample.extractKey appKeyInfo (Some existingAppAddress)
                 = Rejected e) ∧
       Sample.extractKey appKeyInfo None = Resolved appPrivateKey) ) ∧
    GaiaConnect "https://hub.example" appPrivateKey
      ∈ (Sample.signIn Sample.uploadOk "seed" (Some "signed-envelope")).2 ∧
    (∀ mnemonic' c' location' calls',
       Sample.signIn Sample.uploadOk mnemonic' (Some "signed-envelope")
         = (Redirect c' location', calls') →
       location'
         = "https://app.example/callback?authResponse=token(ES256K,a11ce)").
Proof.
  eapply (handleSignIn_key_provenance "transit-key" "transit-pub"
            "https://core.example" string Sample.appKeyInfo Sample.gaiaAddress
            Sample.extractKey Sample.connect Sample.uploadOk
            Sample.failingLookup Sample.profileJWT Sample.verifyToken
            Sample.decode Sample.sign Sample.decrypt Sample.verifyCredential
            Sample.withParameter "seed" "https://hub.example"
            "https://profiles.example" (Some "signed-envelope") 302).
  vm_compute. reflexivity.
Defined.

(** [C6], as stated, fails: an upload that was attempted and failed
    because its promise was rejected is answered with status 400, not with
    502. *)
Lemma handleSignIn_rejected_upload_answers_400 :
  GaiaUploadProfileAll ["https://profiles.example"] "jwt(a11ce)" "a11ce"
    "alice.id"
    ∈ (Sample.signIn Sample.uploadRejects "seed" (Some "signed-envelope")).2 ∧
  Sample.uploadRejects ["https://profiles.example"] "jwt(a11ce)" "a11ce"
    "alice.id" = Rejected (Error "socket hang up") ∧
  (Sample.signIn Sample.uploadRejects "seed" (Some "signed-envelope")).1
    = SendJSON
        {[ "error" := JStr "Unable to process signin request: undefined" ]}
        400 ∧
  statusOf (Sample.signIn Sample.uploadRejects "seed"
              (Some "signed-envelope")).1 ≠ 502.
Proof.
  assert (Sample.signIn Sample.uploadRejects "seed" (Some "signed-envelope")
          = (SendJSON
               {[ "error" :=
                    JStr "Unable to process signin request: undefined" ]} 400,
             [ GaiaConnect "https://hub.example"
                 "appkey(seed|ID-1Alice|https://app.example|0)";
               GaiaUploadProfileAll ["https://profiles.example"] "jwt(a11ce)"
                 "a11ce" "alice.id" ])) as ->.
  { vm_compute. reflexivity. }
  split_and!; try done. cbn [snd]. rewrite !elem_of_cons. auto.
Qed.

Lemma handleSignIn_upload_policy_witness :
  (Sample.signIn Sample.uploadFails "seed" (Some "signed-envelope")).1
  = SendJSON
      {[ "error" :=
           JStr ("Unable to process signin request: " +:+
                 ("Failed to upload new profile: " +:+ "hub unreachable")) ]}
      502.
Proof.
  destruct (handleSignIn_upload_policy "transit-key" "transit-pub"
              "https://core.example" string Sample.appKeyInfo
              Sample.gaiaAddress Sample.extractKey Sample.connect
              Sample.uploadFails Sample.failingLookup Sample.profileJWT
              Sample.verifyToken Sample.decode Sample.sign Sample.decrypt
              Sample.verifyCredential Sample.withParameter "seed"
              "https://hub.example" "https://profiles.example"
              (Some "signed-envelope")) as (_ & Hreported & _).
  apply (Hreported ["https://profiles.example"] "jwt(a11ce)" "a11ce"
           "alice.id"
           {| dataUrls := JNull; upload_error := Some "hub unreachable" |}
           "hub unreachable").
  - change (GaiaUploadProfileAll ["https://profiles.example"] "jwt(a11ce)"
              "a11ce" "alice.id"
            ∈ (Sample.signIn Sample.uploadFails "seed"
                 (Some "signed-envelope")).2).
    rewrite signIn_upload_error. cbn [snd]. rewrite !elem_of_cons. auto.
  - reflexivity.
  - reflexivity.
  - discriminate.
Defined.

(** ** The backup-phrase format *)

Lemma from_hex_cons (x : byte) (s : string) :
  from_hex (String (hex_digit (Byte.to_N x / 16))
              (String (hex_digit (Byte.to_N x mod 16)) s))
  = x :: from_hex s.
Proof. destruct x; reflexivity. Qed.

(** Decoding what [toString('hex')] produced gives the buffer back. *)
Lemma from_hex_to_hex (buf : bytes) : from_hex (to_hex buf) = buf.
Proof.
  induction buf as [|x rest IH]; [done|].
  cbn [to_hex]. by rewrite from_hex_cons, IH.
Qed.

(** The three slices [decryptMnemonic] takes of
    [salt || hmac || ciphertext]. *)
Lemma slice_layout (salt tag cipherText : bytes) :
  length salt = 16%nat → length tag = 32%nat →
  slice 0 16 (salt ++ tag ++ cipherText) = salt ∧
  slice 16 48 (salt ++ tag ++ cipherText) = tag ∧
  slice_from 48 (salt ++ tag ++ cipherText) = cipherText.
Proof.
  intros Hsalt Htag. unfold slice, slice_from. split_and!.
  - by rewrite drop_0, take_app_length'.
  - rewrite drop_app_length' by done. by rewrite take_app_length'.
  - rewrite app_assoc. apply drop_app_length'. rewrite length_app. lia.
Qed.

(** A key block of 48 bytes splits into three parts of 16 bytes. *)
Lemma slice_key_block (keysAndIV : bytes) :
  length keysAndIV = 48%nat →
  length (slice 0 16 keysAndIV) = 16%nat ∧
  length (slice 16 32 keysAndIV) = 16%nat ∧
  length (slice 32 48 keysAndIV) = 16%nat ∧
  slice 0 16 keysAndIV ++ slice 16 32 keysAndIV ++ slice 32 48 keysAndIV
    = keysAndIV.
Proof.
  intros Hlen. unfold slice. split_and!.
  - rewrite length_take, length_drop. lia.
  - rewrite length_take, length_drop. lia.
  - rewrite length_take, length_drop. lia.
  - rewrite drop_0. simpl Nat.sub.
    rewrite (take_ge (drop 32 keysAndIV)) by (rewrite length_drop; lia).
    replace (drop 32 keysAndIV) with (drop 16 (drop 16 keysAndIV))
      by (by rewrite drop_drop).
    by rewrite !take_drop.
Qed.

Section BackupPhraseFacts.
Variable validateMnemonic : string → bool.
Variable mnemonicToEntropy : string → promise string.
Variable entropyToMnemonic : string → promise string.
Variable Rng : Type.
Variable randomBytes : nat → Rng → bytes * Rng.
Variable pbkdf2Sync : string → bytes → Z → nat → string → bytes.
Variable createCipheriv : string → bytes → bytes → bytes → bytes.
Variable createDecipheriv : string → bytes → bytes → bytes → promise bytes.
Variable createHmac : string → bytes → bytes → bytes.
Variable createHash : string → bytes → bytes.
Variable triplesec_decrypt : string → bytes → promise bytes.

Local Abbreviation encrypt :=
  (encryptBackupPhrase validateMnemonic mnemonicToEntropy Rng randomBytes
     pbkdf2Sync createCipheriv createHmac).
Local Abbreviation decryptCurrent :=
  (decryptMnemonic validateMnemonic entropyToMnemonic pbkdf2Sync
     createDecipheriv createHmac createHash).
Local Abbreviation decrypt :=
  (decryptBackupPhrase validateMnemonic entropyToMnemonic pbkdf2Sync
     createDecipheriv createHmac createHash triplesec_decrypt).

(** The keys derived from a password and a salt. *)
Local Abbreviation keysOf password salt :=
  (pbkdf2Sync password salt 100000 48 "sha512").
Local Abbreviation encKeyOf password salt := (slice 0 16 (keysOf password salt)).
Local Abbreviation macKeyOf password salt := (slice 16 32 (keysOf password salt)).
Local Abbreviation ivOf password salt := (slice 32 48 (keysOf password salt)).

(** What encryption returns for a valid mnemonic. *)
Lemma encryptMnemonic_output plaintext password g entropyHex :
  validateMnemonic plaintext = true →
  mnemonicToEntropy plaintext = Resolved entropyHex →
  let salt := (randomBytes 16 g).1 in
  let cipherText :=
    createCipheriv "aes-128-cbc" (encKeyOf password salt) (ivOf password salt)
      (from_hex entropyHex) in
  let hmacDigest :=
    createHmac "sha256" (macKeyOf password salt) (salt ++ cipherText) in
  encrypt plaintext password g
    = (Resolved (salt ++ hmacDigest ++ cipherText), (randomBytes 16 g).2).
Proof.
  intros Hvalid Hentropy. cbv zeta.
  unfold encryptBackupPhrase, encryptMnemonic, normalizeMnemonic.
  rewrite Hvalid, Hentropy. simpl negb. cbv iota.
  destruct (randomBytes 16 g) as [salt g']. simpl.
  by rewrite from_hex_to_hex.
Qed.

(** Decryption of a buffer laid out as [salt || hmac || ciphertext]. *)
Lemma decryptMnemonic_on_layout salt tag cipherText password :
  length salt = 16%nat → length tag = 32%nat →
  decryptCurrent (salt ++ tag ++ cipherText) password =
    decrypted ← createDecipheriv "aes-128-cbc" (encKeyOf password salt)
                  (ivOf password salt) cipherText;
    if negb (String.eqb
               (to_hex (createHash "sha256" tag))
               (to_hex (createHash "sha256"
                          (createHmac "sha256" (macKeyOf password salt)
                             (salt ++ cipherText)))))
    then Rejected (Error "Wrong password (HMAC mismatch)")
    else
      mnemonic ← entropyToMnemonic (to_hex decrypted);
      if negb (validateMnemonic mnemonic)
      then Rejected (Error "Wrong password (invalid plaintext)")
      else Resolved mnemonic.
Proof.
  intros Hsalt Htag. unfold decryptMnemonic, denormalizeMnemonic.
  destruct (slice_layout salt tag cipherText Hsalt Htag) as (-> & -> & ->).
  by rewrite from_hex_to_hex.
Qed.

(** The decipher runs first: when it throws, that error is the result,
    whatever the two digests are. *)
Lemma decryptMnemonic_decipher_error dataBuffer password e :
  createDecipheriv "aes-128-cbc"
    (encKeyOf password (slice 0 16 dataBuffer))
    (ivOf password (slice 0 16 dataBuffer))
    (slice_from 48 dataBuffer) = Rejected e →
  decryptCurrent dataBuffer password = Rejected e.
Proof.
  intros Hthrow. unfold decryptMnemonic.
  by rewrite from_hex_to_hex, Hthrow.
Qed.

(** A password under which the recomputed digest differs from the stored
    one is never accepted by the current format; when the decipher
    completes, the error is the HMAC mismatch. *)
Lemma decryptMnemonic_wrong_mac dataBuffer password :
  let salt := slice 0 16 dataBuffer in
  let cipherText := slice_from 48 dataBuffer in
  to_hex (createHash "sha256" (slice 16 48 dataBuffer))
    ≠ to_hex (createHash "sha256"
                (createHmac "sha256" (macKeyOf password salt)
                   (salt ++ cipherText))) →
  match createDecipheriv "aes-128-cbc" (encKeyOf password salt)
          (ivOf password salt) cipherText with
  | Resolved _ =>
      decryptCurrent dataBuffer password
        = Rejected (Error "Wrong password (HMAC mismatch)")
  | Rejected e => decryptCurrent dataBuffer password = Rejected e
  end.
Proof.
  cbv zeta. intros Hmac. unfold decryptMnemonic.
  rewrite from_hex_to_hex.
  destruct (createDecipheriv _ _ _ _) as [decrypted|e]; [|done].
  unfold mbind, promise_bind, pthen.
  apply String.eqb_neq in Hmac. by rewrite Hmac.
Qed.

(** The fallback of [decryptBackupPhrase]. *)
Lemma decryptBackupPhrase_fallback dataBuffer password e :
  decryptCurrent dataBuffer password = Rejected e →
  decrypt dataBuffer password =
    match triplesec_decrypt password dataBuffer with
    | Resolved plaintextBuffer => Resolved (PhraseBuffer plaintextBuffer)
    | Rejected err =>
        Rejected (Error ("current algorithm: " +:+ dquote +:+ message e
                         +:+ dquote +:+ ", legacy algorithm: " +:+ dquote
                         +:+ message err +:+ dquote))
    end.
Proof. intros Hcur. unfold decryptBackupPhrase. by rewrite Hcur. Qed.

(** Round trip: with the password it was encrypted under, a backup of a
    valid mnemonic decrypts to the mnemonic that bip39 rebuilds from the
    entropy, without touching the legacy format. *)
Lemma decryptBackupPhrase_encryptBackupPhrase plaintext password g
    entropyHex dataBuffer :
  let salt := (randomBytes 16 g).1 in
  let cipherText :=
    createCipheriv "aes-128-cbc" (encKeyOf password salt) (ivOf password salt)
      (from_hex entropyHex) in
  validateMnemonic plaintext = true →
  mnemonicToEntropy plaintext = Resolved entropyHex →
  entropyToMnemonic (to_hex (from_hex entropyHex)) = Resolved plaintext →
  length salt = 16%nat →
  length (createHmac "sha256" (macKeyOf password salt) (salt ++ cipherText))
    = 32%nat →
  createDecipheriv "aes-128-cbc" (encKeyOf password salt) (ivOf password salt)
    cipherText = Resolved (from_hex entropyHex) →
  (encrypt plaintext password g).1 = Resolved dataBuffer →
  decrypt dataBuffer password = Resolved (PhraseString plaintext).
Proof.
  cbv zeta. intros Hvalid Hentropy Hback Hsalt Htag Hdecipher Henc.
  rewrite (encryptMnemonic_output _ _ _ _ Hvalid Hentropy) in Henc.
  simpl in Henc. injection Henc as <-.
  unfold decryptBackupPhrase.
  rewrite decryptMnemonic_on_layout by done.
  rewrite Hdecipher. unfold mbind, promise_bind, pthen.
  rewrite String.eqb_refl. simpl negb. cbv iota.
  by rewrite Hback, Hvalid.
Qed.

(** [C9]: for a valid mnemonic, the output is
    [salt || hmac || ciphertext], where [salt] is what [randomBytes(16)]
    returned, the key block is PBKDF2 over the password and that salt with
    100000 iterations and 48 bytes requested, its three 16-byte slices are
    the cipher key, the MAC key and the IV, the ciphertext is the
    'aes-128-cbc' encryption of the entropy bytes, and [hmac] is the
    HMAC-SHA256 of [salt || ciphertext] under the MAC key. With the
    primitives returning the lengths asked of them, the salt takes the
    first 16 bytes, the HMAC the next 32, and the ciphertext the rest. *)
Theorem encryptBackupPhrase_layout (plaintext password : string) (g : Rng)
    (entropyHex : string) :
  let salt := (randomBytes 16 g).1 in
  let keysAndIV := pbkdf2Sync password salt 100000 48 "sha512" in
  let encKey := slice 0 16 keysAndIV in
  let macKey := slice 16 32 keysAndIV in
  let iv := slice 32 48 keysAndIV in
  let cipherText :=
    createCipheriv "aes-128-cbc" encKey iv (from_hex entropyHex) in
  let hmacDigest := createHmac "sha256" macKey (salt ++ cipherText) in
  validateMnemonic plaintext = true →
  mnemonicToEntropy plaintext = Resolved entropyHex →
  length salt = 16%nat →
  length keysAndIV = 48%nat →
  length hmacDigest = 32%nat →
  ∃ dataBuffer,
    (encrypt plaintext password g).1 = Resolved dataBuffer ∧
    dataBuffer = salt ++ hmacDigest ++ cipherText ∧
    length encKey = 16%nat ∧ length macKey = 16%nat ∧ length iv = 16%nat ∧
    encKey ++ macKey ++ iv = keysAndIV ∧
    slice 0 16 dataBuffer = salt ∧
    slice 16 48 dataBuffer = hmacDigest ∧
    slice_from 48 dataBuffer = cipherText ∧
    length dataBuffer = (16 + 32 + length cipherText)%nat.
Proof.
  cbv zeta. intros Hvalid Hentropy Hsalt Hkeys Htag.
  eexists. rewrite (encryptMnemonic_output _ _ _ _ Hvalid Hentropy).
  split; [reflexivity|]. split; [reflexivity|].
  destruct (slice_key_block _ Hkeys) as (? & ? & ? & ?).
  destruct (slice_layout _ _ (createCipheriv "aes-128-cbc"
              (encKeyOf password (randomBytes 16 g).1)
              (ivOf password (randomBytes 16 g).1) (from_hex entropyHex))
              Hsalt Htag) as (? & ? & ?).
  split_and!; try done.
  rewrite !length_app. lia.
Qed.
End BackupPhraseFacts.

(** The recorded run: encryption, and decryption with the right password. *)
Example encryptBackupPhrase_recorded :
  (encryptBackupPhrase Sample.validate Sample.toEntropy unit Sample.zeroSalt
     Sample.pbkdf2 Sample.cipher Sample.hmacSha256
     Sample.mnemonic "password" tt).1
  = Resolved Sample.backup.
Proof. vm_compute. reflexivity. Qed.

Example decryptBackupPhrase_recorded :
  decryptBackupPhrase Sample.validate Sample.toMnemonic Sample.pbkdf2
    Sample.decipher Sample.hmacSha256 Sample.sha256 Sample.legacy
    Sample.backup "password"
  = Resolved (PhraseString Sample.mnemonic).
Proof. vm_compute. reflexivity. Qed.

(** [C8] does not hold of the code. The recorded backup is what encryption
    returns under 'password', and it decrypts under 'password'. Decrypting
    it with the password 'wrong' derives another cipher key and IV; the
    decipher's [final()] finds no valid padding and throws on line 65,
    before the digests are compared on line 83. [decryptMnemonic] therefore
    fails with the cipher's error, not with 'Wrong password (HMAC
    mismatch)', and that is the error [decryptBackupPhrase] reports for the
    current format. *)
Theorem decryptBackupPhrase_wrong_password_bad_decrypt :
  (encryptBackupPhrase Sample.validate Sample.toEntropy unit Sample.zeroSalt
     Sample.pbkdf2 Sample.cipher Sample.hmacSha256
     Sample.mnemonic "password" tt).1
  = Resolved Sample.backup
  ∧
  decryptBackupPhrase Sample.validate Sample.toMnemonic Sample.pbkdf2
    Sample.decipher Sample.hmacSha256 Sample.sha256 Sample.legacy
    Sample.backup "password"
  = Resolved (PhraseString Sample.mnemonic)
  ∧
  decryptMnemonic Sample.validate Sample.toMnemonic Sample.pbkdf2
    Sample.decipher Sample.hmacSha256 Sample.sha256 Sample.backup "wrong"
  = Rejected (Error
      "error:06065064:digital envelope routines:EVP_DecryptFinal_ex:bad decrypt")
  ∧
  decryptBackupPhrase Sample.validate Sample.toMnemonic Sample.pbkdf2
    Sample.decipher Sample.hmacSha256 Sample.sha256 Sample.legacy
    Sample.backup "wrong"
  = Rejected (Error
      ("current algorithm: " +:+ dquote +:+
       "error:06065064:digital envelope routines:EVP_DecryptFinal_ex:bad decrypt"
       +:+ dquote +:+ ", legacy algorithm: " +:+ dquote +:+
       "not a legacy backup" +:+ dquote)).
Proof.
  split; [exact encryptBackupPhrase_recorded|].
  split; [exact decryptBackupPhrase_recorded|].
  assert (decryptMnemonic Sample.validate Sample.toMnemonic Sample.pbkdf2
            Sample.decipher Sample.hmacSha256 Sample.sha256 Sample.backup
            "wrong"
          = Rejected (Error
      "error:06065064:digital envelope routines:EVP_DecryptFinal_ex:bad decrypt"))
    as Hcurrent.
  { apply decryptMnemonic_decipher_error. vm_compute. reflexivity. }
  split; [exact Hcurrent|].
  rewrite (decryptBackupPhrase_fallback _ _ _ _ _ _ _ _ _ _ Hcurrent).
  reflexivity.
Qed.

Lemma encryptBackupPhrase_layout_witness :
  ∃ dataBuffer,
    (encryptBackupPhrase Sample.validate Sample.toEntropy unit Sample.zeroSalt
       Sample.pbkdf2 Sample.cipher Sample.hmacSha256
       Sample.mnemonic "password" tt).1 = Resolved dataBuffer ∧
    dataBuffer = Sample.salt ++ Sample.hmacDigest ++ Sample.cipherText ∧
    length (slice 0 16 Sample.keysAndIV) = 16%nat ∧
    length (slice 16 32 Sample.keysAndIV) = 16%nat ∧
    length (slice 32 48 Sample.keysAndIV) = 16%nat ∧
    slice 0 16 Sample.keysAndIV ++ slice 16 32 Sample.keysAndIV ++
      slice 32 48 Sample.keysAndIV = Sample.keysAndIV ∧
    slice 0 16 dataBuffer = Sample.salt ∧
    slice 16 48 dataBuffer = Sample.hmacDigest ∧
    slice_from 48 dataBuffer = Sample.cipherText ∧
    length dataBuffer = (16 + 32 + length Sample.cipherText)%nat.
Proof.
  apply (encryptBackupPhrase_layout Sample.validate Sample.toEntropy unit
           Sample.zeroSalt Sample.pbkdf2 Sample.cipher Sample.hmacSha256
           Sample.mnemonic "password" tt Sample.entropyHex);
    vm_compute; reflexivity.
Defined.

(** * Further properties *)

(** ** Profile reconciliation *)

(** [X1]: when no profile can be looked up (the lookup fails, resolves to
    [null], or its result has no profile), reconciliation instantiates the
    minimal profile, points the application's entry at the expected prefix
    and reports a change. For the origin '__proto__' the assignment of
    line 427 creates no entry: the [apps] object stays empty, and a change
    is reported all the same. *)
Theorem updateProfileApps_instantiates_default
    (nameLookup : string → promise (option NameData))
    (id : NamedIdentityType) (appOrigin : string)
    (appGaiaConfig : GaiaHubConfig) :
  lookedUpProfile (nameLookup (name id)) = None →
  updateProfileApps nameLookup id appOrigin appGaiaConfig
  = Resolved
      {| up_profile :=
           {| pf_fields := {[ "type" := JStr "@Person"; "account" := JArr [] ]};
              pf_apps :=
                Some (if String.eqb appOrigin "__proto__" then ∅
                      else {[ appOrigin := JStr (gaiaPrefix appGaiaConfig) ]}) |};
         changed := true |}.
Proof.
  intros Hnone. rewrite updateProfileApps_cases, Hnone. cbv zeta.
  cbn [appsOf default_profile pf_apps]. rewrite !lookup_empty.
  unfold set_app, assign. cbn [pf_fields]. rewrite lookup_empty.
  destruct (String.eqb appOrigin "__proto__"); [done|].
  by rewrite insert_empty.
Qed.

Lemma updateProfileApps_instantiates_default_witness :
  updateProfileApps Sample.failingLookup Sample.alice Sample.appOrigin
    Sample.hubConfig
  = Resolved
      {| up_profile :=
           {| pf_fields := {[ "type" := JStr "@Person"; "account" := JArr [] ]};
              pf_apps := Some {[ Sample.appOrigin :=
                                   JStr (gaiaPrefix Sample.hubConfig) ]} |};
         changed := true |}.
Proof.
  apply (updateProfileApps_instantiates_default Sample.failingLookup
           Sample.alice Sample.appOrigin Sample.hubConfig).
  reflexivity.
Defined.

(** [X2]: whatever profile reconciliation returns, its entry for the
    application is a non-empty string that starts with the expected
    prefix. The one exception is the origin '__proto__' on an [apps] object
    without an entry of that name: there the profile is returned without an
    entry for the origin, and [changed] is true. *)
Theorem updateProfileApps_establishes_prefix
    (nameLookup : string → promise (option NameData))
    (id : NamedIdentityType) (appOrigin : string)
    (appGaiaConfig : GaiaHubConfig) (r : ProfileUpdate) :
  updateProfileApps nameLookup id appOrigin appGaiaConfig = Resolved r →
  ∃ apps,
    pf_apps (up_profile r) = Some apps ∧
    ( (∃ s, apps !! appOrigin = Some (JStr s) ∧
            startsWith s (gaiaPrefix appGaiaConfig) = true ∧
            truthy (JStr s) = true)
    ∨ (appOrigin = "__proto__" ∧ apps !! appOrigin = None ∧
       changed r = true) ).
Proof.
  intros Hr.
  destruct (updateProfileApps_resolved_entry _ _ _ _ _ Hr)
    as (apps & Ha & _ & [(s & Hs & Hpre)|Hproto]).
  - exists apps. split; [done|]. left. exists s. split_and!; try done. simpl.
    rewrite (startsWith_nonempty s _ Hpre); [done|].
    apply append_slash_nonempty.
  - exists apps. split; [done|]. by right.
Qed.

Lemma updateProfileApps_establishes_prefix_witness :
  ∃ apps,
    pf_apps Sample.staleRepaired = Some apps ∧
    ( (∃ s, apps !! Sample.appOrigin = Some (JStr s) ∧
            startsWith s (gaiaPrefix Sample.hubConfig) = true ∧
            truthy (JStr s) = true)
    ∨ (Sample.appOrigin = "__proto__" ∧ apps !! Sample.appOrigin = None ∧
       true = true) ).
Proof.
  apply (updateProfileApps_establishes_prefix Sample.staleLookup Sample.alice
           Sample.appOrigin Sample.hubConfig
           {| up_profile := Sample.staleRepaired; changed := true |}).
  vm_compute. reflexivity.
Defined.

(** [X3]: reconciliation of an existing profile touches nothing but the
    entry of the application: every property outside [apps] and every
    entry of [apps] for another origin is returned as it was looked up. *)
Theorem updateProfileApps_leaves_rest_untouched
    (nameLookup : string → promise (option NameData))
    (id : NamedIdentityType) (appOrigin : string)
    (appGaiaConfig : GaiaHubConfig) (p : Profile) (r : ProfileUpdate) :
  lookedUpProfile (nameLookup (name id)) = Some p →
  updateProfileApps nameLookup id appOrigin appGaiaConfig = Resolved r →
  pf_fields (up_profile r) = pf_fields p ∧
  ∀ other, other ≠ appOrigin →
    appsOf (up_profile r) !! other
    = appsOf p !! other.
Proof.
  intros Hlook. rewrite updateProfileApps_cases, Hlook. cbv zeta.
  assert (∀ r', Resolved {| up_profile :=
                     set_app p (appsOf p) appOrigin
                       (gaiaPrefix appGaiaConfig);
                   changed := true |} = Resolved r' →
          pf_fields (up_profile r') = pf_fields p ∧
          ∀ other, other ≠ appOrigin →
            appsOf (up_profile r') !! other
            = appsOf p !! other) as Hset.
  { intros r' [= <-]. split; [done|]. intros other Hne.
    cbn [up_profile set_app appsOf pf_apps]. by rewrite assign_other. }
  destruct (appsOf p !! "hasOwnProperty"); [done|].
  destruct (appsOf p !! appOrigin) as [v|]; [|by apply Hset].
  destruct (truthy v); [|by apply Hset].
  destruct v; try done.
  destruct (startsWith s (gaiaPrefix appGaiaConfig)); [|by apply Hset].
  by intros [= <-].
Qed.

Lemma updateProfileApps_leaves_rest_untouched_witness :
  pf_fields Sample.staleRepaired = pf_fields Sample.staleProfile ∧
  ∀ other, other ≠ Sample.appOrigin →
    appsOf Sample.staleRepaired !! other
    = appsOf Sample.staleProfile !! other.
Proof.
  apply (updateProfileApps_leaves_rest_untouched Sample.staleLookup
           Sample.alice Sample.appOrigin Sample.hubConfig Sample.staleProfile
           {| up_profile := Sample.staleRepaired; changed := true |});
    vm_compute; reflexivity.
Defined.

(** [X4]: what [changed = false] means. Reconciliation reports
    [changed = false] exactly when the profile it returns is the profile
    that was looked up, property for property, and that profile has an
    entry for the origin. (For the origin '__proto__' a looked-up profile
    without such an entry is returned as it is and reported as changed.) *)
Theorem updateProfileApps_changed_accurate
    (nameLookup : string → promise (option NameData))
    (id : NamedIdentityType) (appOrigin : string)
    (appGaiaConfig : GaiaHubConfig) (r : ProfileUpdate) :
  updateProfileApps nameLookup id appOrigin appGaiaConfig = Resolved r →
  (changed r = false ↔
   lookedUpProfile (nameLookup (name id)) = Some (up_profile r) ∧
   is_Some (appsOf (up_profile r) !! appOrigin)).
Proof.
  rewrite updateProfileApps_cases. cbv zeta.
  destruct (lookedUpProfile (nameLookup (name id))) as [p|] eqn:Hlook.
  2: { cbn [appsOf default_profile pf_apps]. rewrite !lookup_empty.
       intros [= <-]. split; [done|]. by intros [[=] _]. }
  assert (∀ r', Resolved {| up_profile :=
                     set_app p (appsOf p) appOrigin
                       (gaiaPrefix appGaiaConfig);
                   changed := true |} = Resolved r' →
          (∀ s, appsOf p !! appOrigin = Some (JStr s) →
                startsWith s (gaiaPrefix appGaiaConfig) = false) →
          changed r' = false ↔
          Some p = Some (up_profile r') ∧
          is_Some (appsOf (up_profile r') !! appOrigin)) as Hset.
  { intros r' [= <-] Hstale. split; [done|].
    cbn [up_profile changed]. intros [[= Heq] [v Hv]]. exfalso.
    rewrite <- Heq in Hv.
    destruct (assign_lookup (appsOf p) appOrigin (gaiaPrefix appGaiaConfig))
      as [Hl|(_ & Hnone & _)]; [|congruence].
    assert (appsOf p = assign (appsOf p) appOrigin (gaiaPrefix appGaiaConfig))
      as Happs.
    { rewrite Heq at 1. done. }
    rewrite <- Happs in Hl.
    pose proof (Hstale _ Hl) as Hpre. by rewrite startsWith_refl in Hpre. }
  destruct (appsOf p !! "hasOwnProperty"); [done|].
  destruct (appsOf p !! appOrigin) as [v|] eqn:Hv.
  - destruct (truthy v) eqn:Ht.
    + destruct v; try done.
      destruct (startsWith s (gaiaPrefix appGaiaConfig)) eqn:Hpre.
      * intros [= <-]. cbn [up_profile changed]. split; [|done].
        intros _. split; [done|]. by eexists.
      * intros Hr. apply (Hset _ Hr). by intros s' [= <-].
    + intros Hr. apply (Hset _ Hr). intros s' [= ->].
      apply not_true_iff_false. intros Hpre.
      simpl in Ht. apply negb_false_iff in Ht.
      by rewrite (startsWith_nonempty s' _ Hpre (append_slash_nonempty _ _))
        in Ht.
  - intros Hr. apply (Hset _ Hr). by intros s'.
Qed.

Lemma updateProfileApps_changed_accurate_witness :
  changed {| up_profile := Sample.nestedProfile; changed := false |} = false ↔
  lookedUpProfile (Sample.nestedLookup (name Sample.alice))
    = Some Sample.nestedProfile ∧
  is_Some (appsOf Sample.nestedProfile !! Sample.appOrigin).
Proof.
  apply (updateProfileApps_changed_accurate Sample.nestedLookup Sample.alice
           Sample.appOrigin Sample.hubConfig
           {| up_profile := Sample.nestedProfile; changed := false |}).
  vm_compute. reflexivity.
Defined.

(** [X5]: reconciliation fails in two cases only, both with a
    [TypeError]: the looked-up [apps] object has a property of its own
    named 'hasOwnProperty' (line 422 then calls a value that is no
    function), or it holds, for the application, a truthy value that is not
    a string (a number, a boolean, an array, an object), which has no
    [startsWith]. *)
Theorem updateProfileApps_rejects_non_string
    (nameLookup : string → promise (option NameData))
    (id : NamedIdentityType) (appOrigin : string)
    (appGaiaConfig : GaiaHubConfig) :
  (∃ e, updateProfileApps nameLookup id appOrigin appGaiaConfig = Rejected e)
  ↔
  ((∃ m, updateProfileApps nameLookup id appOrigin appGaiaConfig
           = Rejected (TypeError m)) ∧
   ∃ p apps,
     lookedUpProfile (nameLookup (name id)) = Some p ∧
     pf_apps p = Some apps ∧
     ( is_Some (apps !! "hasOwnProperty")
     ∨ ∃ v, apps !! appOrigin = Some v ∧
            truthy v = true ∧
            ∀ s, v ≠ JStr s )).
Proof.
  split; [|intros [[m He] _]; by eexists].
  intros [e He]. revert He. rewrite updateProfileApps_cases. cbv zeta.
  destruct (lookedUpProfile (nameLookup (name id))) as [p|] eqn:Hlook.
  2: { cbn [appsOf default_profile pf_apps]. by rewrite !lookup_empty. }
  destruct p as [fields [apps|]]; cbn [pf_apps appsOf];
    [|by rewrite !lookup_empty].
  destruct (apps !! "hasOwnProperty") as [w|] eqn:Hown.
  { intros _. split; [by eexists|]. eexists _, apps. split_and!; try done.
    left. by eexists. }
  destruct (apps !! appOrigin) as [v|] eqn:Hv; [|done].
  destruct (truthy v) eqn:Ht; [|done].
  destruct v; try (by (destruct (startsWith _ _)));
    (intros _; split; [by eexists|];
     eexists _, apps; split_and!; try done;
     right; eexists; split_and!; try done).
Qed.

(** [X29]: apart from two origins, reconciliation is idempotent. For an
    origin other than '__proto__' and 'hasOwnProperty', if applying it to
    whatever the first lookup returned (a profile, or none) yields a
    profile, then applying it again, with the lookup now returning that
    profile, yields the identical profile and [changed = false]. *)
Theorem updateProfileApps_idempotent
    (nameLookup nameLookup' : string → promise (option NameData))
    (id : NamedIdentityType) (appOrigin : string)
    (appGaiaConfig : GaiaHubConfig) (r : ProfileUpdate) (d' : NameData) :
  appOrigin ≠ "__proto__" →
  appOrigin ≠ "hasOwnProperty" →
  updateProfileApps nameLookup id appOrigin appGaiaConfig = Resolved r →
  nameLookup' (name id) = Resolved (Some d') →
  nd_profile d' = Some (up_profile r) →
  updateProfileApps nameLookup' id appOrigin appGaiaConfig
    = Resolved {| up_profile := up_profile r; changed := false |}.
Proof.
  intros Hproto Hshadow Hfirst Hlook Hd'.
  destruct (updateProfileApps_resolved_entry _ _ _ _ _ Hfirst)
    as (apps & Ha & Hown & [(s & Hs & Hpre)|(? & _)]); [|done].
  rewrite updateProfileApps_cases. unfold lookedUpProfile.
  rewrite Hlook, Hd'. cbv zeta. unfold appsOf. rewrite Ha, (Hown Hshadow), Hs.
  assert (truthy (JStr s) = true) as ->.
  { simpl. rewrite (startsWith_nonempty s _ Hpre); [done|].
    apply append_slash_nonempty. }
  by rewrite Hpre.
Qed.

Lemma updateProfileApps_idempotent_witness :
  updateProfileApps Sample.repairedLookup Sample.alice Sample.appOrigin
      Sample.hubConfig
    = Resolved {| up_profile := Sample.repairedProfile; changed := false |}.
Proof.
  apply (updateProfileApps_idempotent Sample.failingLookup
           Sample.repairedLookup Sample.alice Sample.appOrigin
           Sample.hubConfig
           {| up_profile := Sample.repairedProfile; changed := true |}
           (Sample.lookedUp Sample.repairedProfile));
    first [discriminate | reflexivity].
Defined.

(** ** Identity discovery *)

Section DiscoveryMore.
Variable mnemonic : string.
Variable getOwnerKeyInfo : string → Z → OwnerKeyInfo.
Variable getNamesOwned : bool → string → promise (list string).
Variable nameLookup : bool → string → promise (option NameData).

Local Abbreviation loop :=
  (loadNamedIdentitiesLoop mnemonic getOwnerKeyInfo getNamesOwned).
Local Abbreviation keyOf i := (getOwnerKeyInfo mnemonic i).
Local Abbreviation addrOf i := (slice_str 3 (ki_idAddress (keyOf i))).

Lemma sentAll_nil net : sentAll [] net = net.
Proof. destruct net. unfold sentAll. simpl. by rewrite app_nil_r. Qed.

Lemma sentAll_sent r rs net : sentAll rs (sent r net) = sentAll (r :: rs) net.
Proof. unfold sentAll, sent. simpl. by rewrite <- app_assoc. Qed.

(** Past a run of indices that all own names the loop is where it would
    be had it started after them, with their identities pushed and their
    requests sent. *)
Lemma loadNamedIdentitiesLoop_skip (owned : Z → list string) (n : nat) :
  ∀ idx identities net,
    (0 ≤ idx)%Z → (idx + Z.of_nat n ≤ 65537)%Z →
    (∀ i, (idx ≤ i < idx + Z.of_nat n)%Z →
       getNamesOwned (coerceMainnetAddress net) (addrOf i)
         = Resolved (owned i) ∧ owned i ≠ []) →
    loop idx identities net
    = loop (idx + Z.of_nat n)
        (identities ++
         concat (map (λ i, identitiesAt (keyOf i) i (owned i))
                   (seqZ idx (Z.of_nat n))))
        (sentAll (map (λ i, ReqNamesOwned (addrOf i)) (seqZ idx (Z.of_nat n)))
           net).
Proof.
  induction n as [|n IH]; intros idx identities net Hidx Hbound Howned.
  - rewrite Z.add_0_r. simpl. by rewrite app_nil_r, sentAll_nil.
  - rewrite loadNamedIdentitiesLoop_step.
    destruct (Z_gt_dec idx 65536) as [Hgt|_]; [lia|]. cbv zeta.
    destruct (Howned idx) as [-> Hne]; [lia|].
    destruct (owned idx) as [|nm rest] eqn:Hnames; [done|].
    cbn [length Nat.eqb]. cbv iota.
    rewrite (IH (idx + 1)%Z); [|lia|lia|].
    2: { intros i Hi. cbn [sent coerceMainnetAddress]. apply Howned. lia. }
    rewrite Nat2Z.inj_succ.
    rewrite (seqZ_cons idx) by lia. cbn [map concat].
    replace (Z.succ idx) with (idx + 1)%Z by lia.
    replace (Z.pred (Z.succ (Z.of_nat n))) with (Z.of_nat n) by lia.
    replace (idx + 1 + Z.of_nat n)%Z with (idx + Z.succ (Z.of_nat n))%Z by lia.
    rewrite sentAll_sent, <- app_assoc. unfold identitiesAt at 2.
    by rewrite Hnames.
Qed.

(** [X6]: discovery stops at the first index that owns no name. When the
    first [k] indices (k at most 65536) each own at least one name and index
    [k] owns none, the loop returns one identity per owned name, grouped by
    index in increasing order and in the registry's order within an index,
    after exactly [k + 1] ownership queries. *)
Theorem loadNamedIdentities_stops_at_first_unnamed
    (owned : Z → list string) (k : nat) (net : Network) :
  (Z.of_nat k ≤ 65536)%Z →
  (∀ i, (0 ≤ i < Z.of_nat k)%Z →
     getNamesOwned (coerceMainnetAddress net) (addrOf i) = Resolved (owned i) ∧
     owned i ≠ []) →
  getNamesOwned (coerceMainnetAddress net) (addrOf (Z.of_nat k))
    = Resolved [] →
  loadNamedIdentities mnemonic getOwnerKeyInfo getNamesOwned net
  = (Resolved (concat (map (λ i, identitiesAt (keyOf i) i (owned i))
                         (seqZ 0 (Z.of_nat k)))),
     sentAll (map (λ i, ReqNamesOwned (addrOf i)) (seqZ 0 (Z.of_nat k + 1)))
       net).
Proof.
  intros Hk Howned Hstop. unfold loadNamedIdentities.
  rewrite (loadNamedIdentitiesLoop_skip owned k 0 [] net); [|lia|lia|done].
  rewrite Z.add_0_l, loadNamedIdentitiesLoop_step.
  destruct (Z_gt_dec (Z.of_nat k) 65536) as [Hgt|_]; [lia|]. cbv zeta.
  cbn [sentAll coerceMainnetAddress]. rewrite Hstop. cbn [length Nat.eqb].
  f_equal. unfold sent, sentAll. cbn [coerceMainnetAddress requests].
  rewrite <- app_assoc, (seqZ_app 0 (Z.of_nat k) 1) by lia.
  by rewrite map_app.
Qed.

(** [X7]: a registry failure aborts discovery. When the ownership query
    for index [k] is rejected (the indices before it owning names),
    discovery is rejected with that very error, the identities found so far
    are discarded, no profile lookup is sent, and the coercion flag is
    switched off again. *)
Theorem getIdentityInfo_registry_failure
    (owned : Z → list string) (k : nat) (net : Network) (e : error) :
  (Z.of_nat k ≤ 65536)%Z →
  (∀ i, (0 ≤ i < Z.of_nat k)%Z →
     getNamesOwned true (addrOf i) = Resolved (owned i) ∧ owned i ≠ []) →
  getNamesOwned true (addrOf (Z.of_nat k)) = Rejected e →
  getIdentityInfo mnemonic getOwnerKeyInfo getNamesOwned nameLookup net
  = (Rejected e,
     {| coerceMainnetAddress := false;
        requests := requests net ++
          map (λ i, ReqNamesOwned (addrOf i)) (seqZ 0 (Z.of_nat k + 1)) |}).
Proof.
  intros Hk Howned Hfail. unfold getIdentityInfo, loadNamedIdentities.
  rewrite (loadNamedIdentitiesLoop_skip owned k 0 []); [|lia|lia|done].
  rewrite Z.add_0_l, loadNamedIdentitiesLoop_step.
  destruct (Z_gt_dec (Z.of_nat k) 65536) as [Hgt|_]; [lia|]. cbv zeta.
  cbn [sentAll setCoerceMainnetAddress coerceMainnetAddress]. rewrite Hfail.
  unfold sent, sentAll, setCoerceMainnetAddress.
  cbn [coerceMainnetAddress requests].
  rewrite <- app_assoc, (seqZ_app 0 (Z.of_nat k) 1) by lia.
  by rewrite map_app.
Qed.

(** With the flag at [c], the loop consults the registry in mode [c] only
    and leaves the flag as it is. *)
Lemma loadNamedIdentitiesLoop_flag (c : bool) (n : nat) :
  ∀ idx identities net,
    n = Z.to_nat (65537 - idx) →
    coerceMainnetAddress net = c →
    loop idx identities net
    = loadNamedIdentitiesLoop mnemonic getOwnerKeyInfo
        (λ _, getNamesOwned c) idx identities net ∧
    coerceMainnetAddress (loop idx identities net).2 = c.
Proof.
  induction n as [|n IH]; intros idx identities net Hn Hc;
    rewrite !loadNamedIdentitiesLoop_step;
    destruct (Z_gt_dec idx 65536) as [Hgt|Hle]; try done; try lia.
  cbv zeta. rewrite Hc.
  destruct (getNamesOwned c (addrOf idx)) as [nameList|e]; [|done].
  destruct (Nat.eqb (length nameList) 0); [done|].
  apply IH; [lia|done].
Qed.

Lemma nameInfoPromises_flag (c : bool) ids : ∀ net,
  coerceMainnetAddress net = c →
  nameInfoPromises nameLookup ids net
  = nameInfoPromises (λ _, nameLookup c) ids net.
Proof.
  induction ids as [|id rest IH]; intros net Hc; [done|].
  cbn [nameInfoPromises]. rewrite Hc. by rewrite IH.
Qed.

(** [X8]: discovery talks to the registry in coerced mode only, whatever
    mode the network was in, and always hands the network back with the
    flag switched off, on success and on failure. *)
Theorem getIdentityInfo_coerced_mode (net : Network) :
  getIdentityInfo mnemonic getOwnerKeyInfo getNamesOwned nameLookup net
  = getIdentityInfo mnemonic getOwnerKeyInfo
      (λ _, getNamesOwned true) (λ _, nameLookup true)
      (setCoerceMainnetAddress false net) ∧
  coerceMainnetAddress
    (getIdentityInfo mnemonic getOwnerKeyInfo getNamesOwned nameLookup net).2
  = false.
Proof.
  unfold getIdentityInfo, loadNamedIdentities.
  change (setCoerceMainnetAddress true (setCoerceMainnetAddress false net))
    with (setCoerceMainnetAddress true net).
  destruct (loadNamedIdentitiesLoop_flag true
              (Z.to_nat (65537 - 0)) 0 [] (setCoerceMainnetAddress true net)
              eq_refl eq_refl) as [<- Hflag].
  destruct (loop 0 [] (setCoerceMainnetAddress true net)) as [[ids|e] net2];
    [|done].
  cbn [snd] in Hflag. rewrite <- (nameInfoPromises_flag true ids net2 Hflag).
  destruct (nameInfoPromises nameLookup ids net2) as [nameDatas net3].
  by destruct (attachNameDatas 0 (dropNulls nameDatas) ids).
Qed.

Local Abbreviation backed := (backedBy mnemonic getOwnerKeyInfo getNamesOwned).

Lemma loadNamedIdentitiesLoop_backed (n : nat) :
  ∀ idx identities net identities' net',
    n = Z.to_nat (65537 - idx) → (0 ≤ idx)%Z →
    Forall (backed (coerceMainnetAddress net)) identities →
    loop idx identities net = (Resolved identities', net') →
    Forall (backed (coerceMainnetAddress net)) identities'.
Proof.
  induction n as [|n IH]; intros idx identities net identities' net' Hn Hidx
    Hacc; rewrite loadNamedIdentitiesLoop_step;
    destruct (Z_gt_dec idx 65536) as [Hgt|Hle]; try done; try lia.
  cbv zeta.
  destruct (getNamesOwned _ (addrOf idx)) as [nameList|e] eqn:Hnames; [|done].
  destruct (Nat.eqb (length nameList) 0); [by intros [= <- _]|].
  intros Hloop.
  apply (IH (idx + 1)%Z _ _ _ _ ltac:(lia) ltac:(lia)) in Hloop; [done|].
  cbn [sent coerceMainnetAddress]. apply Forall_app. split; [done|].
  apply Forall_forall. intros id [nm [-> Hnm]]%list_elem_of_fmap.
  split; [simpl; lia|]. split; [done|]. by exists nameList.
Qed.

(** [X9]: every identity the loop returns is backed by the registry and
    by the key derivation: its index lies between 0 and 65536, its address
    and private key are the ones derived for that index, its name is among
    the names the registry reported for that address, and it starts with an
    empty profile and an empty profile URL. *)
Theorem loadNamedIdentities_backed (net : Network)
    (ids : list NamedIdentityType) (net' : Network) :
  loadNamedIdentities mnemonic getOwnerKeyInfo getNamesOwned net
    = (Resolved ids, net') →
  ∀ id, id ∈ ids →
    (0 ≤ index id ≤ 65536)%Z ∧
    idAddress id = ki_idAddress (keyOf (index id)) ∧
    privateKey id = ki_privateKey (keyOf (index id)) ∧
    profile id = Some empty_object ∧
    profileUrl id = JStr "" ∧
    ∃ nameList,
      getNamesOwned (coerceMainnetAddress net) (addrOf (index id))
        = Resolved nameList ∧
      name id ∈ nameList.
Proof.
  intros Hloop id Hid.
  pose proof (loadNamedIdentitiesLoop_backed _ 0 [] net ids net' eq_refl
                ltac:(lia) (Forall_nil_2 _) Hloop) as Hall.
  rewrite Forall_forall in Hall.
  destruct (Hall id Hid) as (Hidx & Heq & Hname).
  split; [done|]. split_and!; try done; by rewrite Heq.
Qed.

Lemma nameInfoPromises_requests ids : ∀ net,
  (nameInfoPromises nameLookup ids net).2
  = sentAll (map (λ id, ReqNameLookup (name id)) ids) net.
Proof.
  induction ids as [|id rest IH]; intros net.
  - by rewrite sentAll_nil.
  - cbn [nameInfoPromises map].
    specialize (IH (sent (ReqNameLookup (name id)) net)).
    destruct (nameInfoPromises nameLookup rest _) as [others net'].
    cbn [snd] in *. by rewrite IH, sentAll_sent.
Qed.

(** [X10]: once the loop has returned the named identities, discovery
    sends exactly one profile lookup per named identity, in their order,
    and nothing else. *)
Theorem getIdentityInfo_one_lookup_per_name (net : Network)
    (ids : list NamedIdentityType) (net2 : Network) :
  loadNamedIdentities mnemonic getOwnerKeyInfo getNamesOwned
    (setCoerceMainnetAddress true net) = (Resolved ids, net2) →
  requests
    (getIdentityInfo mnemonic getOwnerKeyInfo getNamesOwned nameLookup net).2
  = requests net2 ++ map (λ id, ReqNameLookup (name id)) ids.
Proof.
  intros Hloop. unfold getIdentityInfo. rewrite Hloop.
  pose proof (nameInfoPromises_requests ids net2) as Hreq.
  destruct (nameInfoPromises nameLookup ids net2) as [nameDatas net3].
  cbn [snd] in Hreq. subst net3.
  by destruct (attachNameDatas 0 (dropNulls nameDatas) ids).
Qed.

(** [X11]: when every profile lookup resolves to data, every identity in
    the result, apart from the unnamed one at the end, carries the profile
    and the profile URL that were looked up for its own name, and that
    lookup reported no error. *)
Theorem getIdentityInfo_own_profile (net : Network)
    (ids : list NamedIdentityType) (net2 : Network) (datas : list NameData) :
  loadNamedIdentities mnemonic getOwnerKeyInfo getNamesOwned
    (setCoerceMainnetAddress true net) = (Resolved ids, net2) →
  Forall2 (λ id d, nameLookup (coerceMainnetAddress net2) (name id)
                   = Resolved (Some d)) ids datas →
  ∃ kept net',
    getIdentityInfo mnemonic getOwnerKeyInfo getNamesOwned nameLookup net
      = (Resolved (kept ++ [loadUnnamedIdentity mnemonic getOwnerKeyInfo
                              (Z.of_nat (length ids) + 1)]), net') ∧
    ∀ id, id ∈ kept →
      ∃ d, nameLookup (coerceMainnetAddress net2) (name id)
             = Resolved (Some d) ∧
           profile id = nd_profile d ∧
           profileUrl id = nd_profileUrl d ∧
           truthy (nd_profileUrl d) = true ∧
           from_option truthy false (nd_error d) = false.
Proof.
  intros Hloop Hall.
  destruct (getIdentityInfo_aligned _ _ _ _ net ids net2 datas Hloop Hall)
    as [net' ->].
  eexists _, net'. split; [done|].
  intros id' [Hurl Hin]%list_elem_of_filter.
  apply elem_of_lookup_zip_with in Hin as (i & id & d & -> & Hid & Hd).
  exists d. split.
  - rewrite Forall2_lookup in Hall. specialize (Hall i).
    rewrite Hid, Hd in Hall. inversion Hall as [? ? Hlook|]; subst.
    rewrite <- Hlook. f_equal. unfold attachOne. by case_match.
  - unfold attachOne in *.
    destruct (nd_error d) as [err|]; cbn [from_option];
      [destruct (truthy err); [done|]|]; by cbn in *.
Qed.
End DiscoveryMore.

Lemma loadNamedIdentities_stops_at_first_unnamed_witness :
  loadNamedIdentities "seed" Sample.ownerKey Sample.twoNames Sample.idle
  = (Resolved Sample.named,
     {| coerceMainnetAddress := false;
        requests := [ReqNamesOwned "1Owner0"; ReqNamesOwned "1Owner1"] |}).
Proof.
  apply (loadNamedIdentities_stops_at_first_unnamed "seed" Sample.ownerKey
           Sample.twoNames Sample.ownedNames 1 Sample.idle).
  - lia.
  - intros i Hi. assert (i = 0) as -> by lia.
    split; [reflexivity|discriminate].
  - reflexivity.
Defined.

Lemma getIdentityInfo_registry_failure_witness :
  getIdentityInfo "seed" Sample.ownerKey Sample.registryDown Sample.aliceFails
    Sample.idle
  = (Rejected (Error "connect ECONNREFUSED"),
     {| coerceMainnetAddress := false;
        requests := [ReqNamesOwned "1Owner0"] |}).
Proof.
  apply (getIdentityInfo_registry_failure "seed" Sample.ownerKey
           Sample.registryDown Sample.aliceFails Sample.ownedNames 0
           Sample.idle (Error "connect ECONNREFUSED")).
  - lia.
  - intros i Hi. lia.
  - reflexivity.
Defined.

Lemma loadNamedIdentities_backed_witness :
  let id := newIdentity "bob.id" (Sample.ownerKey "seed" 0) 0 in
  (0 ≤ index id ≤ 65536)%Z ∧
  idAddress id = ki_idAddress (Sample.ownerKey "seed" (index id)) ∧
  privateKey id = ki_privateKey (Sample.ownerKey "seed" (index id)) ∧
  profile id = Some empty_object ∧
  profileUrl id = JStr "" ∧
  ∃ nameList,
    Sample.twoNames false
      (slice_str 3 (ki_idAddress (Sample.ownerKey "seed" (index id))))
      = Resolved nameList ∧
    name id ∈ nameList.
Proof.
  apply (loadNamedIdentities_backed "seed" Sample.ownerKey Sample.twoNames
           Sample.idle Sample.named
           {| coerceMainnetAddress := false;
              requests := [ReqNamesOwned "1Owner0"; ReqNamesOwned "1Owner1"] |}).
  - vm_compute. reflexivity.
  - unfold Sample.named. rewrite !elem_of_cons. auto.
Defined.

Lemma getIdentityInfo_one_lookup_per_name_witness :
  requests
    (getIdentityInfo "seed" Sample.ownerKey Sample.twoNames Sample.aliceFails
       Sample.idle).2
  = [ReqNamesOwned "1Owner0"; ReqNamesOwned "1Owner1"] ++
    map (λ id, ReqNameLookup (name id)) Sample.named.
Proof.
  apply (getIdentityInfo_one_lookup_per_name "seed" Sample.ownerKey
           Sample.twoNames Sample.aliceFails Sample.idle Sample.named
           {| coerceMainnetAddress := true;
              requests := [ReqNamesOwned "1Owner0"; ReqNamesOwned "1Owner1"] |}).
  vm_compute. reflexivity.
Defined.

Lemma getIdentityInfo_own_profile_witness :
  ∃ kept net',
    getIdentityInfo "seed" Sample.ownerKey Sample.twoNames Sample.allResolve
      Sample.idle
      = (Resolved (kept ++ [loadUnnamedIdentity "seed" Sample.ownerKey
                              (Z.of_nat (length Sample.named) + 1)]), net') ∧
    ∀ id, id ∈ kept →
      ∃ d, Sample.allResolve true (name id) = Resolved (Some d) ∧
           profile id = nd_profile d ∧
           profileUrl id = nd_profileUrl d ∧
           truthy (nd_profileUrl d) = true ∧
           from_option truthy false (nd_error d) = false.
Proof.
  apply (getIdentityInfo_own_profile "seed" Sample.ownerKey Sample.twoNames
           Sample.allResolve Sample.idle Sample.named
           {| coerceMainnetAddress := true;
              requests := [ReqNamesOwned "1Owner0"; ReqNamesOwned "1Owner1"] |}
           [Sample.noSuchName; Sample.bobData]).
  - vm_compute. reflexivity.
  - repeat constructor.
Defined.

(** ** The sign-in handler, continued *)

Section SignInMore.
Variable authTransitKey authTransitPubkey : string.
Variable blockstackAPIUrl : string.
Variable AppKeyInfo : Type.
Variable getApplicationKeyInfo :
  string → string → string → Z → promise AppKeyInfo.
Variable getGaiaAddressFromProfile : option Profile → string → promise string.
Variable extractAppKey : AppKeyInfo → option string → promise string.
Variable gaiaConnect : string → string → promise GaiaHubConfig.
Variable gaiaUploadProfileAll :
  list string → string → string → string → promise UploadResult.
Variable nameLookup : string → promise (option NameData).
Variable makeProfileJWT : Profile → string → string.
Variable TokenVerifier_verify : string → string → string → promise bool.
Variable decodeToken : string → promise DecodedPayload.
Variable TokenSigner_sign : string → string → OutwardPayload → string.
Variable decryptContent : jsval → string → promise string.
Variable verifyAuthResponse : string → string → promise bool.
Variable updateQueryStringParameter : string → string → string → string.

Local Abbreviation appKey :=
  (getAppPrivateKey AppKeyInfo getApplicationKeyInfo getGaiaAddressFromProfile
     extractAppKey).
Local Abbreviation reconcile' :=
  (reconcile authTransitKey authTransitPubkey blockstackAPIUrl AppKeyInfo
     getApplicationKeyInfo getGaiaAddressFromProfile extractAppKey gaiaConnect
     nameLookup TokenVerifier_verify decodeToken TokenSigner_sign
     decryptContent verifyAuthResponse).
Local Abbreviation handleSignIn' :=
  (handleSignIn authTransitKey authTransitPubkey blockstackAPIUrl AppKeyInfo
     getApplicationKeyInfo getGaiaAddressFromProfile extractAppKey gaiaConnect
     gaiaUploadProfileAll nameLookup makeProfileJWT TokenVerifier_verify
     decodeToken TokenSigner_sign decryptContent verifyAuthResponse
     updateQueryStringParameter).
Local Abbreviation nameLookupUrl := (blockstackAPIUrl +:+ "/v1/names/").
Local Abbreviation signinError m :=
  (JStr ("Unable to process signin request: " +:+ m)).

Local Abbreviation reconcile_established :=
  (reconcile_outcome authTransitKey authTransitPubkey blockstackAPIUrl
     AppKeyInfo getApplicationKeyInfo getGaiaAddressFromProfile extractAppKey
     gaiaConnect nameLookup TokenVerifier_verify decodeToken TokenSigner_sign
     decryptContent verifyAuthResponse).

Ltac run_chain :=
  unfold mbind, step_bind, mret, step_ret, await, throw, setErrorMsg,
    setErrorStatusCode, hubCall in *.

(** How far the chain got when one of its first three steps failed, and
    what the closure variables hold at that point. *)
Lemma reconcile_rejected mnemonic appGaiaHub enc e h :
  reconcile' mnemonic appGaiaHub enc start = (Rejected e, h) →
  errorStatusCode h = 400 ∧
  ( (errorMsg h = None ∧ hubCalls h = [])
  ∨ (∃ envelope credential,
       TokenVerifier_verify "ES256K" authTransitPubkey enc = Resolved true ∧
       decodeToken enc = Resolved envelope ∧
       decryptContent (payload_json envelope) authTransitKey
         = Resolved credential ∧
       verifyAuthResponse credential nameLookupUrl = Resolved false ∧
       errorMsg h
         = Some ("Unable to verify authResponse token " +:+ credential) ∧
       hubCalls h = [])
  ∨ (∃ envelope credential claims metadata appPrivateKey,
       TokenVerifier_verify "ES256K" authTransitPubkey enc = Resolved true ∧
       decodeToken enc = Resolved envelope ∧
       decryptContent (payload_json envelope) authTransitKey
         = Resolved credential ∧
       verifyAuthResponse credential nameLookupUrl = Resolved true ∧
       decodeToken credential = Resolved (CredentialPayload claims metadata) ∧
       appKey mnemonic (md_id metadata) (md_appOrigin metadata)
         = Resolved appPrivateKey ∧
       errorMsg h = None ∧
       hubCalls h = [GaiaConnect appGaiaHub appPrivateKey]) ).
Proof.
  unfold reconcile, verifyAndDecrypt, rebuildAndConnect. run_chain.
  destruct (TokenVerifier_verify _ _ enc) as [[|]|] eqn:Hsig; simpl;
    try (intros [= <- <-]; by auto).
  destruct (decodeToken enc) as [envelope|] eqn:Henv; simpl;
    try (intros [= <- <-]; by auto).
  destruct (decryptContent _ _) as [credential|] eqn:Hdec; simpl;
    try (intros [= <- <-]; by auto).
  destruct (verifyAuthResponse _ _) as [[|]|] eqn:Hver; simpl;
    try (intros [= <- <-]; by auto).
  2: { intros [= <- <-]. split; [done|]. right; left.
       by exists envelope, credential. }
  destruct (decodeToken credential) as [[j|claims metadata]|] eqn:Hcred;
    simpl; try (intros [= <- <-]; by auto).
  destruct (appKey _ _ _) as [appPrivateKey|] eqn:Hkey; simpl;
    try (intros [= <- <-]; by auto).
  intros Hrest. split.
  - destruct (gaiaConnect _ _); simpl in Hrest;
      [destruct (updateProfileApps _ _ _ _)|]; simpl in Hrest;
      by simplify_eq.
  - right; right.
    exists envelope, credential, claims, metadata, appPrivateKey.
    destruct (gaiaConnect _ _); simpl in Hrest;
      [destruct (updateProfileApps _ _ _ _)|]; simpl in Hrest;
      by simplify_eq.
Qed.

(** [X12]: whatever the request, the handler answers in one of two ways:
    a redirect with status 302, or a JSON object with the single property
    [error] and status 400 or 502. *)
Theorem handleSignIn_response_shape
    (mnemonic appGaiaHub profileGaiaHub : string) (q : option string) :
  let resp := (handleSignIn' mnemonic appGaiaHub profileGaiaHub q).1 in
  (∃ location, resp = Redirect 302 location) ∨
  (∃ m c, resp = SendJSON {[ "error" := JStr m ]} c ∧ (c = 400 ∨ c = 502)).
Proof.
  cbv zeta. rewrite handleSignIn_cases.
  destruct (given q) as [enc|]; [|right; eauto].
  pose proof (reconcile_established mnemonic appGaiaHub enc) as Hrec.
  destruct (reconcile' mnemonic appGaiaHub enc start)
    as [[[[metadata authResponse] newProfileData]|e] h].
  2: { destruct Hrec as [-> _]. right; eauto. }
  destruct Hrec as (? & ? & ? & ? & ? & _ & _ & _ & _ & _ & _ & _ & _ & _ & ->).
  cbv zeta. simpl.
  destruct (changed newProfileData && includes _ _); [|left; eauto].
  destruct (gaiaUploadProfileAll _ _ _ _) as [gaiaUrls|]; simpl;
    [|right; eauto].
  destruct (uploadFailed gaiaUrls); simpl; [right|left]; eauto.
Qed.

(** [X13]: the handler reaches a storage hub at most twice per request
    and always in the same order: first the connection to the application
    hub given to the handler, then, if at all, one upload to the profile
    hub given to the handler. *)
Theorem handleSignIn_hub_calls_shape
    (mnemonic appGaiaHub profileGaiaHub : string) (q : option string) :
  let calls := (handleSignIn' mnemonic appGaiaHub profileGaiaHub q).2 in
  calls = [] ∨
  (∃ appPrivateKey, calls = [GaiaConnect appGaiaHub appPrivateKey]) ∨
  (∃ appPrivateKey profileJWT ownerPrivateKey blockstackID,
     calls = [GaiaConnect appGaiaHub appPrivateKey;
              GaiaUploadProfileAll [profileGaiaHub] profileJWT ownerPrivateKey
                blockstackID]).
Proof.
  cbv zeta. rewrite handleSignIn_cases.
  destruct (given q) as [enc|]; [|by left].
  pose proof (reconcile_established mnemonic appGaiaHub enc) as Hrec.
  pose proof (reconcile_rejected mnemonic appGaiaHub enc) as Hrej.
  destruct (reconcile' mnemonic appGaiaHub enc start)
    as [[[[metadata authResponse] newProfileData]|e] h].
  2: { destruct (Hrej e h eq_refl) as [_ [[_ ->]|[Hc|Hc]]]; simpl.
       - by left.
       - destruct Hc as (? & ? & _ & _ & _ & _ & _ & ->). by left.
       - destruct Hc as (? & ? & ? & ? & k & _ & _ & _ & _ & _ & _ & _ & ->).
         right; left. by exists k. }
  destruct Hrec as (? & ? & ? & k & ? & _ & _ & _ & _ & _ & _ & _ & _ & _ & ->).
  cbv zeta. simpl.
  destruct (changed newProfileData && includes _ _);
    [|right; left; by exists k].
  right; right.
  destruct (gaiaUploadProfileAll _ _ _ _) as [gaiaUrls|]; simpl;
    [destruct (uploadFailed gaiaUrls)|]; simpl; by eexists k, _, _, _.
Qed.

(** [X14]: no storage hub is reached unless both checks passed: the
    envelope was verified against the process-wide transit public key,
    and the credential decrypted from it was verified by
    [verifyAuthResponse] against the name-lookup URL of the network. *)
Theorem handleSignIn_hub_needs_verification
    (mnemonic appGaiaHub profileGaiaHub : string) (q : option string) :
  (handleSignIn' mnemonic appGaiaHub profileGaiaHub q).2 ≠ [] →
  ∃ enc envelope credential,
    given q = Some enc ∧
    TokenVerifier_verify "ES256K" authTransitPubkey enc = Resolved true ∧
    decodeToken enc = Resolved envelope ∧
    decryptContent (payload_json envelope) authTransitKey
      = Resolved credential ∧
    verifyAuthResponse credential nameLookupUrl = Resolved true.
Proof.
  rewrite handleSignIn_cases.
  destruct (given q) as [enc|]; [|done].
  pose proof (reconcile_established mnemonic appGaiaHub enc) as Hrec.
  pose proof (reconcile_rejected mnemonic appGaiaHub enc) as Hrej.
  destruct (reconcile' mnemonic appGaiaHub enc start)
    as [[[[metadata authResponse] newProfileData]|e] h].
  - destruct Hrec as (envelope & credential & ? & ? & ? & Hsig & Henv & Hdec &
      Hver & _).
    intros _. by exists enc, envelope, credential.
  - destruct (Hrej e h eq_refl) as [_ [[_ ->]|[Hc|Hc]]]; simpl; [done| |].
    + by destruct Hc as (? & ? & _ & _ & _ & _ & _ & ->).
    + destruct Hc as (envelope & credential & ? & ? & ? & Hsig & Henv & Hdec &
        Hver & _).
      intros _. by exists enc, envelope, credential.
Qed.

(** [X15]: the text of every error answer. It is 'No encAuthResponse
    given' when the parameter is missing or empty. Otherwise it starts
    with 'Unable to process signin request: ' and goes on with the
    credential-verification message, which quotes the decrypted
    credential (status 400), with the upload message, which quotes the
    error the hub reported (status 502), or, for every other failure, with
    the word 'undefined' (status 400): the message of the error that was
    caught is never shown. *)
Theorem handleSignIn_error_text
    (mnemonic appGaiaHub profileGaiaHub : string) (q : option string)
    (data : gmap string jsval) (c : Z) :
  (handleSignIn' mnemonic appGaiaHub profileGaiaHub q).1 = SendJSON data c →
  (given q = None ∧
   data = {[ "error" := JStr "No encAuthResponse given" ]} ∧ c = 400) ∨
  (∃ enc, given q = Some enc ∧
     ( (data = {[ "error" := signinError "undefined" ]} ∧ c = 400)
     ∨ (∃ envelope credential,
          decodeToken enc = Resolved envelope ∧
          decryptContent (payload_json envelope) authTransitKey
            = Resolved credential ∧
          verifyAuthResponse credential nameLookupUrl = Resolved false ∧
          data = {[ "error" := signinError
                      ("Unable to verify authResponse token " +:+ credential) ]}
          ∧ c = 400)
     ∨ (∃ reported,
          reported ≠ "" ∧
          data = {[ "error" := signinError
                      ("Failed to upload new profile: " +:+ reported) ]} ∧
          c = 502) )).
Proof.
  rewrite handleSignIn_cases.
  destruct (given q) as [enc|]; [|intros [= <- <-]; by left].
  intros Hresp. right. exists enc. split; [done|]. revert Hresp.
  pose proof (reconcile_established mnemonic appGaiaHub enc) as Hrec.
  pose proof (reconcile_rejected mnemonic appGaiaHub enc) as Hrej.
  destruct (reconcile' mnemonic appGaiaHub enc start)
    as [[[[metadata authResponse] newProfileData]|e] h].
  2: { simpl.
       destruct (Hrej e h eq_refl) as [-> [[-> _]|[Hc|Hc]]]; simpl.
       - intros [= <- <-]. by left.
       - destruct Hc as (envelope & credential & _ & Henv & Hdec & Hver &
           -> & _).
         intros [= <- <-]. right; left. by exists envelope, credential.
       - destruct Hc as (? & ? & ? & ? & ? & _ & _ & _ & _ & _ & _ & -> & _).
         intros [= <- <-]. by left. }
  destruct Hrec as (? & ? & ? & ? & ? & _ & _ & _ & _ & _ & _ & _ & _ & _ & ->).
  cbv zeta. simpl.
  destruct (changed newProfileData && includes _ _); [|done].
  destruct (gaiaUploadProfileAll _ _ _ _) as [gaiaUrls|]; simpl;
    [|intros [= <- <-]; by left].
  destruct (uploadFailed gaiaUrls) eqn:Hfail; simpl; [|done].
  intros [= <- <-]. right; right.
  unfold uploadFailed in Hfail.
  destruct (upload_error gaiaUrls) as [reported|]; [|done].
  exists reported. split; [|done].
  intros ->. done.
Qed.

(** [X16]: a request whose envelope is not verified as signed with the
    process-wide transit key (the verifier returns false or throws) is
    answered with status 400 and the text 'Unable to process signin
    request: undefined'; nothing is decoded into a hub call. *)
Theorem handleSignIn_unverified_envelope
    (mnemonic appGaiaHub profileGaiaHub : string) (q : option string)
    (enc : string) :
  given q = Some enc →
  TokenVerifier_verify "ES256K" authTransitPubkey enc ≠ Resolved true →
  handleSignIn' mnemonic appGaiaHub profileGaiaHub q
    = (SendJSON {[ "error" := signinError "undefined" ]} 400, []).
Proof.
  intros Hq Hsig. unfold handleSignIn, signInChain, verifyAndDecrypt.
  rewrite Hq. run_chain.
  by destruct (TokenVerifier_verify _ _ enc) as [[|]|].
Qed.

(** [X17]: when the envelope is in order but [verifyAuthResponse] returns
    false for the credential decrypted from it, the answer has status 400
    and its text contains that decrypted credential; no key is derived and
    no hub is reached. *)
Theorem handleSignIn_echoes_unverified_credential
    (mnemonic appGaiaHub profileGaiaHub : string) (q : option string)
    (enc : string) (envelope : DecodedPayload) (credential : string) :
  given q = Some enc →
  TokenVerifier_verify "ES256K" authTransitPubkey enc = Resolved true →
  decodeToken enc = Resolved envelope →
  decryptContent (payload_json envelope) authTransitKey = Resolved credential →
  verifyAuthResponse credential nameLookupUrl = Resolved false →
  handleSignIn' mnemonic appGaiaHub profileGaiaHub q
    = (SendJSON
         {[ "error" := signinError
              ("Unable to verify authResponse token " +:+ credential) ]} 400,
       []).
Proof.
  intros Hq Hsig Henv Hdec Hver.
  unfold handleSignIn, signInChain, verifyAndDecrypt, rebuildAndConnect.
  rewrite Hq. run_chain. rewrite Hsig. simpl. rewrite Henv. simpl.
  rewrite Hdec. simpl. by rewrite Hver.
Qed.

(** [X18]: [getAppPrivateKey] fails in two ways only: the key information
    cannot be derived, or the extraction without an address fails after
    the attempt with the address found in the profile did not succeed. An
    error of the profile inspection or of the extraction with an address
    is never the result. *)
Theorem getAppPrivateKey_failure (mnemonic : string) (id : NamedIdentityType)
    (appOrigin : string) (e : error) :
  appKey mnemonic id appOrigin = Rejected e ↔
  getApplicationKeyInfo mnemonic (idAddress id) appOrigin (index id)
    = Rejected e ∨
  ∃ appKeyInfo,
    getApplicationKeyInfo mnemonic (idAddress id) appOrigin (index id)
      = Resolved appKeyInfo ∧
    extractAppKey appKeyInfo None = Rejected e ∧
    ∀ existingAppAddress,
      getGaiaAddressFromProfile (profile id) appOrigin
        = Resolved existingAppAddress →
      ∃ e', extractAppKey appKeyInfo (Some existingAppAddress) = Rejected e'.
Proof.
  unfold getAppPrivateKey, mbind, promise_bind, pthen, pcatch.
  destruct (getApplicationKeyInfo _ _ _ _) as [appKeyInfo|e0].
  - destruct (getGaiaAddressFromProfile _ _) as [addr|e1].
    + destruct (extractAppKey appKeyInfo (Some addr)) as [k|e2] eqn:Hk.
      * split; [done|]. intros [[=]|(info & [= <-] & _ & Hall)].
        destruct (Hall addr eq_refl) as [e' He']. congruence.
      * split.
        -- intros He. right. exists appKeyInfo. split_and!; try done.
           intros ? [= <-]. by exists e2.
        -- by intros [[=]|(info & [= <-] & He & _)].
    + split.
      * intros He. right. exists appKeyInfo. split_and!; done.
      * by intros [[=]|(info & [= <-] & He & _)].
  - split.
    + intros [= ->]. by left.
    + by intros [[= ->]|(info & [=] & _)].
Qed.
End SignInMore.

Lemma handleSignIn_hub_needs_verification_witness :
  ∃ enc envelope credential,
    given (Some "signed-envelope") = Some enc ∧
    Sample.verifyToken "ES256K" "transit-pub" enc = Resolved true ∧
    Sample.decode enc = Resolved envelope ∧
    Sample.decrypt (payload_json envelope) "transit-key"
      = Resolved credential ∧
    Sample.verifyCredential credential ("https://core.example" +:+ "/v1/names/")
      = Resolved true.
Proof.
  apply (handleSignIn_hub_needs_verification "transit-key" "transit-pub"
           "https://core.example" string Sample.appKeyInfo Sample.gaiaAddress
           Sample.extractKey Sample.connect Sample.uploadOk
           Sample.failingLookup Sample.profileJWT Sample.verifyToken
           Sample.decode Sample.sign Sample.decrypt Sample.verifyCredential
           Sample.withParameter "seed" "https://hub.example"
           "https://profiles.example" (Some "signed-envelope")).
  vm_compute. discriminate.
Defined.

Lemma handleSignIn_error_text_witness :
  let data : gmap string jsval :=
    {[ "error" := JStr ("Unable to process signin request: " +:+
                        "Failed to upload new profile: hub unreachable") ]} in
  (given (Some "signed-envelope") = None ∧
   data = {[ "error" := JStr "No encAuthResponse given" ]} ∧ 502 = 400) ∨
  (∃ enc, given (Some "signed-envelope") = Some enc ∧
     ( (data = {[ "error" := JStr ("Unable to process signin request: " +:+
                                   "undefined") ]} ∧ 502 = 400)
     ∨ (∃ envelope credential,
          Sample.decode enc = Resolved envelope ∧
          Sample.decrypt (payload_json envelope) "transit-key"
            = Resolved credential ∧
          Sample.verifyCredential credential
            ("https://core.example" +:+ "/v1/names/") = Resolved false ∧
          data = {[ "error" := JStr ("Unable to process signin request: " +:+
                      ("Unable to verify authResponse token " +:+ credential)) ]}
          ∧ 502 = 400)
     ∨ (∃ reported,
          reported ≠ "" ∧
          data = {[ "error" := JStr ("Unable to process signin request: " +:+
                      ("Failed to upload new profile: " +:+ reported)) ]} ∧
          502 = 502) )).
Proof.
  apply (handleSignIn_error_text "transit-key" "transit-pub"
           "https://core.example" string Sample.appKeyInfo Sample.gaiaAddress
           Sample.extractKey Sample.connect Sample.uploadFails
           Sample.failingLookup Sample.profileJWT Sample.verifyToken
           Sample.decode Sample.sign Sample.decrypt Sample.verifyCredential
           Sample.withParameter "seed" "https://hub.example"
           "https://profiles.example" (Some "signed-envelope")).
  vm_compute. reflexivity.
Defined.

Lemma handleSignIn_unverified_envelope_witness :
  Sample.signIn Sample.uploadOk "seed" (Some "forged")
  = (SendJSON
       {[ "error" := JStr "Unable to process signin request: undefined" ]} 400,
     []).
Proof.
  apply (handleSignIn_unverified_envelope "transit-key" "transit-pub"
           "https://core.example" string Sample.appKeyInfo Sample.gaiaAddress
           Sample.extractKey Sample.connect Sample.uploadOk
           Sample.failingLookup Sample.profileJWT Sample.verifyToken
           Sample.decode Sample.sign Sample.decrypt Sample.verifyCredential
           Sample.withParameter "seed" "https://hub.example"
           "https://profiles.example" (Some "forged") "forged").
  - reflexivity.
  - vm_compute. discriminate.
Defined.

Lemma handleSignIn_echoes_unverified_credential_witness :
  handleSignIn "transit-key" "transit-pub" "https://core.example" string
    Sample.appKeyInfo Sample.gaiaAddress Sample.extractKey Sample.connect
    Sample.uploadOk Sample.failingLookup Sample.profileJWT Sample.verifyToken
    Sample.decode Sample.sign Sample.decrypt Sample.rejectCredential
    Sample.withParameter "seed" "https://hub.example"
    "https://profiles.example" (Some "signed-envelope")
  = (SendJSON
       {[ "error" := JStr ("Unable to process signin request: " +:+
            ("Unable to verify authResponse token " +:+ "credential")) ]} 400,
     []).
Proof.
  apply (handleSignIn_echoes_unverified_credential "transit-key" "transit-pub"
           "https://core.example" string Sample.appKeyInfo Sample.gaiaAddress
           Sample.extractKey Sample.connect Sample.uploadOk
           Sample.failingLookup Sample.profileJWT Sample.verifyToken
           Sample.decode Sample.sign Sample.decrypt Sample.rejectCredential
           Sample.withParameter "seed" "https://hub.example"
           "https://profiles.example" (Some "signed-envelope")
           "signed-envelope" (EnvelopePayload (JStr "ciphertext")) "credential");
    reflexivity.
Defined.

(** ** The sign-in page *)

Lemma string_app_cons (x : ascii) (a b : string) :
  String x a +:+ b = String x (a +:+ b).
Proof. reflexivity. Qed.

Lemma string_app_assoc (a b c : string) : (a +:+ b) +:+ c = a +:+ (b +:+ c).
Proof.
  induction a as [|x a IH]; [done|]. by rewrite !string_app_cons, IH.
Qed.

Lemma string_app_empty_r (a : string) : a +:+ "" = a.
Proof.
  induction a as [|x a IH]; [done|]. by rewrite string_app_cons, IH.
Qed.

Lemma lacks_app c a b : lacks c (a +:+ b) = lacks c a && lacks c b.
Proof.
  induction a as [|x a IH]; [done|]. rewrite string_app_cons. simpl.
  rewrite IH. by destruct (Ascii.eqb c x).
Qed.

Lemma startsWith_app (p b : string) : startsWith (p +:+ b) p = true.
Proof.
  unfold startsWith. induction p as [|x p IH]; [by destruct b|].
  rewrite string_app_cons. simpl.
  destruct (Ascii.ascii_dec x x); [done|congruence].
Qed.

Lemma string_drop_app (p b : string) :
  string_drop (String.length p) (p +:+ b) = b.
Proof.
  induction p as [|x p IH]; [by destruct b|]. by rewrite string_app_cons.
Qed.

(** A pattern that starts with a character the text before it lacks is
    found right after that text. *)
Lemma search_fresh (c : ascii) (p a b : string) :
  lacks c a = true →
  search (String c p) (a +:+ String c p +:+ b) = Some (a, b).
Proof.
  intros Ha. induction a as [|x a IH].
  - change ("" +:+ String c p +:+ b) with (String c p +:+ b).
    pose proof (startsWith_app (String c p) b) as Hpre.
    pose proof (string_drop_app (String c p) b) as Hdrop.
    rewrite string_app_cons in *. cbn [search]. by rewrite Hpre, Hdrop.
  - simpl in Ha. apply andb_prop in Ha as [Hx Ha].
    apply negb_true_iff, Ascii.eqb_neq in Hx.
    rewrite string_app_cons. cbn [search]. rewrite (IH Ha).
    unfold startsWith. simpl.
    by destruct (Ascii.ascii_dec c x).
Qed.

(** A replacement text without a dollar sign is inserted as it is. *)
Lemma getSubstitution_plain matched before after r :
  lacks "$" r = true → getSubstitution matched before after r = r.
Proof.
  induction r as [|x r IH]; [done|]. cbn [lacks getSubstitution]. intros Hr.
  apply andb_prop in Hr as [Hx Hr]. apply negb_true_iff in Hx.
  rewrite (Ascii.eqb_sym x), Hx. by rewrite IH.
Qed.

Lemma String_replace_fresh (c : ascii) (p r a b : string) :
  lacks c a = true → lacks "$" r = true →
  String_replace (String c p) r (a +:+ String c p +:+ b) = a +:+ r +:+ b.
Proof.
  intros Ha Hr. unfold String_replace.
  by rewrite search_fresh, getSubstitution_plain.
Qed.

(** [X19]: the entry of an identity on the page. When the sign-in link
    and the identity's name contain neither a dollar sign nor an opening
    brace, and its address contains no dollar sign, the entry is the
    paragraph with the link as target, labelled with the name and followed
    by the address in parentheses; for an identity without a name the
    label is the address and the paragraph ends in '(anonymous)'. *)
Theorem signinEntry_plain (link : string) (id : NamedIdentityType) :
  lacks "$" link = true → lacks "{" link = true →
  lacks "$" (name id) = true → lacks "{" (name id) = true →
  lacks "$" (idAddress id) = true →
  signinEntry link id =
    if String.eqb (name id) "" then
      "<p><a href=" +:+ dquote +:+ link +:+ dquote +:+ ">" +:+ idAddress id
        +:+ "</a> (anonymous)</p>"
    else
      "<p><a href=" +:+ dquote +:+ link +:+ dquote +:+ ">" +:+ name id
        +:+ "</a> (" +:+ idAddress id +:+ ")</p>".
Proof.
  intros Hl1 Hl2 Hn1 Hn2 Ha. unfold signinEntry.
  destruct (String.eqb (name id) ""); simpl negb; cbv iota.
  - change SIGNIN_FMT_ID
      with (("<p><a href=" +:+ dquote) +:+ "{authRedirect}" +:+
            (dquote +:+ ">{idAddress}</a> (anonymous)</p>")).
    rewrite String_replace_fresh by done.
    replace (("<p><a href=" +:+ dquote) +:+ link +:+
             dquote +:+ ">{idAddress}</a> (anonymous)</p>")
      with (("<p><a href=" +:+ dquote +:+ link +:+ dquote +:+ ">") +:+
            "{idAddress}" +:+ "</a> (anonymous)</p>")
      by (by rewrite !string_app_assoc).
    rewrite String_replace_fresh; [|by rewrite !lacks_app, Hl2|done].
    by rewrite !string_app_assoc.
  - change SIGNIN_FMT_NAME
      with (("<p><a href=" +:+ dquote) +:+ "{authRedirect}" +:+
            (dquote +:+ ">{blockstackID}</a> ({idAddress})</p>")).
    rewrite String_replace_fresh by done.
    replace (("<p><a href=" +:+ dquote) +:+ link +:+
             dquote +:+ ">{blockstackID}</a> ({idAddress})</p>")
      with (("<p><a href=" +:+ dquote +:+ link +:+ dquote +:+ ">") +:+
            "{blockstackID}" +:+ "</a> ({idAddress})</p>")
      by (by rewrite !string_app_assoc).
    rewrite String_replace_fresh; [|by rewrite !lacks_app, Hl2|done].
    replace (("<p><a href=" +:+ dquote +:+ link +:+ dquote +:+ ">") +:+
             name id +:+ "</a> ({idAddress})</p>")
      with (("<p><a href=" +:+ dquote +:+ link +:+ dquote +:+ ">" +:+
             name id +:+ "</a> (") +:+ "{idAddress}" +:+ ")</p>")
      by (by rewrite !string_app_assoc).
    rewrite String_replace_fresh;
      [|by rewrite !lacks_app, Hl2, Hn2|done].
    by rewrite !string_app_assoc.
Qed.

Section SignInPageFacts.
Variable authTransitKey authTransitPubkey : string.
Variable config_blockstackAPIUrl : string.
Variable AppKeyInfo : Type.
Variable getApplicationKeyInfo :
  string → string → string → Z → promise AppKeyInfo.
Variable getGaiaAddressFromProfile : option Profile → string → promise string.
Variable extractAppKey : AppKeyInfo → option string → promise string.
Variable makeAssociationToken : string → string → promise string.
Variable Rng : Type.
Variable randomBytes : nat → Rng → bytes * Rng.
Variable makeAuthResponse :
  string → jsval → string → jsval → jsval → string → jsval → option string →
  string → string → string → rand Rng string.
Variable decodePayload : string → promise (gmap string jsval).
Variable TokenSigner_sign : string → string → DecodedPayload → string.
Variable encryptContent : string → string → rand Rng jsval.
Variable updateQueryStringParameter : string → string → string → string.
Variable verifyAuthRequest : string → promise bool.
Variable Manifest : Type.
Variable fetchAppManifest : string → promise Manifest.
Variable decodeAuthRequest : string → promise (option AuthRequest).
Variable getOwnerKeyInfo : string → Z → OwnerKeyInfo.
Variable getNamesOwned : bool → string → promise (list string).
Variable nameLookup : bool → string → promise (option NameData).

Local Abbreviation link :=
  (makeSignInLink authTransitKey authTransitPubkey config_blockstackAPIUrl
     AppKeyInfo getApplicationKeyInfo getGaiaAddressFromProfile extractAppKey
     makeAssociationToken Rng randomBytes makeAuthResponse decodePayload
     TokenSigner_sign encryptContent updateQueryStringParameter).
Local Abbreviation links :=
  (makeSignInLinks authTransitKey authTransitPubkey config_blockstackAPIUrl
     AppKeyInfo getApplicationKeyInfo getGaiaAddressFromProfile extractAppKey
     makeAssociationToken Rng randomBytes makeAuthResponse decodePayload
     TokenSigner_sign encryptContent updateQueryStringParameter).
Local Abbreviation pageLoop :=
  (makeAuthPageLoop authTransitKey authTransitPubkey config_blockstackAPIUrl
     AppKeyInfo getApplicationKeyInfo getGaiaAddressFromProfile extractAppKey
     makeAssociationToken Rng randomBytes makeAuthResponse decodePayload
     TokenSigner_sign encryptContent updateQueryStringParameter).
Local Abbreviation page :=
  (makeAuthPage authTransitKey authTransitPubkey config_blockstackAPIUrl
     AppKeyInfo getApplicationKeyInfo getGaiaAddressFromProfile extractAppKey
     makeAssociationToken Rng randomBytes makeAuthResponse decodePayload
     TokenSigner_sign encryptContent updateQueryStringParameter Manifest).
Local Abbreviation auth :=
  (handleAuth authTransitKey authTransitPubkey config_blockstackAPIUrl
     AppKeyInfo getApplicationKeyInfo getGaiaAddressFromProfile extractAppKey
     makeAssociationToken Rng randomBytes makeAuthResponse decodePayload
     TokenSigner_sign encryptContent updateQueryStringParameter
     verifyAuthRequest Manifest fetchAppManifest decodeAuthRequest
     getOwnerKeyInfo getNamesOwned nameLookup).
Local Abbreviation discover mnemonic :=
  (getIdentityInfo mnemonic getOwnerKeyInfo getNamesOwned nameLookup).
Local Abbreviation unnamed mnemonic :=
  (loadUnnamedIdentity mnemonic getOwnerKeyInfo).
Local Abbreviation authFailure m :=
  (AuthJSON
     {[ "error" := JStr ("Unable to authenticate app request: " +:+ m) ]} 400).

Ltac run_rand := unfold mbind, rand_bind, mret, rand_ret, settled in *.

(** The loop appends one entry per link to what it was given. *)
Lemma makeAuthPageLoop_entries authPort mnemonic hubUrl authRequest ids :
  ∀ signinBody g,
    pageLoop authPort mnemonic hubUrl authRequest ids signinBody g =
    match links authPort mnemonic authRequest hubUrl ids g with
    | (Resolved ls, g') =>
        (Resolved (signinBody +:+ joined (zip_with signinEntry ls ids)), g')
    | (Rejected e, g') => (Rejected e, g')
    end.
Proof.
  induction ids as [|id rest IH]; intros signinBody g;
    cbn [makeAuthPageLoop makeSignInLinks]; run_rand.
  - by rewrite string_app_empty_r.
  - destruct (link authPort mnemonic authRequest hubUrl id g) as [[l|e] g1];
      [|done].
    rewrite IH.
    destruct (links authPort mnemonic authRequest hubUrl rest g1)
      as [[ls|e] g2]; [|done].
    by rewrite string_app_assoc.
Qed.

Lemma makeSignInLinks_length authPort mnemonic hubUrl authRequest ids :
  ∀ g ls g',
    links authPort mnemonic authRequest hubUrl ids g = (Resolved ls, g') →
    length ls = length ids.
Proof.
  induction ids as [|id rest IH]; intros g ls g';
    cbn [makeSignInLinks]; run_rand.
  - by intros [= <- _].
  - destruct (link authPort mnemonic authRequest hubUrl id g) as [[l|e] g1];
      [|done].
    destruct (links authPort mnemonic authRequest hubUrl rest g1)
      as [[ls'|e] g2] eqn:Hrest; [|done].
    intros [= <- _]. simpl. by rewrite (IH _ _ _ Hrest).
Qed.

(** No link is made for an identity whose application key information
    cannot be derived, and nothing is drawn for it. *)
Lemma makeSignInLink_no_key_info authPort mnemonic hubUrl authRequest id e g :
  getApplicationKeyInfo mnemonic (idAddress id) (ar_domain_name authRequest)
    (index id) = Rejected e →
  link authPort mnemonic authRequest hubUrl id g = (Rejected e, g).
Proof. intros He. unfold makeSignInLink. run_rand. by rewrite He. Qed.

Lemma makeSignInLinks_no_key_info authPort mnemonic hubUrl authRequest ids
    id e :
  id ∈ ids →
  getApplicationKeyInfo mnemonic (idAddress id) (ar_domain_name authRequest)
    (index id) = Rejected e →
  ∀ g, ∃ e' g',
    links authPort mnemonic authRequest hubUrl ids g = (Rejected e', g').
Proof.
  intros Hin He. induction ids as [|id0 rest IH]; intros g.
  - by apply elem_of_nil in Hin.
  - cbn [makeSignInLinks]; run_rand.
    apply elem_of_cons in Hin as [<-|Hin].
    + rewrite (makeSignInLink_no_key_info _ _ _ _ _ _ _ He). eauto.
    + destruct (link authPort mnemonic authRequest hubUrl id0 g)
        as [[l|e0] g1]; [|eauto].
      destruct (IH Hin g1) as (e' & g' & ->). eauto.
Qed.

Lemma makeAuthPage_loop_fails authPort mnemonic hubUrl manifest authRequest
    ids id e :
  id ∈ ids →
  getApplicationKeyInfo mnemonic (idAddress id) (ar_domain_name authRequest)
    (index id) = Rejected e →
  ∀ g, ∃ e' g',
    page authPort mnemonic hubUrl manifest authRequest ids g
      = (Rejected e', g').
Proof.
  intros Hin He g. unfold makeAuthPage. run_rand.
  rewrite makeAuthPageLoop_entries.
  destruct (makeSignInLinks_no_key_info authPort mnemonic hubUrl authRequest
              ids id e Hin He g) as (e' & g' & ->).
  eauto.
Qed.


(** A recorded message is the one shown. *)
Lemma authError_recorded (m : string) (e : error) :
  String.eqb m "" = false → authError (Some m) e = authFailure m.
Proof. intros Hm. unfold authError. by rewrite Hm. Qed.

(** [X20]: the page is the header, one entry per identity in the order of
    the list, and the footer. The links are made from left to right, each
    with the generator the previous one left; the first link that cannot
    be made ends the page with its error. *)
Theorem makeAuthPage_entries (authPort : Z) (mnemonic hubUrl : string)
    (manifest : Manifest) (authRequest : AuthRequest)
    (ids : list NamedIdentityType) (g : Rng) :
  page authPort mnemonic hubUrl manifest authRequest ids g =
  match links authPort mnemonic authRequest hubUrl ids g with
  | (Resolved ls, g') =>
      (Resolved (SIGNIN_HEADER +:+ joined (zip_with signinEntry ls ids) +:+
                 SIGNIN_FOOTER), g')
  | (Rejected e, g') => (Rejected e, g')
  end ∧
  ∀ ls g',
    links authPort mnemonic authRequest hubUrl ids g = (Resolved ls, g') →
    length ls = length ids.
Proof.
  split; [|apply makeSignInLinks_length].
  unfold makeAuthPage. run_rand. rewrite makeAuthPageLoop_entries.
  destruct (links authPort mnemonic authRequest hubUrl ids g) as [[ls|e] g'];
    [|done].
  by rewrite string_app_assoc.
Qed.

(** [X21]: once the request carries a token, the handler runs identity
    discovery before it looks at the token: the registry is left exactly
    as discovery leaves it, whatever the token is and whether or not it
    can be verified. A request without a token touches neither the
    registry nor the generator. *)
Theorem handleAuth_discovers_first
    (mnemonic gaiaHubUrl profileGaiaHub : string) (port : Z)
    (q : option string) (net : Network) (g : Rng) :
  match given q with
  | Some _ =>
      (auth mnemonic gaiaHubUrl profileGaiaHub port q net g).1.2
      = (discover mnemonic net).2
  | None =>
      auth mnemonic gaiaHubUrl profileGaiaHub port q net g
      = (AuthJSON {[ "error" := JStr "No authRequest given" ]} 400, net, g)
  end.
Proof.
  unfold handleAuth. destruct (given q) as [authToken|]; [|done].
  destruct (discover mnemonic net) as [[ids|e] net']; [|done].
  destruct (verifyAuthRequest authToken) as [[|]|]; try done.
  destruct (fetchAppManifest authToken) as [manifest|]; [|done].
  destruct (decodeAuthRequest authToken) as [[payload|]|]; try done.
  by destruct (makeAuthPage _ _ _ _ _ _ _ _ _ _ _ _ _ _ _ _ _ _ _ _ _ _ _)
    as [[authPage|e] g'].
Qed.

(** [X22]: the text of every error answer of [handleAuth]. All have status
    400. The message of the caught error is shown only when identity
    discovery failed; every later failure shows the message recorded last,
    so that a token that cannot be decoded and a page that cannot be built
    are both reported as 'Unable to fetch app manifest'. *)
Theorem handleAuth_error_text
    (mnemonic gaiaHubUrl profileGaiaHub : string) (port : Z)
    (q : option string) (net : Network) (g : Rng)
    (data : gmap string jsval) (c : Z) :
  (auth mnemonic gaiaHubUrl profileGaiaHub port q net g).1.1
    = AuthJSON data c →
  c = 400 ∧
  ( (given q = None ∧ data = {[ "error" := JStr "No authRequest given" ]})
  ∨ ∃ authToken, given q = Some authToken ∧
      ( (∃ e, (discover mnemonic net).1 = Rejected e ∧
              AuthJSON data c = authFailure (message e))
      ∨ (∃ e, verifyAuthRequest authToken = Rejected e ∧
              AuthJSON data c
                = authFailure "Unable to verify authentication token")
      ∨ (verifyAuthRequest authToken = Resolved false ∧
         AuthJSON data c
           = authFailure "Invalid authentication token: could not verify")
      ∨ (verifyAuthRequest authToken = Resolved true ∧
         decodeAuthRequest authToken = Resolved None ∧
         AuthJSON data c
           = authFailure "Invalid authentication token: no payload")
      ∨ (verifyAuthRequest authToken = Resolved true ∧
         AuthJSON data c = authFailure "Unable to fetch app manifest" ∧
         ( (∃ e, fetchAppManifest authToken = Rejected e)
         ∨ (∃ e, decodeAuthRequest authToken = Rejected e)
         ∨ (∃ ids manifest payload e,
              (discover mnemonic net).1 = Resolved ids ∧
              fetchAppManifest authToken = Resolved manifest ∧
              decodeAuthRequest authToken = Resolved (Some payload) ∧
              (page port mnemonic gaiaHubUrl manifest payload ids g).1
                = Rejected e) )) )).
Proof.
  unfold handleAuth. destruct (given q) as [authToken|].
  2: { intros [= <- <-]. split; [done|]. by left. }
  rewrite !authError_recorded by reflexivity.
  destruct (discover mnemonic net) as [[ids|e] net'] eqn:Hids.
  2: { unfold authError. cbn [fst]. intros [= <- <-]. split; [done|].
       right. exists authToken. split; [done|]. left. by exists e. }
  destruct (verifyAuthRequest authToken) as [[|]|e] eqn:Hvalid.
  3: { cbn [fst]. intros [= <- <-]. split; [done|].
       right. exists authToken. split; [done|]. right; left. by exists e. }
  2: { cbn [fst]. intros [= <- <-]. split; [done|].
       right. exists authToken. split; [done|]. right; right; left. done. }
  destruct (fetchAppManifest authToken) as [manifest|e] eqn:Hmanifest.
  2: { cbn [fst]. intros [= <- <-]. split; [done|].
       right. exists authToken. split; [done|]. do 4 right.
       split_and!; try done. left. by exists e. }
  destruct (decodeAuthRequest authToken) as [[payload|]|e] eqn:Hpayload.
  3: { cbn [fst]. intros [= <- <-]. split; [done|].
       right. exists authToken. split; [done|]. do 4 right.
       split_and!; try done. right; left. by exists e. }
  2: { cbn [fst]. intros [= <- <-]. split; [done|].
       right. exists authToken. split; [done|]. do 3 right. left. done. }
  destruct (page port mnemonic gaiaHubUrl manifest payload ids g)
    as [[authPage|e] g'] eqn:Hpage; [done|].
  cbn [fst]. intros [= <- <-]. split; [done|].
  right. exists authToken. split; [done|]. do 4 right.
  split_and!; try done. right; right.
  exists ids, manifest, payload, e. by rewrite Hpage.
Qed.

(** [X23]: when the application key information cannot be derived for
    one of the discovered identities, no page is served, and the answer
    blames the manifest although it was fetched: status 400 with the text
    'Unable to authenticate app request: Unable to fetch app manifest'. *)
Theorem handleAuth_key_failure_message
    (mnemonic gaiaHubUrl profileGaiaHub : string) (port : Z)
    (q : option string) (net : Network) (g : Rng) (authToken : string)
    (ids : list NamedIdentityType) (manifest : Manifest)
    (payload : AuthRequest) (id : NamedIdentityType) (e : error) :
  given q = Some authToken →
  (discover mnemonic net).1 = Resolved ids →
  verifyAuthRequest authToken = Resolved true →
  fetchAppManifest authToken = Resolved manifest →
  decodeAuthRequest authToken = Resolved (Some payload) →
  id ∈ ids →
  getApplicationKeyInfo mnemonic (idAddress id) (ar_domain_name payload)
    (index id) = Rejected e →
  (auth mnemonic gaiaHubUrl profileGaiaHub port q net g).1.1
    = authFailure "Unable to fetch app manifest".
Proof.
  intros Hq Hids Hvalid Hmanifest Hpayload Hin He. unfold handleAuth.
  rewrite Hq. destruct (discover mnemonic net) as [[ids'|e'] net']; [|done].
  simpl in Hids. injection Hids as ->.
  rewrite Hvalid, Hmanifest, Hpayload.
  pose proof (makeAuthPage_loop_fails port mnemonic gaiaHubUrl manifest payload
                ids id e Hin He g) as (e' & g' & ->).
  done.
Qed.


(** A name such as 'é.id' takes five bytes and four code units. *)
Example js_length_two_byte_character :
  js_length (String (Ascii.ascii_of_nat 195)
               (String (Ascii.ascii_of_nat 169) ".id")) = 4%nat ∧
  String.length (String (Ascii.ascii_of_nat 195)
                   (String (Ascii.ascii_of_nat 169) ".id")) = 5%nat.
Proof. split; reflexivity. Qed.

End SignInPageFacts.

Lemma signinEntry_plain_witness :
  signinEntry "http://localhost:8888/signin?encAuthResponse=signed-envelope"
    Sample.alice
  = "<p><a href=" +:+ dquote +:+
    "http://localhost:8888/signin?encAuthResponse=signed-envelope" +:+ dquote
    +:+ ">" +:+ "alice.id" +:+ "</a> (" +:+ "ID-1Alice" +:+ ")</p>".
Proof.
  apply (signinEntry_plain
           "http://localhost:8888/signin?encAuthResponse=signed-envelope"
           Sample.alice); reflexivity.
Defined.

Lemma handleAuth_error_text_witness :
  let data : gmap string jsval :=
    {[ "error" := JStr ("Unable to authenticate app request: " +:+
                        "Unable to fetch app manifest") ]} in
  400 = 400 ∧
  ( (given (Some "auth-request") = None ∧
     data = {[ "error" := JStr "No authRequest given" ]})
  ∨ ∃ authToken, given (Some "auth-request") = Some authToken ∧
      ( (∃ e, (getIdentityInfo "seed" Sample.ownerKey Sample.twoNames
                 Sample.allResolve Sample.idle).1 = Rejected e ∧
              AuthJSON data 400 = authError None e)
      ∨ (∃ e, Sample.verifyRequest authToken = Rejected e ∧
              AuthJSON data 400
                = authError (Some "Unable to verify authentication token") e)
      ∨ (Sample.verifyRequest authToken = Resolved false ∧
         AuthJSON data 400
           = authError (Some "Invalid authentication token: could not verify")
               (Error "Invalid authentication token: could not verify"))
      ∨ (Sample.verifyRequest authToken = Resolved true ∧
         Sample.decodeRequest authToken = Resolved None ∧
         AuthJSON data 400
           = authError (Some "Invalid authentication token: no payload")
               (Error "Invalid authentication token: no payload"))
      ∨ (Sample.verifyRequest authToken = Resolved true ∧
         AuthJSON data 400
           = authError (Some "Unable to fetch app manifest")
               (Error "cannot derive the application key") ∧
         ( (∃ e, Sample.fetchManifest authToken = Rejected e)
         ∨ (∃ e, Sample.decodeRequest authToken = Rejected e)
         ∨ (∃ ids manifest payload e,
              (getIdentityInfo "seed" Sample.ownerKey Sample.twoNames
                 Sample.allResolve Sample.idle).1 = Resolved ids ∧
              Sample.fetchManifest authToken = Resolved manifest ∧
              Sample.decodeRequest authToken = Resolved (Some payload) ∧
              (makeAuthPage "transit-key" "transit-pub" "https://core.example"
                 string Sample.noKeyInfo Sample.gaiaAddress Sample.extractKey
                 Sample.associationToken unit Sample.zeroSalt
                 Sample.authResponseFor Sample.decodeClaims Sample.signPayload
                 Sample.encrypt Sample.withParameter string 8888 "seed"
                 "https://hub.example" manifest payload ids tt).1
                = Rejected e) )) )).
Proof.
  apply (handleAuth_error_text "transit-key" "transit-pub"
           "https://core.example" string Sample.noKeyInfo Sample.gaiaAddress
           Sample.extractKey Sample.associationToken unit Sample.zeroSalt
           Sample.authResponseFor Sample.decodeClaims Sample.signPayload
           Sample.encrypt Sample.withParameter Sample.verifyRequest string
           Sample.fetchManifest Sample.decodeRequest Sample.ownerKey
           Sample.twoNames Sample.allResolve "seed" "https://hub.example"
           "https://profiles.example" 8888 (Some "auth-request") Sample.idle
           tt).
  vm_compute. reflexivity.
Defined.

Lemma handleAuth_key_failure_message_witness :
  (Sample.authWith Sample.noKeyInfo (Some "auth-request")).1.1
  = AuthJSON
      {[ "error" := JStr ("Unable to authenticate app request: " +:+
                          "Unable to fetch app manifest") ]} 400.
Proof.
  apply (handleAuth_key_failure_message "transit-key" "transit-pub"
           "https://core.example" string Sample.noKeyInfo Sample.gaiaAddress
           Sample.extractKey Sample.associationToken unit Sample.zeroSalt
           Sample.authResponseFor Sample.decodeClaims Sample.signPayload
           Sample.encrypt Sample.withParameter Sample.verifyRequest string
           Sample.fetchManifest Sample.decodeRequest Sample.ownerKey
           Sample.twoNames Sample.allResolve "seed" "https://hub.example"
           "https://profiles.example" 8888 (Some "auth-request") Sample.idle
           tt "auth-request"
           [attachOne (newIdentity "bob.id" (Sample.ownerKey "seed" 0) 0)
              Sample.bobData;
            loadUnnamedIdentity "seed" Sample.ownerKey 3]
           "manifest" Sample.authRequest
           (loadUnnamedIdentity "seed" Sample.ownerKey 3)
           (Error "cannot derive the application key")).
  - reflexivity.
  - vm_compute. reflexivity.
  - reflexivity.
  - reflexivity.
  - reflexivity.
  - rewrite !elem_of_cons. auto.
  - reflexivity.
Defined.


(** ** From the sign-in page to the sign-in handler *)

Section SignInLinkFacts.
(** What both handlers share. *)
Variable authTransitKey authTransitPubkey : string.
Variable AppKeyInfo : Type.
Variable getApplicationKeyInfo :
  string → string → string → Z → promise AppKeyInfo.
Variable getGaiaAddressFromProfile : option Profile → string → promise string.
Variable extractAppKey : AppKeyInfo → option string → promise string.
Variable updateQueryStringParameter : string → string → string → string.
(** The page builder. *)
Variable config_blockstackAPIUrl : string.
Variable makeAssociationToken : string → string → promise string.
Variable Rng : Type.
Variable randomBytes : nat → Rng → bytes * Rng.
Variable makeAuthResponse :
  string → jsval → string → jsval → jsval → string → jsval → option string →
  string → string → string → rand Rng string.
Variable decodePayload : string → promise (gmap string jsval).
Variable TokenSigner_sign : string → string → DecodedPayload → string.
Variable encryptContent : string → string → rand Rng jsval.
(** The sign-in handler; [TokenSigner_resign] is the signer of line 521. *)
Variable blockstackAPIUrl : string.
Variable gaiaConnect : string → string → promise GaiaHubConfig.
Variable gaiaUploadProfileAll :
  list string → string → string → string → promise UploadResult.
Variable nameLookup : string → promise (option NameData).
Variable makeProfileJWT : Profile → string → string.
Variable TokenVerifier_verify : string → string → string → promise bool.
Variable decodeToken : string → promise DecodedPayload.
Variable TokenSigner_resign : string → string → OutwardPayload → string.
Variable decryptContent : jsval → string → promise string.
Variable verifyAuthResponse : string → string → promise bool.

Local Abbreviation appKey :=
  (getAppPrivateKey AppKeyInfo getApplicationKeyInfo getGaiaAddressFromProfile
     extractAppKey).
Local Abbreviation link :=
  (makeSignInLink authTransitKey authTransitPubkey config_blockstackAPIUrl
     AppKeyInfo getApplicationKeyInfo getGaiaAddressFromProfile extractAppKey
     makeAssociationToken Rng randomBytes makeAuthResponse decodePayload
     TokenSigner_sign encryptContent updateQueryStringParameter).
Local Abbreviation linkParts :=
  (signInLinkParts authTransitKey authTransitPubkey config_blockstackAPIUrl
     AppKeyInfo getApplicationKeyInfo getGaiaAddressFromProfile extractAppKey
     makeAssociationToken Rng randomBytes makeAuthResponse decodePayload
     TokenSigner_sign encryptContent).
Local Abbreviation signIn :=
  (handleSignIn authTransitKey authTransitPubkey blockstackAPIUrl AppKeyInfo
     getApplicationKeyInfo getGaiaAddressFromProfile extractAppKey gaiaConnect
     gaiaUploadProfileAll nameLookup makeProfileJWT TokenVerifier_verify
     decodeToken TokenSigner_resign decryptContent verifyAuthResponse
     updateQueryStringParameter).
Local Abbreviation reconcile' :=
  (reconcile authTransitKey authTransitPubkey blockstackAPIUrl AppKeyInfo
     getApplicationKeyInfo getGaiaAddressFromProfile extractAppKey gaiaConnect
     nameLookup TokenVerifier_verify decodeToken TokenSigner_resign
     decryptContent verifyAuthResponse).

Ltac run_link :=
  unfold mbind, rand_bind, mret, rand_ret, settled, step_bind, step_ret,
    await, throw, setErrorMsg, setErrorStatusCode, hubCall in *.

(** The link is the sign-in URL of this process with the signed envelope
    as its [encAuthResponse] parameter. *)
Lemma makeSignInLink_parts authPort mnemonic authRequest hubUrl id g :
  link authPort mnemonic authRequest hubUrl id g =
  match linkParts mnemonic authRequest hubUrl id g with
  | (Resolved parts, g') =>
      (Resolved (updateQueryStringParameter
                   ("http://localhost:" +:+ pretty authPort +:+ "/signin")
                   "encAuthResponse" (lp_encAuthResponse parts)), g')
  | (Rejected e, g') => (Rejected e, g')
  end.
Proof.
  unfold makeSignInLink, signInLinkParts. run_link.
  destruct (getApplicationKeyInfo _ _ _ _); [|done].
  destruct (appKey _ _ _) as [appPrivateKey|]; [|done].
  destruct (makeAssociationToken _ _) as [associationToken|]; [|done].
  destruct (makeAuthResponse _ _ _ _ _ _ _ _ _ _ _ g) as [[tmp|] g1]; [|done].
  destruct (decodePayload tmp) as [payload|]; [|done].
  destruct (randomBytes 16 g1) as [salt g2].
  by destruct (encryptContent _ _ g2) as [[json|] g3].
Qed.

(** How the intermediate values hang together. *)
Lemma signInLinkParts_inv mnemonic authRequest hubUrl id g parts g' :
  linkParts mnemonic authRequest hubUrl id g = (Resolved parts, g') →
  appKey mnemonic id (ar_domain_name authRequest)
    = Resolved (lp_appPrivateKey parts) ∧
  lp_authResponse parts
    = TokenSigner_sign "ES256k" (privateKey id)
        (CredentialPayload (lp_claims parts)
           (linkMetadata authRequest id (lp_salt parts))) ∧
  lp_encAuthResponse parts
    = TokenSigner_sign "ES256k" authTransitKey
        (EnvelopePayload (lp_encryptedAuthResponseJSON parts)).
Proof.
  unfold signInLinkParts. run_link.
  destruct (getApplicationKeyInfo _ _ _ _); [|done].
  destruct (appKey _ _ _) as [appPrivateKey|]; [|done].
  destruct (makeAssociationToken _ _) as [associationToken|]; [|done].
  destruct (makeAuthResponse _ _ _ _ _ _ _ _ _ _ _ g) as [[tmp|] g1]; [|done].
  destruct (decodePayload tmp) as [payload|]; [|done].
  destruct (randomBytes 16 g1) as [salt g2].
  destruct (encryptContent _ _ g2) as [[json|] g3]; [|done].
  by intros [= <- _].
Qed.

(** [X25]: following a link of the sign-in page. Suppose the link was
    made for an identity and an authentication request, and the token
    library and the cipher undo on this link what was done to build it:
    the envelope verifies under the transit key and decodes to the
    encrypted credential, that decrypts to the credential, and the
    credential verifies and decodes to its claims and metadata. Then the
    handler of the link connects to the hub with the application key the
    link was made with, reconciles the profile of that identity for the
    domain of the request, uploads exactly when the profile changed and
    the request asked for 'store_write', and redirects to the
    [redirect_uri] of the request with the claims re-signed under the
    identity's key and only [profileUrl] left as metadata. *)
Theorem signInLink_round_trip (authPort : Z)
    (mnemonic hubUrl profileGaiaHub : string) (authRequest : AuthRequest)
    (id : NamedIdentityType) (g g' : Rng) (parts : LinkParts)
    (appHubConfig : GaiaHubConfig) (newProfileData : ProfileUpdate) :
  linkParts mnemonic authRequest hubUrl id g = (Resolved parts, g') →
  lp_encAuthResponse parts ≠ "" →
  TokenVerifier_verify "ES256K" authTransitPubkey (lp_encAuthResponse parts)
    = Resolved true →
  decodeToken (lp_encAuthResponse parts)
    = Resolved (EnvelopePayload (lp_encryptedAuthResponseJSON parts)) →
  decryptContent (lp_encryptedAuthResponseJSON parts) authTransitKey
    = Resolved (lp_authResponse parts) →
  verifyAuthResponse (lp_authResponse parts) (blockstackAPIUrl +:+ "/v1/names/")
    = Resolved true →
  decodeToken (lp_authResponse parts)
    = Resolved (CredentialPayload (lp_claims parts)
                  (linkMetadata authRequest id (lp_salt parts))) →
  gaiaConnect hubUrl (lp_appPrivateKey parts) = Resolved appHubConfig →
  updateProfileApps nameLookup id (ar_domain_name authRequest) appHubConfig
    = Resolved newProfileData →
  link authPort mnemonic authRequest hubUrl id g
    = (Resolved (updateQueryStringParameter
                   ("http://localhost:" +:+ pretty authPort +:+ "/signin")
                   "encAuthResponse" (lp_encAuthResponse parts)), g') ∧
  signIn mnemonic hubUrl profileGaiaHub (Some (lp_encAuthResponse parts)) =
    let connect := GaiaConnect hubUrl (lp_appPrivateKey parts) in
    let profileJWT :=
      makeProfileJWT (up_profile newProfileData) (privateKey id) in
    let upload :=
      GaiaUploadProfileAll [profileGaiaHub] profileJWT (privateKey id)
        (name id) in
    let redirect :=
      Redirect 302
        (updateQueryStringParameter (ar_redirect_uri authRequest)
           "authResponse"
           (TokenSigner_resign "ES256K" (privateKey id)
              {| op_claims := lp_claims parts;
                 op_metadata := {[ "profileUrl" := profileUrl id ]} |})) in
    if changed newProfileData && includes (ar_scopes authRequest) "store_write"
    then
      match gaiaUploadProfileAll [profileGaiaHub] profileJWT (privateKey id)
              (name id) with
      | Resolved gaiaUrls =>
          if uploadFailed gaiaUrls then
            (SendJSON
               {[ "error" :=
                    JStr ("Unable to process signin request: " +:+
                          ("Failed to upload new profile: " +:+
                           default "null" (upload_error gaiaUrls))) ]} 502,
             [connect; upload])
          else (redirect, [connect; upload])
      | Rejected _ =>
          (SendJSON
             {[ "error" :=
                  JStr "Unable to process signin request: undefined" ]} 400,
           [connect; upload])
      end
    else (redirect, [connect]).
Proof.
  intros Hparts Hne Hsig Henv Hdec Hver Hcred Hconn Hup.
  split; [by rewrite makeSignInLink_parts, Hparts|].
  destruct (signInLinkParts_inv _ _ _ _ _ _ _ Hparts) as (Hkey & _ & _).
  rewrite handleSignIn_cases.
  assert (given (Some (lp_encAuthResponse parts))
          = Some (lp_encAuthResponse parts)) as ->.
  { simpl. by apply String.eqb_neq in Hne as ->. }
  assert (reconcile' mnemonic hubUrl (lp_encAuthResponse parts) start
          = (Resolved (linkMetadata authRequest id (lp_salt parts),
                       TokenSigner_resign "ES256K" (privateKey id)
                         {| op_claims := lp_claims parts;
                            op_metadata := {[ "profileUrl" := profileUrl id ]} |},
                       newProfileData),
             {| errorMsg := None; errorStatusCode := 400;
                hubCalls := [GaiaConnect hubUrl (lp_appPrivateKey parts)] |}))
    as ->.
  { unfold reconcile, verifyAndDecrypt, rebuildAndConnect. run_link.
    rewrite Hsig. simpl. rewrite Henv. simpl. rewrite Hdec. simpl.
    rewrite Hver. simpl. rewrite Hcred. simpl. rewrite Hkey. simpl.
    rewrite Hconn. simpl. by rewrite Hup. }
  cbv zeta. simpl.
  destruct (changed newProfileData && includes _ _); [|done].
  destruct (gaiaUploadProfileAll _ _ _ _) as [gaiaUrls|]; [|done].
  by destruct (uploadFailed gaiaUrls).
Qed.
End SignInLinkFacts.

Lemma signInLink_round_trip_witness :
  makeSignInLink "transit-key" "transit-pub" "https://core.example" string
    Sample.appKeyInfo Sample.gaiaAddress Sample.extractKey
    Sample.associationToken unit Sample.zeroSalt Sample.authResponseFor
    Sample.decodeClaims Sample.signPayload Sample.encrypt Sample.withParameter
    8888 "seed" Sample.authRequest "https://hub.example" Sample.alice tt
  = (Resolved
       (Sample.withParameter ("http://localhost:" +:+ pretty 8888 +:+ "/signin")
          "encAuthResponse" "signed-envelope"), tt) ∧
  handleSignIn "transit-key" "transit-pub" "https://core.example" string
    Sample.appKeyInfo Sample.gaiaAddress Sample.extractKey Sample.connect
    Sample.uploadOk Sample.failingLookup Sample.profileJWT Sample.verifyToken
    Sample.decodeLinked Sample.sign Sample.decrypt Sample.verifyCredential
    Sample.withParameter "seed" "https://hub.example"
    "https://profiles.example" (Some "signed-envelope")
  = (Redirect 302
       "https://app.example/callback?authResponse=token(ES256K,a11ce)",
     [ GaiaConnect "https://hub.example"
         "appkey(seed|ID-1Alice|https://app.example|0)";
       GaiaUploadProfileAll ["https://profiles.example"] "jwt(a11ce)"
         "a11ce" "alice.id" ]).
Proof.
  apply (signInLink_round_trip "transit-key" "transit-pub" string
           Sample.appKeyInfo Sample.gaiaAddress Sample.extractKey
           Sample.withParameter "https://core.example"
           Sample.associationToken unit Sample.zeroSalt Sample.authResponseFor
           Sample.decodeClaims Sample.signPayload Sample.encrypt
           "https://core.example" Sample.connect Sample.uploadOk
           Sample.failingLookup Sample.profileJWT Sample.verifyToken
           Sample.decodeLinked Sample.sign Sample.decrypt
           Sample.verifyCredential 8888 "seed" "https://hub.example"
           "https://profiles.example" Sample.authRequest Sample.alice tt tt
           Sample.aliceParts Sample.hubConfig
           {| up_profile := Sample.repairedProfile; changed := true |}).
  - vm_compute. reflexivity.
  - discriminate.
  - reflexivity.
  - reflexivity.
  - reflexivity.
  - reflexivity.
  - vm_compute. reflexivity.
  - reflexivity.
  - vm_compute. reflexivity.
Defined.

(** ** The backup-phrase format, continued *)

Section BackupPhraseMore.
Variable validateMnemonic : string → bool.
Variable mnemonicToEntropy : string → promise string.
Variable entropyToMnemonic : string → promise string.
Variable Rng : Type.
Variable randomBytes : nat → Rng → bytes * Rng.
Variable pbkdf2Sync : string → bytes → Z → nat → string → bytes.
Variable createCipheriv : string → bytes → bytes → bytes → bytes.
Variable createDecipheriv : string → bytes → bytes → bytes → promise bytes.
Variable createHmac : string → bytes → bytes → bytes.
Variable createHash : string → bytes → bytes.
Variable triplesec_decrypt : string → bytes → promise bytes.

Local Abbreviation encrypt :=
  (encryptBackupPhrase validateMnemonic mnemonicToEntropy Rng randomBytes
     pbkdf2Sync createCipheriv createHmac).
Local Abbreviation decryptCurrent :=
  (decryptMnemonic validateMnemonic entropyToMnemonic pbkdf2Sync
     createDecipheriv createHmac createHash).
Local Abbreviation decrypt :=
  (decryptBackupPhrase validateMnemonic entropyToMnemonic pbkdf2Sync
     createDecipheriv createHmac createHash triplesec_decrypt).
Local Abbreviation keysOf password salt :=
  (pbkdf2Sync password salt 100000 48 "sha512").
Local Abbreviation encKeyOf password salt := (slice 0 16 (keysOf password salt)).
Local Abbreviation macKeyOf password salt := (slice 16 32 (keysOf password salt)).
Local Abbreviation ivOf password salt := (slice 32 48 (keysOf password salt)).

(** [X26]: round trip. A valid mnemonic encrypted under a password
    decrypts under the same password to the same mnemonic, as a string and
    in the current format, provided the primitives do their part: sixteen
    random bytes and a 32-byte HMAC are returned where asked for, the
    decipher undoes the cipher under the derived key and IV, and bip39
    rebuilds the mnemonic from its entropy. Encryption draws the salt and
    nothing else from the generator. *)
Theorem decryptBackupPhrase_round_trip (plaintext password : string) (g : Rng)
    (entropyHex : string) :
  let salt := (randomBytes 16 g).1 in
  let cipherText :=
    createCipheriv "aes-128-cbc" (encKeyOf password salt) (ivOf password salt)
      (from_hex entropyHex) in
  validateMnemonic plaintext = true →
  mnemonicToEntropy plaintext = Resolved entropyHex →
  entropyToMnemonic (to_hex (from_hex entropyHex)) = Resolved plaintext →
  length salt = 16%nat →
  length (createHmac "sha256" (macKeyOf password salt) (salt ++ cipherText))
    = 32%nat →
  createDecipheriv "aes-128-cbc" (encKeyOf password salt) (ivOf password salt)
    cipherText = Resolved (from_hex entropyHex) →
  ∃ dataBuffer,
    encrypt plaintext password g = (Resolved dataBuffer, (randomBytes 16 g).2) ∧
    length dataBuffer = (48 + length cipherText)%nat ∧
    decryptCurrent dataBuffer password = Resolved plaintext ∧
    decrypt dataBuffer password = Resolved (PhraseString plaintext).
Proof.
  cbv zeta. intros Hvalid Hentropy Hback Hsalt Htag Hdecipher.
  pose proof (encryptMnemonic_output validateMnemonic mnemonicToEntropy Rng
                randomBytes pbkdf2Sync createCipheriv createHmac plaintext
                password g entropyHex Hvalid Hentropy) as Henc.
  cbv zeta in Henc.
  match type of Henc with _ = (Resolved ?d, _) => exists d end.
  split; [exact Henc|].
  split; [rewrite !length_app; lia|].
  match type of Henc with _ = (Resolved ?d, _) =>
    assert (decrypt d password = Resolved (PhraseString plaintext)) as Hround
  end.
  { eapply (decryptBackupPhrase_encryptBackupPhrase validateMnemonic
              mnemonicToEntropy entropyToMnemonic Rng randomBytes pbkdf2Sync
              createCipheriv createDecipheriv createHmac createHash
              triplesec_decrypt plaintext password g entropyHex);
      try done.
    by rewrite Henc. }
  split; [|exact Hround].
  unfold decryptBackupPhrase in Hround.
  destruct (decryptCurrent _ password) as [m|e]; [by injection Hround as ->|].
  by destruct (triplesec_decrypt _ _).
Qed.

(** [X27]: encryption fails in two ways only, and both before any random
    byte is drawn: the text is not a valid mnemonic (the error reads 'Not
    a valid bip39 nmemonic'), or bip39 cannot turn it into entropy. In
    every other case it returns a buffer. *)
Theorem encryptBackupPhrase_failure (plaintext password : string) (g : Rng) :
  match encrypt plaintext password g with
  | (Rejected e, g') =>
      g' = g ∧
      ( (validateMnemonic plaintext = false ∧
         e = Error "Not a valid bip39 nmemonic")
      ∨ (validateMnemonic plaintext = true ∧
         mnemonicToEntropy plaintext = Rejected e) )
  | (Resolved _, g') =>
      g' = (randomBytes 16 g).2 ∧
      validateMnemonic plaintext = true ∧
      ∃ entropyHex, mnemonicToEntropy plaintext = Resolved entropyHex
  end.
Proof.
  unfold encryptBackupPhrase, encryptMnemonic, normalizeMnemonic.
  destruct (validateMnemonic plaintext); simpl; [|by auto].
  destruct (mnemonicToEntropy plaintext) as [entropyHex|e]; [|by auto].
  destruct (randomBytes 16 g) as [salt g']. simpl. eauto.
Qed.

(** [X28]: what the current format accepts. Whenever [decryptMnemonic]
    returns a mnemonic, the decipher ran to completion on the bytes after
    the first 48, the stored tag and the HMAC recomputed over salt and
    ciphertext have the same SHA-256 digest, and the mnemonic is the one
    bip39 builds from the deciphered bytes and declares valid. *)
Theorem decryptMnemonic_accepts_only_authentic (dataBuffer : bytes)
    (password mnemonic : string) :
  let salt := slice 0 16 dataBuffer in
  let cipherText := slice_from 48 dataBuffer in
  decryptCurrent dataBuffer password = Resolved mnemonic →
  to_hex (createHash "sha256" (slice 16 48 dataBuffer))
    = to_hex (createHash "sha256"
                (createHmac "sha256" (macKeyOf password salt)
                   (salt ++ cipherText))) ∧
  validateMnemonic mnemonic = true ∧
  ∃ decrypted,
    createDecipheriv "aes-128-cbc" (encKeyOf password salt)
      (ivOf password salt) cipherText = Resolved decrypted ∧
    entropyToMnemonic (to_hex decrypted) = Resolved mnemonic.
Proof.
  cbv zeta. unfold decryptMnemonic, denormalizeMnemonic.
  rewrite from_hex_to_hex.
  destruct (createDecipheriv _ _ _ _) as [decrypted|e]; [|done].
  unfold mbind, promise_bind, pthen.
  destruct (String.eqb _ _) eqn:Hmac; simpl negb; cbv iota; [|done].
  apply String.eqb_eq in Hmac.
  destruct (entropyToMnemonic _) as [m|e] eqn:Hm; [|done].
  destruct (validateMnemonic m) eqn:Hvalid; simpl negb; cbv iota; [|done].
  intros [= <-]. split_and!; try done. by exists decrypted.
Qed.
End BackupPhraseMore.

Lemma decryptBackupPhrase_round_trip_witness :
  ∃ dataBuffer,
    encryptBackupPhrase Sample.validate Sample.toEntropy unit Sample.zeroSalt
      Sample.pbkdf2 Sample.cipher Sample.hmacSha256 Sample.mnemonic
      "password" tt = (Resolved dataBuffer, tt) ∧
    length dataBuffer = (48 + length Sample.cipherText)%nat ∧
    decryptMnemonic Sample.validate Sample.toMnemonic Sample.pbkdf2
      Sample.decipher Sample.hmacSha256 Sample.sha256 dataBuffer "password"
      = Resolved Sample.mnemonic ∧
    decryptBackupPhrase Sample.validate Sample.toMnemonic Sample.pbkdf2
      Sample.decipher Sample.hmacSha256 Sample.sha256 Sample.legacy dataBuffer
      "password" = Resolved (PhraseString Sample.mnemonic).
Proof.
  apply (decryptBackupPhrase_round_trip Sample.validate Sample.toEntropy
           Sample.toMnemonic unit Sample.zeroSalt Sample.pbkdf2 Sample.cipher
           Sample.decipher Sample.hmacSha256 Sample.sha256 Sample.legacy
           Sample.mnemonic "password" tt Sample.entropyHex);
    vm_compute; reflexivity.
Defined.

Lemma decryptMnemonic_accepts_only_authentic_witness :
  to_hex (Sample.sha256 "sha256" (slice 16 48 Sample.backup))
    = to_hex (Sample.sha256 "sha256"
                (Sample.hmacSha256 "sha256"
                   (slice 16 32
                      (Sample.pbkdf2 "password" (slice 0 16 Sample.backup)
                         100000 48 "sha512"))
                   (slice 0 16 Sample.backup ++ slice_from 48 Sample.backup))) ∧
  Sample.validate Sample.mnemonic = true ∧
  ∃ decrypted,
    Sample.decipher "aes-128-cbc"
      (slice 0 16 (Sample.pbkdf2 "password" (slice 0 16 Sample.backup) 100000
                     48 "sha512"))
      (slice 32 48 (Sample.pbkdf2 "password" (slice 0 16 Sample.backup) 100000
                      48 "sha512"))
      (slice_from 48 Sample.backup) = Resolved decrypted ∧
    Sample.toMnemonic (to_hex decrypted) = Resolved Sample.mnemonic.
Proof.
  apply (decryptMnemonic_accepts_only_authentic Sample.validate
           Sample.toMnemonic Sample.pbkdf2 Sample.decipher Sample.hmacSha256
           Sample.sha256 Sample.backup "password" Sample.mnemonic).
  vm_compute. reflexivity.
Defined.
